(** * The Trino engine spec of [superset/db_engine_specs/trino.py]

    A shallow embedding of [TrinoEngineSpec]: the time-grain table, the
    datetime literal formatter, the URI adjuster, the impersonation hook
    and the builder of the TLS and authentication connection parameters,
    followed by the properties proved about them.

    Python [str] values are byte strings here (the UTF-8 encoding of the
    text); a [dict] with string keys is a [gmap string _]; a function that
    mutates an argument returns the argument's new value, also when it
    raises. *)

From Stdlib Require Import ZArith NArith String Ascii List Bool Lia.
From stdpp Require Import gmap strings.

Set Warnings "-register-all".
Local Open Scope string_scope.

(** ** The case mappings of Unicode

    [str.upper] maps each character on its own, so it is given by a
    table from code points to code points; over UTF-8 a character is
    found from its first byte. *)

Module Unicode.

(** The UTF-8 encoding of a code point. *)
Definition byte_of (n : N) : ascii := ascii_of_N n.

Definition utf8_char (cp : N) : string :=
  if (cp <? 0x80)%N then String (byte_of cp) EmptyString
  else if (cp <? 0x800)%N then
    String (byte_of (0xC0 + cp / 0x40))
      (String (byte_of (0x80 + cp mod 0x40)) EmptyString)
  else if (cp <? 0x10000)%N then
    String (byte_of (0xE0 + cp / 0x1000))
      (String (byte_of (0x80 + (cp / 0x40) mod 0x40))
         (String (byte_of (0x80 + cp mod 0x40)) EmptyString))
  else
    String (byte_of (0xF0 + cp / 0x40000))
      (String (byte_of (0x80 + (cp / 0x1000) mod 0x40))
         (String (byte_of (0x80 + (cp / 0x40) mod 0x40))
            (String (byte_of (0x80 + cp mod 0x40)) EmptyString))).

Fixpoint utf8 (cps : list N) : string :=
  match cps with
  | [] => EmptyString
  | cp :: rest => utf8_char cp ++ utf8 rest
  end.

(** The number of bytes of the character whose first byte is [b]. *)
Definition char_len (b : ascii) : nat :=
  let n := nat_of_ascii b in
  if (n <? 192)%nat then 1
  else if (n <? 224)%nat then 2
  else if (n <? 240)%nat then 3
  else 4.

(** The code points above U+007F that [str.upper] changes, each with the
    code points it writes in their place (Unicode 14.0.0, the data of
    CPython 3.11). *)
Definition to_upper : list (N * list N) := [
  (0xB5, [0x39C]); (0xDF, [0x53; 0x53]); (0xE0, [0xC0]); (0xE1, [0xC1]);
  (0xE2, [0xC2]); (0xE3, [0xC3]); (0xE4, [0xC4]); (0xE5, [0xC5]);
  (0xE6, [0xC6]); (0xE7, [0xC7]); (0xE8, [0xC8]); (0xE9, [0xC9]);
  (0xEA, [0xCA]); (0xEB, [0xCB]); (0xEC, [0xCC]); (0xED, [0xCD]);
  (0xEE, [0xCE]); (0xEF, [0xCF]); (0xF0, [0xD0]); (0xF1, [0xD1]);
  (0xF2, [0xD2]); (0xF3, [0xD3]); (0xF4, [0xD4]); (0xF5, [0xD5]);
  (0xF6, [0xD6]); (0xF8, [0xD8]); (0xF9, [0xD9]); (0xFA, [0xDA]);
  (0xFB, [0xDB]); (0xFC, [0xDC]); (0xFD, [0xDD]); (0xFE, [0xDE]);
  (0xFF, [0x178]); (0x101, [0x100]); (0x103, [0x102]); (0x105, [0x104]);
  (0x107, [0x106]); (0x109, [0x108]); (0x10B, [0x10A]); (0x10D, [0x10C]);
  (0x10F, [0x10E]); (0x111, [0x110]); (0x113, [0x112]); (0x115, [0x114]);
  (0x117, [0x116]); (0x119, [0x118]); (0x11B, [0x11A]); (0x11D, [0x11C]);
  (0x11F, [0x11E]); (0x121, [0x120]); (0x123, [0x122]); (0x125, [0x124]);
  (0x127, [0x126]); (0x129, [0x128]); (0x12B, [0x12A]); (0x12D, [0x12C]);
  (0x12F, [0x12E]); (0x131, [0x49]); (0x133, [0x132]); (0x135, [0x134]);
  (0x137, [0x136]); (0x13A, [0x139]); (0x13C, [0x13B]); (0x13E, [0x13D]);
  (0x140, [0x13F]); (0x142, [0x141]); (0x144, [0x143]); (0x146, [0x145]);
  (0x148, [0x147]); (0x149, [0x2BC; 0x4E]); (0x14B, [0x14A]);
  (0x14D, [0x14C]); (0x14F, [0x14E]); (0x151, [0x150]); (0x153, [0x152]);
  (0x155, [0x154]); (0x157, [0x156]); (0x159, [0x158]); (0x15B, [0x15A]);
  (0x15D, [0x15C]); (0x15F, [0x15E]); (0x161, [0x160]); (0x163, [0x162]);
  (0x165, [0x164]); (0x167, [0x166]); (0x169, [0x168]); (0x16B, [0x16A]);
  (0x16D, [0x16C]); (0x16F, [0x16E]); (0x171, [0x170]); (0x173, [0x172]);
  (0x175, [0x174]); (0x177, [0x176]); (0x17A, [0x179]); (0x17C, [0x17B]);
  (0x17E, [0x17D]); (0x17F, [0x53]); (0x180, [0x243]); (0x183, [0x182]);
  (0x185, [0x184]); (0x188, [0x187]); (0x18C, [0x18B]); (0x192, [0x191]);
  (0x195, [0x1F6]); (0x199, [0x198]); (0x19A, [0x23D]); (0x19E, [0x220]);
  (0x1A1, [0x1A0]); (0x1A3, [0x1A2]); (0x1A5, [0x1A4]); (0x1A8, [0x1A7]);
  (0x1AD, [0x1AC]); (0x1B0, [0x1AF]); (0x1B4, [0x1B3]); (0x1B6, [0x1B5]);
  (0x1B9, [0x1B8]); (0x1BD, [0x1BC]); (0x1BF, [0x1F7]); (0x1C5, [0x1C4]);
  (0x1C6, [0x1C4]); (0x1C8, [0x1C7]); (0x1C9, [0x1C7]); (0x1CB, [0x1CA]);
  (0x1CC, [0x1CA]); (0x1CE, [0x1CD]); (0x1D0, [0x1CF]); (0x1D2, [0x1D1]);
  (0x1D4, [0x1D3]); (0x1D6, [0x1D5]); (0x1D8, [0x1D7]); (0x1DA, [0x1D9]);
  (0x1DC, [0x1DB]); (0x1DD, [0x18E]); (0x1DF, [0x1DE]); (0x1E1, [0x1E0]);
  (0x1E3, [0x1E2]); (0x1E5, [0x1E4]); (0x1E7, [0x1E6]); (0x1E9, [0x1E8]);
  (0x1EB, [0x1EA]); (0x1ED, [0x1EC]); (0x1EF, [0x1EE]);
  (0x1F0, [0x4A; 0x30C]); (0x1F2, [0x1F1]); (0x1F3, [0x1F1]);
  (0x1F5, [0x1F4]); (0x1F9, [0x1F8]); (0x1FB, [0x1FA]); (0x1FD, [0x1FC]);
  (0x1FF, [0x1FE]); (0x201, [0x200]); (0x203, [0x202]); (0x205, [0x204]);
  (0x207, [0x206]); (0x209, [0x208]); (0x20B, [0x20A]); (0x20D, [0x20C]);
  (0x20F, [0x20E]); (0x211, [0x210]); (0x213, [0x212]); (0x215, [0x214]);
  (0x217, [0x216]); (0x219, [0x218]); (0x21B, [0x21A]); (0x21D, [0x21C]);
  (0x21F, [0x21E]); (0x223, [0x222]); (0x225, [0x224]); (0x227, [0x226]);
  (0x229, [0x228]); (0x22B, [0x22A]); (0x22D, [0x22C]); (0x22F, [0x22E]);
  (0x231, [0x230]); (0x233, [0x232]); (0x23C, [0x23B]); (0x23F, [0x2C7E]);
  (0x240, [0x2C7F]); (0x242, [0x241]); (0x247, [0x246]); (0x249, [0x248]);
  (0x24B, [0x24A]); (0x24D, [0x24C]); (0x24F, [0x24E]); (0x250, [0x2C6F]);
  (0x251, [0x2C6D]); (0x252, [0x2C70]); (0x253, [0x181]); (0x254, [0x186]);
  (0x256, [0x189]); (0x257, [0x18A]); (0x259, [0x18F]); (0x25B, [0x190]);
  (0x25C, [0xA7AB]); (0x260, [0x193]); (0x261, [0xA7AC]); (0x263, [0x194]);
  (0x265, [0xA78D]); (0x266, [0xA7AA]); (0x268, [0x197]); (0x269, [0x196]);
  (0x26A, [0xA7AE]); (0x26B, [0x2C62]); (0x26C, [0xA7AD]); (0x26F, [0x19C]);
  (0x271, [0x2C6E]); (0x272, [0x19D]); (0x275, [0x19F]); (0x27D, [0x2C64]);
  (0x280, [0x1A6]); (0x282, [0xA7C5]); (0x283, [0x1A9]); (0x287, [0xA7B1]);
  (0x288, [0x1AE]); (0x289, [0x244]); (0x28A, [0x1B1]); (0x28B, [0x1B2]);
  (0x28C, [0x245]); (0x292, [0x1B7]); (0x29D, [0xA7B2]); (0x29E, [0xA7B0]);
  (0x345, [0x399]); (0x371, [0x370]); (0x373, [0x372]); (0x377, [0x376]);
  (0x37B, [0x3FD]); (0x37C, [0x3FE]); (0x37D, [0x3FF]);
  (0x390, [0x399; 0x308; 0x301]); (0x3AC, [0x386]); (0x3AD, [0x388]);
  (0x3AE, [0x389]); (0x3AF, [0x38A]); (0x3B0, [0x3A5; 0x308; 0x301]);
  (0x3B1, [0x391]); (0x3B2, [0x392]); (0x3B3, [0x393]); (0x3B4, [0x394]);
  (0x3B5, [0x395]); (0x3B6, [0x396]); (0x3B7, [0x397]); (0x3B8, [0x398]);
  (0x3B9, [0x399]); (0x3BA, [0x39A]); (0x3BB, [0x39B]); (0x3BC, [0x39C]);
  (0x3BD, [0x39D]); (0x3BE, [0x39E]); (0x3BF, [0x39F]); (0x3C0, [0x3A0]);
  (0x3C1, [0x3A1]); (0x3C2, [0x3A3]); (0x3C3, [0x3A3]); (0x3C4, [0x3A4]);
  (0x3C5, [0x3A5]); (0x3C6, [0x3A6]); (0x3C7, [0x3A7]); (0x3C8, [0x3A8]);
  (0x3C9, [0x3A9]); (0x3CA, [0x3AA]); (0x3CB, [0x3AB]); (0x3CC, [0x38C]);
  (0x3CD, [0x38E]); (0x3CE, [0x38F]); (0x3D0, [0x392]); (0x3D1, [0x398]);
  (0x3D5, [0x3A6]); (0x3D6, [0x3A0]); (0x3D7, [0x3CF]); (0x3D9, [0x3D8]);
  (0x3DB, [0x3DA]); (0x3DD, [0x3DC]); (0x3DF, [0x3DE]); (0x3E1, [0x3E0]);
  (0x3E3, [0x3E2]); (0x3E5, [0x3E4]); (0x3E7, [0x3E6]); (0x3E9, [0x3E8]);
  (0x3EB, [0x3EA]); (0x3ED, [0x3EC]); (0x3EF, [0x3EE]); (0x3F0, [0x39A]);
  (0x3F1, [0x3A1]); (0x3F2, [0x3F9]); (0x3F3, [0x37F]); (0x3F5, [0x395]);
  (0x3F8, [0x3F7]); (0x3FB, [0x3FA]); (0x430, [0x410]); (0x431, [0x411]);
  (0x432, [0x412]); (0x433, [0x413]); (0x434, [0x414]); (0x435, [0x415]);
  (0x436, [0x416]); (0x437, [0x417]); (0x438, [0x418]); (0x439, [0x419]);
  (0x43A, [0x41A]); (0x43B, [0x41B]); (0x43C, [0x41C]); (0x43D, [0x41D]);
  (0x43E, [0x41E]); (0x43F, [0x41F]); (0x440, [0x420]); (0x441, [0x421]);
  (0x442, [0x422]); (0x443, [0x423]); (0x444, [0x424]); (0x445, [0x425]);
  (0x446, [0x426]); (0x447, [0x427]); (0x448, [0x428]); (0x449, [0x429]);
  (0x44A, [0x42A]); (0x44B, [0x42B]); (0x44C, [0x42C]); (0x44D, [0x42D]);
  (0x44E, [0x42E]); (0x44F, [0x42F]); (0x450, [0x400]); (0x451, [0x401]);
  (0x452, [0x402]); (0x453, [0x403]); (0x454, [0x404]); (0x455, [0x405]);
  (0x456, [0x406]); (0x457, [0x407]); (0x458, [0x408]); (0x459, [0x409]);
  (0x45A, [0x40A]); (0x45B, [0x40B]); (0x45C, [0x40C]); (0x45D, [0x40D]);
  (0x45E, [0x40E]); (0x45F, [0x40F]); (0x461, [0x460]); (0x463, [0x462]);
  (0x465, [0x464]); (0x467, [0x466]); (0x469, [0x468]); (0x46B, [0x46A]);
  (0x46D, [0x46C]); (0x46F, [0x46E]); (0x471, [0x470]); (0x473, [0x472]);
  (0x475, [0x474]); (0x477, [0x476]); (0x479, [0x478]); (0x47B, [0x47A]);
  (0x47D, [0x47C]); (0x47F, [0x47E]); (0x481, [0x480]); (0x48B, [0x48A]);
  (0x48D, [0x48C]); (0x48F, [0x48E]); (0x491, [0x490]); (0x493, [0x492]);
  (0x495, [0x494]); (0x497, [0x496]); (0x499, [0x498]); (0x49B, [0x49A]);
  (0x49D, [0x49C]); (0x49F, [0x49E]); (0x4A1, [0x4A0]); (0x4A3, [0x4A2]);
  (0x4A5, [0x4A4]); (0x4A7, [0x4A6]); (0x4A9, [0x4A8]); (0x4AB, [0x4AA]);
  (0x4AD, [0x4AC]); (0x4AF, [0x4AE]); (0x4B1, [0x4B0]); (0x4B3, [0x4B2]);
  (0x4B5, [0x4B4]); (0x4B7, [0x4B6]); (0x4B9, [0x4B8]); (0x4BB, [0x4BA]);
  (0x4BD, [0x4BC]); (0x4BF, [0x4BE]); (0x4C2, [0x4C1]); (0x4C4, [0x4C3]);
  (0x4C6, [0x4C5]); (0x4C8, [0x4C7]); (0x4CA, [0x4C9]); (0x4CC, [0x4CB]);
  (0x4CE, [0x4CD]); (0x4CF, [0x4C0]); (0x4D1, [0x4D0]); (0x4D3, [0x4D2]);
  (0x4D5, [0x4D4]); (0x4D7, [0x4D6]); (0x4D9, [0x4D8]); (0x4DB, [0x4DA]);
  (0x4DD, [0x4DC]); (0x4DF, [0x4DE]); (0x4E1, [0x4E0]); (0x4E3, [0x4E2]);
  (0x4E5, [0x4E4]); (0x4E7, [0x4E6]); (0x4E9, [0x4E8]); (0x4EB, [0x4EA]);
  (0x4ED, [0x4EC]); (0x4EF, [0x4EE]); (0x4F1, [0x4F0]); (0x4F3, [0x4F2]);
  (0x4F5, [0x4F4]); (0x4F7, [0x4F6]); (0x4F9, [0x4F8]); (0x4FB, [0x4FA]);
  (0x4FD, [0x4FC]); (0x4FF, [0x4FE]); (0x501, [0x500]); (0x503, [0x502]);
  (0x505, [0x504]); (0x507, [0x506]); (0x509, [0x508]); (0x50B, [0x50A]);
  (0x50D, [0x50C]); (0x50F, [0x50E]); (0x511, [0x510]); (0x513, [0x512]);
  (0x515, [0x514]); (0x517, [0x516]); (0x519, [0x518]); (0x51B, [0x51A]);
  (0x51D, [0x51C]); (0x51F, [0x51E]); (0x521, [0x520]); (0x523, [0x522]);
  (0x525, [0x524]); (0x527, [0x526]); (0x529, [0x528]); (0x52B, [0x52A]);
  (0x52D, [0x52C]); (0x52F, [0x52E]); (0x561, [0x531]); (0x562, [0x532]);
  (0x563, [0x533]); (0x564, [0x534]); (0x565, [0x535]); (0x566, [0x536]);
  (0x567, [0x537]); (0x568, [0x538]); (0x569, [0x539]); (0x56A, [0x53A]);
  (0x56B, [0x53B]); (0x56C, [0x53C]); (0x56D, [0x53D]); (0x56E, [0x53E]);
  (0x56F, [0x53F]); (0x570, [0x540]); (0x571, [0x541]); (0x572, [0x542]);
  (0x573, [0x543]); (0x574, [0x544]); (0x575, [0x545]); (0x576, [0x546]);
  (0x577, [0x547]); (0x578, [0x548]); (0x579, [0x549]); (0x57A, [0x54A]);
  (0x57B, [0x54B]); (0x57C, [0x54C]); (0x57D, [0x54D]); (0x57E, [0x54E]);
  (0x57F, [0x54F]); (0x580, [0x550]); (0x581, [0x551]); (0x582, [0x552]);
  (0x583, [0x553]); (0x584, [0x554]); (0x585, [0x555]); (0x586, [0x556]);
  (0x587, [0x535; 0x552]); (0x10D0, [0x1C90]); (0x10D1, [0x1C91]);
  (0x10D2, [0x1C92]); (0x10D3, [0x1C93]); (0x10D4, [0x1C94]);
  (0x10D5, [0x1C95]); (0x10D6, [0x1C96]); (0x10D7, [0x1C97]);
  (0x10D8, [0x1C98]); (0x10D9, [0x1C99]); (0x10DA, [0x1C9A]);
  (0x10DB, [0x1C9B]); (0x10DC, [0x1C9C]); (0x10DD, [0x1C9D]);
  (0x10DE, [0x1C9E]); (0x10DF, [0x1C9F]); (0x10E0, [0x1CA0]);
  (0x10E1, [0x1CA1]); (0x10E2, [0x1CA2]); (0x10E3, [0x1CA3]);
  (0x10E4, [0x1CA4]); (0x10E5, [0x1CA5]); (0x10E6, [0x1CA6]);
  (0x10E7, [0x1CA7]); (0x10E8, [0x1CA8]); (0x10E9, [0x1CA9]);
  (0x10EA, [0x1CAA]); (0x10EB, [0x1CAB]); (0x10EC, [0x1CAC]);
  (0x10ED, [0x1CAD]); (0x10EE, [0x1CAE]); (0x10EF, [0x1CAF]);
  (0x10F0, [0x1CB0]); (0x10F1, [0x1CB1]); (0x10F2, [0x1CB2]);
  (0x10F3, [0x1CB3]); (0x10F4, [0x1CB4]); (0x10F5, [0x1CB5]);
  (0x10F6, [0x1CB6]); (0x10F7, [0x1CB7]); (0x10F8, [0x1CB8]);
  (0x10F9, [0x1CB9]); (0x10FA, [0x1CBA]); (0x10FD, [0x1CBD]);
  (0x10FE, [0x1CBE]); (0x10FF, [0x1CBF]); (0x13F8, [0x13F0]);
  (0x13F9, [0x13F1]); (0x13FA, [0x13F2]); (0x13FB, [0x13F3]);
  (0x13FC, [0x13F4]); (0x13FD, [0x13F5]); (0x1C80, [0x412]);
  (0x1C81, [0x414]); (0x1C82, [0x41E]); (0x1C83, [0x421]); (0x1C84, [0x422]);
  (0x1C85, [0x422]); (0x1C86, [0x42A]); (0x1C87, [0x462]);
  (0x1C88, [0xA64A]); (0x1D79, [0xA77D]); (0x1D7D, [0x2C63]);
  (0x1D8E, [0xA7C6]); (0x1E01, [0x1E00]); (0x1E03, [0x1E02]);
  (0x1E05, [0x1E04]); (0x1E07, [0x1E06]); (0x1E09, [0x1E08]);
  (0x1E0B, [0x1E0A]); (0x1E0D, [0x1E0C]); (0x1E0F, [0x1E0E]);
  (0x1E11, [0x1E10]); (0x1E13, [0x1E12]); (0x1E15, [0x1E14]);
  (0x1E17, [0x1E16]); (0x1E19, [0x1E18]); (0x1E1B, [0x1E1A]);
  (0x1E1D, [0x1E1C]); (0x1E1F, [0x1E1E]); (0x1E21, [0x1E20]);
  (0x1E23, [0x1E22]); (0x1E25, [0x1E24]); (0x1E27, [0x1E26]);
  (0x1E29, [0x1E28]); (0x1E2B, [0x1E2A]); (0x1E2D, [0x1E2C]);
  (0x1E2F, [0x1E2E]); (0x1E31, [0x1E30]); (0x1E33, [0x1E32]);
  (0x1E35, [0x1E34]); (0x1E37, [0x1E36]); (0x1E39, [0x1E38]);
  (0x1E3B, [0x1E3A]); (0x1E3D, [0x1E3C]); (0x1E3F, [0x1E3E]);
  (0x1E41, [0x1E40]); (0x1E43, [0x1E42]); (0x1E45, [0x1E44]);
  (0x1E47, [0x1E46]); (0x1E49, [0x1E48]); (0x1E4B, [0x1E4A]);
  (0x1E4D, [0x1E4C]); (0x1E4F, [0x1E4E]); (0x1E51, [0x1E50]);
  (0x1E53, [0x1E52]); (0x1E55, [0x1E54]); (0x1E57, [0x1E56]);
  (0x1E59, [0x1E58]); (0x1E5B, [0x1E5A]); (0x1E5D, [0x1E5C]);
  (0x1E5F, [0x1E5E]); (0x1E61, [0x1E60]); (0x1E63, [0x1E62]);
  (0x1E65, [0x1E64]); (0x1E67, [0x1E66]); (0x1E69, [0x1E68]);
  (0x1E6B, [0x1E6A]); (0x1E6D, [0x1E6C]); (0x1E6F, [0x1E6E]);
  (0x1E71, [0x1E70]); (0x1E73, [0x1E72]); (0x1E75, [0x1E74]);
  (0x1E77, [0x1E76]); (0x1E79, [0x1E78]); (0x1E7B, [0x1E7A]);
  (0x1E7D, [0x1E7C]); (0x1E7F, [0x1E7E]); (0x1E81, [0x1E80]);
  (0x1E83, [0x1E82]); (0x1E85, [0x1E84]); (0x1E87, [0x1E86]);
  (0x1E89, [0x1E88]); (0x1E8B, [0x1E8A]); (0x1E8D, [0x1E8C]);
  (0x1E8F, [0x1E8E]); (0x1E91, [0x1E90]); (0x1E93, [0x1E92]);
  (0x1E95, [0x1E94]); (0x1E96, [0x48; 0x331]); (0x1E97, [0x54; 0x308]);
  (0x1E98, [0x57; 0x30A]); (0x1E99, [0x59; 0x30A]); (0x1E9A, [0x41; 0x2BE]);
  (0x1E9B, [0x1E60]); (0x1EA1, [0x1EA0]); (0x1EA3, [0x1EA2]);
  (0x1EA5, [0x1EA4]); (0x1EA7, [0x1EA6]); (0x1EA9, [0x1EA8]);
  (0x1EAB, [0x1EAA]); (0x1EAD, [0x1EAC]); (0x1EAF, [0x1EAE]);
  (0x1EB1, [0x1EB0]); (0x1EB3, [0x1EB2]); (0x1EB5, [0x1EB4]);
  (0x1EB7, [0x1EB6]); (0x1EB9, [0x1EB8]); (0x1EBB, [0x1EBA]);
  (0x1EBD, [0x1EBC]); (0x1EBF, [0x1EBE]); (0x1EC1, [0x1EC0]);
  (0x1EC3, [0x1EC2]); (0x1EC5, [0x1EC4]); (0x1EC7, [0x1EC6]);
  (0x1EC9, [0x1EC8]); (0x1ECB, [0x1ECA]); (0x1ECD, [0x1ECC]);
  (0x1ECF, [0x1ECE]); (0x1ED1, [0x1ED0]); (0x1ED3, [0x1ED2]);
  (0x1ED5, [0x1ED4]); (0x1ED7, [0x1ED6]); (0x1ED9, [0x1ED8]);
  (0x1EDB, [0x1EDA]); (0x1EDD, [0x1EDC]); (0x1EDF, [0x1EDE]);
  (0x1EE1, [0x1EE0]); (0x1EE3, [0x1EE2]); (0x1EE5, [0x1EE4]);
  (0x1EE7, [0x1EE6]); (0x1EE9, [0x1EE8]); (0x1EEB, [0x1EEA]);
  (0x1EED, [0x1EEC]); (0x1EEF, [0x1EEE]); (0x1EF1, [0x1EF0]);
  (0x1EF3, [0x1EF2]); (0x1EF5, [0x1EF4]); (0x1EF7, [0x1EF6]);
  (0x1EF9, [0x1EF8]); (0x1EFB, [0x1EFA]); (0x1EFD, [0x1EFC]);
  (0x1EFF, [0x1EFE]); (0x1F00, [0x1F08]); (0x1F01, [0x1F09]);
  (0x1F02, [0x1F0A]); (0x1F03, [0x1F0B]); (0x1F04, [0x1F0C]);
  (0x1F05, [0x1F0D]); (0x1F06, [0x1F0E]); (0x1F07, [0x1F0F]);
  (0x1F10, [0x1F18]); (0x1F11, [0x1F19]); (0x1F12, [0x1F1A]);
  (0x1F13, [0x1F1B]); (0x1F14, [0x1F1C]); (0x1F15, [0x1F1D]);
  (0x1F20, [0x1F28]); (0x1F21, [0x1F29]); (0x1F22, [0x1F2A]);
  (0x1F23, [0x1F2B]); (0x1F24, [0x1F2C]); (0x1F25, [0x1F2D]);
  (0x1F26, [0x1F2E]); (0x1F27, [0x1F2F]); (0x1F30, [0x1F38]);
  (0x1F31, [0x1F39]); (0x1F32, [0x1F3A]); (0x1F33, [0x1F3B]);
  (0x1F34, [0x1F3C]); (0x1F35, [0x1F3D]); (0x1F36, [0x1F3E]);
  (0x1F37, [0x1F3F]); (0x1F40, [0x1F48]); (0x1F41, [0x1F49]);
  (0x1F42, [0x1F4A]); (0x1F43, [0x1F4B]); (0x1F44, [0x1F4C]);
  (0x1F45, [0x1F4D]); (0x1F50, [0x3A5; 0x313]); (0x1F51, [0x1F59]);
  (0x1F52, [0x3A5; 0x313; 0x300]); (0x1F53, [0x1F5B]);
  (0x1F54, [0x3A5; 0x313; 0x301]); (0x1F55, [0x1F5D]);
  (0x1F56, [0x3A5; 0x313; 0x342]); (0x1F57, [0x1F5F]); (0x1F60, [0x1F68]);
  (0x1F61, [0x1F69]); (0x1F62, [0x1F6A]); (0x1F63, [0x1F6B]);
  (0x1F64, [0x1F6C]); (0x1F65, [0x1F6D]); (0x1F66, [0x1F6E]);
  (0x1F67, [0x1F6F]); (0x1F70, [0x1FBA]); (0x1F71, [0x1FBB]);
  (0x1F72, [0x1FC8]); (0x1F73, [0x1FC9]); (0x1F74, [0x1FCA]);
  (0x1F75, [0x1FCB]); (0x1F76, [0x1FDA]); (0x1F77, [0x1FDB]);
  (0x1F78, [0x1FF8]); (0x1F79, [0x1FF9]); (0x1F7A, [0x1FEA]);
  (0x1F7B, [0x1FEB]); (0x1F7C, [0x1FFA]); (0x1F7D, [0x1FFB]);
  (0x1F80, [0x1F08; 0x399]); (0x1F81, [0x1F09; 0x399]);
  (0x1F82, [0x1F0A; 0x399]); (0x1F83, [0x1F0B; 0x399]);
  (0x1F84, [0x1F0C; 0x399]); (0x1F85, [0x1F0D; 0x399]);
  (0x1F86, [0x1F0E; 0x399]); (0x1F87, [0x1F0F; 0x399]);
  (0x1F88, [0x1F08; 0x399]); (0x1F89, [0x1F09; 0x399]);
  (0x1F8A, [0x1F0A; 0x399]); (0x1F8B, [0x1F0B; 0x399]);
  (0x1F8C, [0x1F0C; 0x399]); (0x1F8D, [0x1F0D; 0x399]);
  (0x1F8E, [0x1F0E; 0x399]); (0x1F8F, [0x1F0F; 0x399]);
  (0x1F90, [0x1F28; 0x399]); (0x1F91, [0x1F29; 0x399]);
  (0x1F92, [0x1F2A; 0x399]); (0x1F93, [0x1F2B; 0x399]);
  (0x1F94, [0x1F2C; 0x399]); (0x1F95, [0x1F2D; 0x399]);
  (0x1F96, [0x1F2E; 0x399]); (0x1F97, [0x1F2F; 0x399]);
  (0x1F98, [0x1F28; 0x399]); (0x1F99, [0x1F29; 0x399]);
  (0x1F9A, [0x1F2A; 0x399]); (0x1F9B, [0x1F2B; 0x399]);
  (0x1F9C, [0x1F2C; 0x399]); (0x1F9D, [0x1F2D; 0x399]);
  (0x1F9E, [0x1F2E; 0x399]); (0x1F9F, [0x1F2F; 0x399]);
  (0x1FA0, [0x1F68; 0x399]); (0x1FA1, [0x1F69; 0x399]);
  (0x1FA2, [0x1F6A; 0x399]); (0x1FA3, [0x1F6B; 0x399]);
  (0x1FA4, [0x1F6C; 0x399]); (0x1FA5, [0x1F6D; 0x399]);
  (0x1FA6, [0x1F6E; 0x399]); (0x1FA7, [0x1F6F; 0x399]);
  (0x1FA8, [0x1F68; 0x399]); (0x1FA9, [0x1F69; 0x399]);
  (0x1FAA, [0x1F6A; 0x399]); (0x1FAB, [0x1F6B; 0x399]);
  (0x1FAC, [0x1F6C; 0x399]); (0x1FAD, [0x1F6D; 0x399]);
  (0x1FAE, [0x1F6E; 0x399]); (0x1FAF, [0x1F6F; 0x399]); (0x1FB0, [0x1FB8]);
  (0x1FB1, [0x1FB9]); (0x1FB2, [0x1FBA; 0x399]); (0x1FB3, [0x391; 0x399]);
  (0x1FB4, [0x386; 0x399]); (0x1FB6, [0x391; 0x342]);
  (0x1FB7, [0x391; 0x342; 0x399]); (0x1FBC, [0x391; 0x399]);
  (0x1FBE, [0x399]); (0x1FC2, [0x1FCA; 0x399]); (0x1FC3, [0x397; 0x399]);
  (0x1FC4, [0x389; 0x399]); (0x1FC6, [0x397; 0x342]);
  (0x1FC7, [0x397; 0x342; 0x399]); (0x1FCC, [0x397; 0x399]);
  (0x1FD0, [0x1FD8]); (0x1FD1, [0x1FD9]); (0x1FD2, [0x399; 0x308; 0x300]);
  (0x1FD3, [0x399; 0x308; 0x301]); (0x1FD6, [0x399; 0x342]);
  (0x1FD7, [0x399; 0x308; 0x342]); (0x1FE0, [0x1FE8]); (0x1FE1, [0x1FE9]);
  (0x1FE2, [0x3A5; 0x308; 0x300]); (0x1FE3, [0x3A5; 0x308; 0x301]);
  (0x1FE4, [0x3A1; 0x313]); (0x1FE5, [0x1FEC]); (0x1FE6, [0x3A5; 0x342]);
  (0x1FE7, [0x3A5; 0x308; 0x342]); (0x1FF2, [0x1FFA; 0x399]);
  (0x1FF3, [0x3A9; 0x399]); (0x1FF4, [0x38F; 0x399]);
  (0x1FF6, [0x3A9; 0x342]); (0x1FF7, [0x3A9; 0x342; 0x399]);
  (0x1FFC, [0x3A9; 0x399]); (0x214E, [0x2132]); (0x2170, [0x2160]);
  (0x2171, [0x2161]); (0x2172, [0x2162]); (0x2173, [0x2163]);
  (0x2174, [0x2164]); (0x2175, [0x2165]); (0x2176, [0x2166]);
  (0x2177, [0x2167]); (0x2178, [0x2168]); (0x2179, [0x2169]);
  (0x217A, [0x216A]); (0x217B, [0x216B]); (0x217C, [0x216C]);
  (0x217D, [0x216D]); (0x217E, [0x216E]); (0x217F, [0x216F]);
  (0x2184, [0x2183]); (0x24D0, [0x24B6]); (0x24D1, [0x24B7]);
  (0x24D2, [0x24B8]); (0x24D3, [0x24B9]); (0x24D4, [0x24BA]);
  (0x24D5, [0x24BB]); (0x24D6, [0x24BC]); (0x24D7, [0x24BD]);
  (0x24D8, [0x24BE]); (0x24D9, [0x24BF]); (0x24DA, [0x24C0]);
  (0x24DB, [0x24C1]); (0x24DC, [0x24C2]); (0x24DD, [0x24C3]);
  (0x24DE, [0x24C4]); (0x24DF, [0x24C5]); (0x24E0, [0x24C6]);
  (0x24E1, [0x24C7]); (0x24E2, [0x24C8]); (0x24E3, [0x24C9]);
  (0x24E4, [0x24CA]); (0x24E5, [0x24CB]); (0x24E6, [0x24CC]);
  (0x24E7, [0x24CD]); (0x24E8, [0x24CE]); (0x24E9, [0x24CF]);
  (0x2C30, [0x2C00]); (0x2C31, [0x2C01]); (0x2C32, [0x2C02]);
  (0x2C33, [0x2C03]); (0x2C34, [0x2C04]); (0x2C35, [0x2C05]);
  (0x2C36, [0x2C06]); (0x2C37, [0x2C07]); (0x2C38, [0x2C08]);
  (0x2C39, [0x2C09]); (0x2C3A, [0x2C0A]); (0x2C3B, [0x2C0B]);
  (0x2C3C, [0x2C0C]); (0x2C3D, [0x2C0D]); (0x2C3E, [0x2C0E]);
  (0x2C3F, [0x2C0F]); (0x2C40, [0x2C10]); (0x2C41, [0x2C11]);
  (0x2C42, [0x2C12]); (0x2C43, [0x2C13]); (0x2C44, [0x2C14]);
  (0x2C45, [0x2C15]); (0x2C46, [0x2C16]); (0x2C47, [0x2C17]);
  (0x2C48, [0x2C18]); (0x2C49, [0x2C19]); (0x2C4A, [0x2C1A]);
  (0x2C4B, [0x2C1B]); (0x2C4C, [0x2C1C]); (0x2C4D, [0x2C1D]);
  (0x2C4E, [0x2C1E]); (0x2C4F, [0x2C1F]); (0x2C50, [0x2C20]);
  (0x2C51, [0x2C21]); (0x2C52, [0x2C22]); (0x2C53, [0x2C23]);
  (0x2C54, [0x2C24]); (0x2C55, [0x2C25]); (0x2C56, [0x2C26]);
  (0x2C57, [0x2C27]); (0x2C58, [0x2C28]); (0x2C59, [0x2C29]);
  (0x2C5A, [0x2C2A]); (0x2C5B, [0x2C2B]); (0x2C5C, [0x2C2C]);
  (0x2C5D, [0x2C2D]); (0x2C5E, [0x2C2E]); (0x2C5F, [0x2C2F]);
  (0x2C61, [0x2C60]); (0x2C65, [0x23A]); (0x2C66, [0x23E]);
  (0x2C68, [0x2C67]); (0x2C6A, [0x2C69]); (0x2C6C, [0x2C6B]);
  (0x2C73, [0x2C72]); (0x2C76, [0x2C75]); (0x2C81, [0x2C80]);
  (0x2C83, [0x2C82]); (0x2C85, [0x2C84]); (0x2C87, [0x2C86]);
  (0x2C89, [0x2C88]); (0x2C8B, [0x2C8A]); (0x2C8D, [0x2C8C]);
  (0x2C8F, [0x2C8E]); (0x2C91, [0x2C90]); (0x2C93, [0x2C92]);
  (0x2C95, [0x2C94]); (0x2C97, [0x2C96]); (0x2C99, [0x2C98]);
  (0x2C9B, [0x2C9A]); (0x2C9D, [0x2C9C]); (0x2C9F, [0x2C9E]);
  (0x2CA1, [0x2CA0]); (0x2CA3, [0x2CA2]); (0x2CA5, [0x2CA4]);
  (0x2CA7, [0x2CA6]); (0x2CA9, [0x2CA8]); (0x2CAB, [0x2CAA]);
  (0x2CAD, [0x2CAC]); (0x2CAF, [0x2CAE]); (0x2CB1, [0x2CB0]);
  (0x2CB3, [0x2CB2]); (0x2CB5, [0x2CB4]); (0x2CB7, [0x2CB6]);
  (0x2CB9, [0x2CB8]); (0x2CBB, [0x2CBA]); (0x2CBD, [0x2CBC]);
  (0x2CBF, [0x2CBE]); (0x2CC1, [0x2CC0]); (0x2CC3, [0x2CC2]);
  (0x2CC5, [0x2CC4]); (0x2CC7, [0x2CC6]); (0x2CC9, [0x2CC8]);
  (0x2CCB, [0x2CCA]); (0x2CCD, [0x2CCC]); (0x2CCF, [0x2CCE]);
  (0x2CD1, [0x2CD0]); (0x2CD3, [0x2CD2]); (0x2CD5, [0x2CD4]);
  (0x2CD7, [0x2CD6]); (0x2CD9, [0x2CD8]); (0x2CDB, [0x2CDA]);
  (0x2CDD, [0x2CDC]); (0x2CDF, [0x2CDE]); (0x2CE1, [0x2CE0]);
  (0x2CE3, [0x2CE2]); (0x2CEC, [0x2CEB]); (0x2CEE, [0x2CED]);
  (0x2CF3, [0x2CF2]); (0x2D00, [0x10A0]); (0x2D01, [0x10A1]);
  (0x2D02, [0x10A2]); (0x2D03, [0x10A3]); (0x2D04, [0x10A4]);
  (0x2D05, [0x10A5]); (0x2D06, [0x10A6]); (0x2D07, [0x10A7]);
  (0x2D08, [0x10A8]); (0x2D09, [0x10A9]); (0x2D0A, [0x10AA]);
  (0x2D0B, [0x10AB]); (0x2D0C, [0x10AC]); (0x2D0D, [0x10AD]);
  (0x2D0E, [0x10AE]); (0x2D0F, [0x10AF]); (0x2D10, [0x10B0]);
  (0x2D11, [0x10B1]); (0x2D12, [0x10B2]); (0x2D13, [0x10B3]);
  (0x2D14, [0x10B4]); (0x2D15, [0x10B5]); (0x2D16, [0x10B6]);
  (0x2D17, [0x10B7]); (0x2D18, [0x10B8]); (0x2D19, [0x10B9]);
  (0x2D1A, [0x10BA]); (0x2D1B, [0x10BB]); (0x2D1C, [0x10BC]);
  (0x2D1D, [0x10BD]); (0x2D1E, [0x10BE]); (0x2D1F, [0x10BF]);
  (0x2D20, [0x10C0]); (0x2D21, [0x10C1]); (0x2D22, [0x10C2]);
  (0x2D23, [0x10C3]); (0x2D24, [0x10C4]); (0x2D25, [0x10C5]);
  (0x2D27, [0x10C7]); (0x2D2D, [0x10CD]); (0xA641, [0xA640]);
  (0xA643, [0xA642]); (0xA645, [0xA644]); (0xA647, [0xA646]);
  (0xA649, [0xA648]); (0xA64B, [0xA64A]); (0xA64D, [0xA64C]);
  (0xA64F, [0xA64E]); (0xA651, [0xA650]); (0xA653, [0xA652]);
  (0xA655, [0xA654]); (0xA657, [0xA656]); (0xA659, [0xA658]);
  (0xA65B, [0xA65A]); (0xA65D, [0xA65C]); (0xA65F, [0xA65E]);
  (0xA661, [0xA660]); (0xA663, [0xA662]); (0xA665, [0xA664]);
  (0xA667, [0xA666]); (0xA669, [0xA668]); (0xA66B, [0xA66A]);
  (0xA66D, [0xA66C]); (0xA681, [0xA680]); (0xA683, [0xA682]);
  (0xA685, [0xA684]); (0xA687, [0xA686]); (0xA689, [0xA688]);
  (0xA68B, [0xA68A]); (0xA68D, [0xA68C]); (0xA68F, [0xA68E]);
  (0xA691, [0xA690]); (0xA693, [0xA692]); (0xA695, [0xA694]);
  (0xA697, [0xA696]); (0xA699, [0xA698]); (0xA69B, [0xA69A]);
  (0xA723, [0xA722]); (0xA725, [0xA724]); (0xA727, [0xA726]);
  (0xA729, [0xA728]); (0xA72B, [0xA72A]); (0xA72D, [0xA72C]);
  (0xA72F, [0xA72E]); (0xA733, [0xA732]); (0xA735, [0xA734]);
  (0xA737, [0xA736]); (0xA739, [0xA738]); (0xA73B, [0xA73A]);
  (0xA73D, [0xA73C]); (0xA73F, [0xA73E]); (0xA741, [0xA740]);
  (0xA743, [0xA742]); (0xA745, [0xA744]); (0xA747, [0xA746]);
  (0xA749, [0xA748]); (0xA74B, [0xA74A]); (0xA74D, [0xA74C]);
  (0xA74F, [0xA74E]); (0xA751, [0xA750]); (0xA753, [0xA752]);
  (0xA755, [0xA754]); (0xA757, [0xA756]); (0xA759, [0xA758]);
  (0xA75B, [0xA75A]); (0xA75D, [0xA75C]); (0xA75F, [0xA75E]);
  (0xA761, [0xA760]); (0xA763, [0xA762]); (0xA765, [0xA764]);
  (0xA767, [0xA766]); (0xA769, [0xA768]); (0xA76B, [0xA76A]);
  (0xA76D, [0xA76C]); (0xA76F, [0xA76E]); (0xA77A, [0xA779]);
  (0xA77C, [0xA77B]); (0xA77F, [0xA77E]); (0xA781, [0xA780]);
  (0xA783, [0xA782]); (0xA785, [0xA784]); (0xA787, [0xA786]);
  (0xA78C, [0xA78B]); (0xA791, [0xA790]); (0xA793, [0xA792]);
  (0xA794, [0xA7C4]); (0xA797, [0xA796]); (0xA799, [0xA798]);
  (0xA79B, [0xA79A]); (0xA79D, [0xA79C]); (0xA79F, [0xA79E]);
  (0xA7A1, [0xA7A0]); (0xA7A3, [0xA7A2]); (0xA7A5, [0xA7A4]);
  (0xA7A7, [0xA7A6]); (0xA7A9, [0xA7A8]); (0xA7B5, [0xA7B4]);
  (0xA7B7, [0xA7B6]); (0xA7B9, [0xA7B8]); (0xA7BB, [0xA7BA]);
  (0xA7BD, [0xA7BC]); (0xA7BF, [0xA7BE]); (0xA7C1, [0xA7C0]);
  (0xA7C3, [0xA7C2]); (0xA7C8, [0xA7C7]); (0xA7CA, [0xA7C9]);
  (0xA7D1, [0xA7D0]); (0xA7D7, [0xA7D6]); (0xA7D9, [0xA7D8]);
  (0xA7F6, [0xA7F5]); (0xAB53, [0xA7B3]); (0xAB70, [0x13A0]);
  (0xAB71, [0x13A1]); (0xAB72, [0x13A2]); (0xAB73, [0x13A3]);
  (0xAB74, [0x13A4]); (0xAB75, [0x13A5]); (0xAB76, [0x13A6]);
  (0xAB77, [0x13A7]); (0xAB78, [0x13A8]); (0xAB79, [0x13A9]);
  (0xAB7A, [0x13AA]); (0xAB7B, [0x13AB]); (0xAB7C, [0x13AC]);
  (0xAB7D, [0x13AD]); (0xAB7E, [0x13AE]); (0xAB7F, [0x13AF]);
  (0xAB80, [0x13B0]); (0xAB81, [0x13B1]); (0xAB82, [0x13B2]);
  (0xAB83, [0x13B3]); (0xAB84, [0x13B4]); (0xAB85, [0x13B5]);
  (0xAB86, [0x13B6]); (0xAB87, [0x13B7]); (0xAB88, [0x13B8]);
  (0xAB89, [0x13B9]); (0xAB8A, [0x13BA]); (0xAB8B, [0x13BB]);
  (0xAB8C, [0x13BC]); (0xAB8D, [0x13BD]); (0xAB8E, [0x13BE]);
  (0xAB8F, [0x13BF]); (0xAB90, [0x13C0]); (0xAB91, [0x13C1]);
  (0xAB92, [0x13C2]); (0xAB93, [0x13C3]); (0xAB94, [0x13C4]);
  (0xAB95, [0x13C5]); (0xAB96, [0x13C6]); (0xAB97, [0x13C7]);
  (0xAB98, [0x13C8]); (0xAB99, [0x13C9]); (0xAB9A, [0x13CA]);
  (0xAB9B, [0x13CB]); (0xAB9C, [0x13CC]); (0xAB9D, [0x13CD]);
  (0xAB9E, [0x13CE]); (0xAB9F, [0x13CF]); (0xABA0, [0x13D0]);
  (0xABA1, [0x13D1]); (0xABA2, [0x13D2]); (0xABA3, [0x13D3]);
  (0xABA4, [0x13D4]); (0xABA5, [0x13D5]); (0xABA6, [0x13D6]);
  (0xABA7, [0x13D7]); (0xABA8, [0x13D8]); (0xABA9, [0x13D9]);
  (0xABAA, [0x13DA]); (0xABAB, [0x13DB]); (0xABAC, [0x13DC]);
  (0xABAD, [0x13DD]); (0xABAE, [0x13DE]); (0xABAF, [0x13DF]);
  (0xABB0, [0x13E0]); (0xABB1, [0x13E1]); (0xABB2, [0x13E2]);
  (0xABB3, [0x13E3]); (0xABB4, [0x13E4]); (0xABB5, [0x13E5]);
  (0xABB6, [0x13E6]); (0xABB7, [0x13E7]); (0xABB8, [0x13E8]);
  (0xABB9, [0x13E9]); (0xABBA, [0x13EA]); (0xABBB, [0x13EB]);
  (0xABBC, [0x13EC]); (0xABBD, [0x13ED]); (0xABBE, [0x13EE]);
  (0xABBF, [0x13EF]); (0xFB00, [0x46; 0x46]); (0xFB01, [0x46; 0x49]);
  (0xFB02, [0x46; 0x4C]); (0xFB03, [0x46; 0x46; 0x49]);
  (0xFB04, [0x46; 0x46; 0x4C]); (0xFB05, [0x53; 0x54]);
  (0xFB06, [0x53; 0x54]); (0xFB13, [0x544; 0x546]); (0xFB14, [0x544; 0x535]);
  (0xFB15, [0x544; 0x53B]); (0xFB16, [0x54E; 0x546]);
  (0xFB17, [0x544; 0x53D]); (0xFF41, [0xFF21]); (0xFF42, [0xFF22]);
  (0xFF43, [0xFF23]); (0xFF44, [0xFF24]); (0xFF45, [0xFF25]);
  (0xFF46, [0xFF26]); (0xFF47, [0xFF27]); (0xFF48, [0xFF28]);
  (0xFF49, [0xFF29]); (0xFF4A, [0xFF2A]); (0xFF4B, [0xFF2B]);
  (0xFF4C, [0xFF2C]); (0xFF4D, [0xFF2D]); (0xFF4E, [0xFF2E]);
  (0xFF4F, [0xFF2F]); (0xFF50, [0xFF30]); (0xFF51, [0xFF31]);
  (0xFF52, [0xFF32]); (0xFF53, [0xFF33]); (0xFF54, [0xFF34]);
  (0xFF55, [0xFF35]); (0xFF56, [0xFF36]); (0xFF57, [0xFF37]);
  (0xFF58, [0xFF38]); (0xFF59, [0xFF39]); (0xFF5A, [0xFF3A]);
  (0x10428, [0x10400]); (0x10429, [0x10401]); (0x1042A, [0x10402]);
  (0x1042B, [0x10403]); (0x1042C, [0x10404]); (0x1042D, [0x10405]);
  (0x1042E, [0x10406]); (0x1042F, [0x10407]); (0x10430, [0x10408]);
  (0x10431, [0x10409]); (0x10432, [0x1040A]); (0x10433, [0x1040B]);
  (0x10434, [0x1040C]); (0x10435, [0x1040D]); (0x10436, [0x1040E]);
  (0x10437, [0x1040F]); (0x10438, [0x10410]); (0x10439, [0x10411]);
  (0x1043A, [0x10412]); (0x1043B, [0x10413]); (0x1043C, [0x10414]);
  (0x1043D, [0x10415]); (0x1043E, [0x10416]); (0x1043F, [0x10417]);
  (0x10440, [0x10418]); (0x10441, [0x10419]); (0x10442, [0x1041A]);
  (0x10443, [0x1041B]); (0x10444, [0x1041C]); (0x10445, [0x1041D]);
  (0x10446, [0x1041E]); (0x10447, [0x1041F]); (0x10448, [0x10420]);
  (0x10449, [0x10421]); (0x1044A, [0x10422]); (0x1044B, [0x10423]);
  (0x1044C, [0x10424]); (0x1044D, [0x10425]); (0x1044E, [0x10426]);
  (0x1044F, [0x10427]); (0x104D8, [0x104B0]); (0x104D9, [0x104B1]);
  (0x104DA, [0x104B2]); (0x104DB, [0x104B3]); (0x104DC, [0x104B4]);
  (0x104DD, [0x104B5]); (0x104DE, [0x104B6]); (0x104DF, [0x104B7]);
  (0x104E0, [0x104B8]); (0x104E1, [0x104B9]); (0x104E2, [0x104BA]);
  (0x104E3, [0x104BB]); (0x104E4, [0x104BC]); (0x104E5, [0x104BD]);
  (0x104E6, [0x104BE]); (0x104E7, [0x104BF]); (0x104E8, [0x104C0]);
  (0x104E9, [0x104C1]); (0x104EA, [0x104C2]); (0x104EB, [0x104C3]);
  (0x104EC, [0x104C4]); (0x104ED, [0x104C5]); (0x104EE, [0x104C6]);
  (0x104EF, [0x104C7]); (0x104F0, [0x104C8]); (0x104F1, [0x104C9]);
  (0x104F2, [0x104CA]); (0x104F3, [0x104CB]); (0x104F4, [0x104CC]);
  (0x104F5, [0x104CD]); (0x104F6, [0x104CE]); (0x104F7, [0x104CF]);
  (0x104F8, [0x104D0]); (0x104F9, [0x104D1]); (0x104FA, [0x104D2]);
  (0x104FB, [0x104D3]); (0x10597, [0x10570]); (0x10598, [0x10571]);
  (0x10599, [0x10572]); (0x1059A, [0x10573]); (0x1059B, [0x10574]);
  (0x1059C, [0x10575]); (0x1059D, [0x10576]); (0x1059E, [0x10577]);
  (0x1059F, [0x10578]); (0x105A0, [0x10579]); (0x105A1, [0x1057A]);
  (0x105A3, [0x1057C]); (0x105A4, [0x1057D]); (0x105A5, [0x1057E]);
  (0x105A6, [0x1057F]); (0x105A7, [0x10580]); (0x105A8, [0x10581]);
  (0x105A9, [0x10582]); (0x105AA, [0x10583]); (0x105AB, [0x10584]);
  (0x105AC, [0x10585]); (0x105AD, [0x10586]); (0x105AE, [0x10587]);
  (0x105AF, [0x10588]); (0x105B0, [0x10589]); (0x105B1, [0x1058A]);
  (0x105B3, [0x1058C]); (0x105B4, [0x1058D]); (0x105B5, [0x1058E]);
  (0x105B6, [0x1058F]); (0x105B7, [0x10590]); (0x105B8, [0x10591]);
  (0x105B9, [0x10592]); (0x105BB, [0x10594]); (0x105BC, [0x10595]);
  (0x10CC0, [0x10C80]); (0x10CC1, [0x10C81]); (0x10CC2, [0x10C82]);
  (0x10CC3, [0x10C83]); (0x10CC4, [0x10C84]); (0x10CC5, [0x10C85]);
  (0x10CC6, [0x10C86]); (0x10CC7, [0x10C87]); (0x10CC8, [0x10C88]);
  (0x10CC9, [0x10C89]); (0x10CCA, [0x10C8A]); (0x10CCB, [0x10C8B]);
  (0x10CCC, [0x10C8C]); (0x10CCD, [0x10C8D]); (0x10CCE, [0x10C8E]);
  (0x10CCF, [0x10C8F]); (0x10CD0, [0x10C90]); (0x10CD1, [0x10C91]);
  (0x10CD2, [0x10C92]); (0x10CD3, [0x10C93]); (0x10CD4, [0x10C94]);
  (0x10CD5, [0x10C95]); (0x10CD6, [0x10C96]); (0x10CD7, [0x10C97]);
  (0x10CD8, [0x10C98]); (0x10CD9, [0x10C99]); (0x10CDA, [0x10C9A]);
  (0x10CDB, [0x10C9B]); (0x10CDC, [0x10C9C]); (0x10CDD, [0x10C9D]);
  (0x10CDE, [0x10C9E]); (0x10CDF, [0x10C9F]); (0x10CE0, [0x10CA0]);
  (0x10CE1, [0x10CA1]); (0x10CE2, [0x10CA2]); (0x10CE3, [0x10CA3]);
  (0x10CE4, [0x10CA4]); (0x10CE5, [0x10CA5]); (0x10CE6, [0x10CA6]);
  (0x10CE7, [0x10CA7]); (0x10CE8, [0x10CA8]); (0x10CE9, [0x10CA9]);
  (0x10CEA, [0x10CAA]); (0x10CEB, [0x10CAB]); (0x10CEC, [0x10CAC]);
  (0x10CED, [0x10CAD]); (0x10CEE, [0x10CAE]); (0x10CEF, [0x10CAF]);
  (0x10CF0, [0x10CB0]); (0x10CF1, [0x10CB1]); (0x10CF2, [0x10CB2]);
  (0x118C0, [0x118A0]); (0x118C1, [0x118A1]); (0x118C2, [0x118A2]);
  (0x118C3, [0x118A3]); (0x118C4, [0x118A4]); (0x118C5, [0x118A5]);
  (0x118C6, [0x118A6]); (0x118C7, [0x118A7]); (0x118C8, [0x118A8]);
  (0x118C9, [0x118A9]); (0x118CA, [0x118AA]); (0x118CB, [0x118AB]);
  (0x118CC, [0x118AC]); (0x118CD, [0x118AD]); (0x118CE, [0x118AE]);
  (0x118CF, [0x118AF]); (0x118D0, [0x118B0]); (0x118D1, [0x118B1]);
  (0x118D2, [0x118B2]); (0x118D3, [0x118B3]); (0x118D4, [0x118B4]);
  (0x118D5, [0x118B5]); (0x118D6, [0x118B6]); (0x118D7, [0x118B7]);
  (0x118D8, [0x118B8]); (0x118D9, [0x118B9]); (0x118DA, [0x118BA]);
  (0x118DB, [0x118BB]); (0x118DC, [0x118BC]); (0x118DD, [0x118BD]);
  (0x118DE, [0x118BE]); (0x118DF, [0x118BF]); (0x16E60, [0x16E40]);
  (0x16E61, [0x16E41]); (0x16E62, [0x16E42]); (0x16E63, [0x16E43]);
  (0x16E64, [0x16E44]); (0x16E65, [0x16E45]); (0x16E66, [0x16E46]);
  (0x16E67, [0x16E47]); (0x16E68, [0x16E48]); (0x16E69, [0x16E49]);
  (0x16E6A, [0x16E4A]); (0x16E6B, [0x16E4B]); (0x16E6C, [0x16E4C]);
  (0x16E6D, [0x16E4D]); (0x16E6E, [0x16E4E]); (0x16E6F, [0x16E4F]);
  (0x16E70, [0x16E50]); (0x16E71, [0x16E51]); (0x16E72, [0x16E52]);
  (0x16E73, [0x16E53]); (0x16E74, [0x16E54]); (0x16E75, [0x16E55]);
  (0x16E76, [0x16E56]); (0x16E77, [0x16E57]); (0x16E78, [0x16E58]);
  (0x16E79, [0x16E59]); (0x16E7A, [0x16E5A]); (0x16E7B, [0x16E5B]);
  (0x16E7C, [0x16E5C]); (0x16E7D, [0x16E5D]); (0x16E7E, [0x16E5E]);
  (0x16E7F, [0x16E5F]); (0x1E922, [0x1E900]); (0x1E923, [0x1E901]);
  (0x1E924, [0x1E902]); (0x1E925, [0x1E903]); (0x1E926, [0x1E904]);
  (0x1E927, [0x1E905]); (0x1E928, [0x1E906]); (0x1E929, [0x1E907]);
  (0x1E92A, [0x1E908]); (0x1E92B, [0x1E909]); (0x1E92C, [0x1E90A]);
  (0x1E92D, [0x1E90B]); (0x1E92E, [0x1E90C]); (0x1E92F, [0x1E90D]);
  (0x1E930, [0x1E90E]); (0x1E931, [0x1E90F]); (0x1E932, [0x1E910]);
  (0x1E933, [0x1E911]); (0x1E934, [0x1E912]); (0x1E935, [0x1E913]);
  (0x1E936, [0x1E914]); (0x1E937, [0x1E915]); (0x1E938, [0x1E916]);
  (0x1E939, [0x1E917]); (0x1E93A, [0x1E918]); (0x1E93B, [0x1E919]);
  (0x1E93C, [0x1E91A]); (0x1E93D, [0x1E91B]); (0x1E93E, [0x1E91C]);
  (0x1E93F, [0x1E91D]); (0x1E940, [0x1E91E]); (0x1E941, [0x1E91F]);
  (0x1E942, [0x1E920]); (0x1E943, [0x1E921])
]%N.

(** The same table over UTF-8. *)
Definition to_upper_utf8 : list (string * string) :=
  map (fun '(cp, up) => (utf8_char cp, utf8 up)) to_upper.

End Unicode.

(** ** Python string primitives used by the module *)

Module Py.

(** [bool(s)] for a [str]. *)
Definition str_truthy (s : string) : bool :=
  match s with
  | EmptyString => false
  | String _ _ => true
  end.

(** The upper case of an ASCII character. *)
Definition upper_char (c : ascii) : ascii :=
  let n := nat_of_ascii c in
  if (97 <=? n)%nat && (n <=? 122)%nat then ascii_of_nat (n - 32) else c.

Fixpoint assoc (key : string) (table : list (string * string)) : option string :=
  match table with
  | [] => None
  | (k, v) :: rest => if String.eqb k key then Some v else assoc key rest
  end.

(** The upper case of one character, given by its UTF-8 bytes: an ASCII
    character by [upper_char], any other by the table of Unicode, and
    itself when the table has no entry for it. *)
Definition upper_chunk (chunk : string) : string :=
  match chunk with
  | String b EmptyString => String (upper_char b) EmptyString
  | _ => default chunk (assoc chunk Unicode.to_upper_utf8)
  end.

(** [str.upper]: the characters are upper-cased one by one. [skip] is
    the number of bytes still to pass of the character written last. *)
Fixpoint upper_from (skip : nat) (s : string) : string :=
  match s with
  | EmptyString => EmptyString
  | String b r =>
      match skip with
      | S k => upper_from k r
      | O => upper_chunk (String.substring 0 (Unicode.char_len b) s)
             ++ upper_from (Unicode.char_len b - 1) r
      end
  end.

Definition upper (s : string) : string := upper_from 0 s.

(** Whether [s], entered [skip] bytes before the end of a character,
    ends at the end of a character. *)
Fixpoint whole_chars_from (skip : nat) (s : string) : bool :=
  match s with
  | EmptyString => Nat.eqb skip 0
  | String b r =>
      match skip with
      | S k => whole_chars_from k r
      | O => whole_chars_from (Unicode.char_len b - 1) r
      end
  end.

(** What is checked of each entry of the table: the key is one whole
    character of two bytes or more, and the value is made of whole
    characters and is its own upper case. *)
Definition entry_ok (entry : string * string) : bool :=
  let '(k, v) := entry in
  match k with
  | EmptyString => false
  | String b r =>
      Nat.eqb (String.length r) (Unicode.char_len b - 1)
      && (1 <=? String.length r)%nat
  end
  && whole_chars_from 0 v
  && String.eqb (upper v) v.

(** [c in s] for a one-character [c]. *)
Fixpoint has_char (c : ascii) (s : string) : bool :=
  match s with
  | EmptyString => false
  | String a r => Ascii.eqb a c || has_char c r
  end.

(** Number of occurrences of the character [c] in [s]. *)
Fixpoint count_char (c : ascii) (s : string) : nat :=
  match s with
  | EmptyString => 0
  | String a r => (if Ascii.eqb a c then 1 else 0) + count_char c r
  end.

(** [s.split(sep)[0]] for a one-character [sep]: the text before the
    first [sep], the whole of [s] when there is none. *)
Fixpoint split_head (sep : ascii) (s : string) : string :=
  match s with
  | EmptyString => EmptyString
  | String a r => if Ascii.eqb a sep then EmptyString
                  else String a (split_head sep r)
  end.

(** [s.count(pat)] for a non-empty [pat]: occurrences are counted from
    the left and do not overlap. [skip] is the number of characters
    still covered by the occurrence found last. *)
Fixpoint count_from (pat : string) (skip : nat) (s : string) : nat :=
  match s with
  | EmptyString => 0
  | String _ r =>
      match skip with
      | S k => count_from pat k r
      | O => if String.prefix pat s
             then S (count_from pat (String.length pat - 1) r)
             else count_from pat 0 r
      end
  end.

Definition count (pat s : string) : nat := count_from pat 0 s.

(** Decimal digits of a non-negative integer, most significant first. *)
Definition digit_char (n : Z) : ascii :=
  ascii_of_nat (48 + Z.to_nat n).

Fixpoint decimal_go (fuel : nat) (n : Z) (acc : string) : string :=
  match fuel with
  | O => acc
  | S f =>
      let acc' := String (digit_char (n mod 10)) acc in
      if (n <? 10)%Z then acc' else decimal_go f (n / 10) acc'
  end.

Definition decimal (n : Z) : string :=
  decimal_go (S (Z.to_nat (Z.log2 n))) n EmptyString.

Fixpoint zeros (k : nat) : string :=
  match k with
  | O => EmptyString
  | S k' => String "0" (zeros k')
  end.

(** ["%0<w>d" % n]: the sign, then the digits padded with zeros on the
    left up to a total width of [w]. *)
Definition format_d (w : nat) (n : Z) : string :=
  let sign := if (n <? 0)%Z then "-" else "" in
  let body := decimal (Z.abs n) in
  sign ++ zeros (w - String.length sign - String.length body) ++ body.

(** [str(n)] for an [int]. *)
Definition str_of_int (n : Z) : string := format_d 0 n.

(** *** [urllib.parse.quote(s, safe="")] *)

Definition is_upper_letter (n : nat) : bool := (65 <=? n)%nat && (n <=? 90)%nat.
Definition is_lower_letter (n : nat) : bool := (97 <=? n)%nat && (n <=? 122)%nat.
Definition is_digit (n : nat) : bool := (48 <=? n)%nat && (n <=? 57)%nat.

(** The characters [quote] never encodes: letters, digits and [_.-~]. *)
Definition always_safe (c : ascii) : bool :=
  let n := nat_of_ascii c in
  is_upper_letter n || is_lower_letter n || is_digit n
  || has_char c "_.-~".

Definition hex_char (n : nat) : ascii :=
  match String.get n "0123456789ABCDEF" with
  | Some c => c
  | None => "0"%char
  end.

Definition quote_byte (c : ascii) : string :=
  if always_safe c then String c EmptyString
  else
    let n := nat_of_ascii c in
    String "%" (String (hex_char (n / 16)) (String (hex_char (n mod 16)) EmptyString)).

Fixpoint quote (s : string) : string :=
  match s with
  | EmptyString => EmptyString
  | String c r => quote_byte c ++ quote r
  end.

End Py.

(** ** [datetime.datetime] *)

Module Datetime.

(** A [timedelta], as its total number of microseconds. *)
Definition timedelta := Z.

(** The fields of a [datetime]. [tzinfo] is [None] for a naive value;
    otherwise it holds what [tzinfo.utcoffset(self)] returns, which may
    itself be [None]. *)
Record datetime := mk_datetime {
  year : Z;
  month : Z;
  day : Z;
  hour : Z;
  minute : Z;
  second : Z;
  microsecond : Z;
  tzinfo : option (option timedelta)
}.

(** The ranges the constructor of [datetime] enforces (the day of the
    month is bounded by 31 only). *)
Definition well_formed (d : datetime) : Prop :=
  (1 <= year d <= 9999)%Z /\ (1 <= month d <= 12)%Z /\ (1 <= day d <= 31)%Z /\
  (0 <= hour d < 24)%Z /\ (0 <= minute d < 60)%Z /\ (0 <= second d < 60)%Z /\
  (0 <= microsecond d < 1000000)%Z.

(** [dttm.utcoffset()] *)
Definition utcoffset (d : datetime) : option timedelta :=
  match tzinfo d with
  | None => None
  | Some off => off
  end.

(** A datetime is aware when [utcoffset()] is not [None]. *)
Definition aware (d : datetime) : bool :=
  match utcoffset d with Some _ => true | None => false end.

(** [dttm.date().isoformat()] *)
Definition date_isoformat (d : datetime) : string :=
  Py.format_d 4 (year d) ++ "-" ++ Py.format_d 2 (month d) ++ "-"
  ++ Py.format_d 2 (day d).

(** The time of day with [timespec="microseconds"]. *)
Definition format_time (d : datetime) : string :=
  Py.format_d 2 (hour d) ++ ":" ++ Py.format_d 2 (minute d) ++ ":"
  ++ Py.format_d 2 (second d) ++ "." ++ Py.format_d 6 (microsecond d).

Definition hour_us : Z := 3600000000.
Definition minute_us : Z := 60000000.
Definition second_us : Z := 1000000.

(** The UTC offset suffix of [isoformat]: empty without an offset,
    [+HH:MM] or [-HH:MM] otherwise, followed by [:SS] and [.ffffff]
    when the offset is not a whole number of minutes. *)
Definition format_offset (off : option timedelta) : string :=
  match off with
  | None => EmptyString
  | Some o =>
      let sign := if (o <? 0)%Z then "-" else "+" in
      let a := Z.abs o in
      let hh := (a / hour_us)%Z in
      let mm := ((a mod hour_us) / minute_us)%Z in
      let ss := ((a mod hour_us) mod minute_us)%Z in
      sign ++ Py.format_d 2 hh ++ ":" ++ Py.format_d 2 mm
      ++ (if (ss =? 0)%Z then EmptyString
          else ":" ++ Py.format_d 2 (ss / second_us)
               ++ (if (ss mod second_us =? 0)%Z then EmptyString
                   else "." ++ Py.format_d 6 (ss mod second_us)))
  end.

(** The date and time of day of [isoformat], without any offset. *)
Definition isoformat_local (sep : string) (d : datetime) : string :=
  date_isoformat d ++ sep ++ format_time d.

(** [dttm.isoformat(timespec="microseconds", sep=sep)] *)
Definition isoformat (sep : string) (d : datetime) : string :=
  isoformat_local sep d ++ format_offset (utcoffset d).

End Datetime.

(** ** [superset.utils.core.TemporalType] *)

Module TemporalType.

(** Modelled from the spec: the class [TemporalType] of
    [superset/utils/core.py] is not part of the sources at hand; its
    three members used here are the target types the spec names. *)
Definition DATE : string := "DATE".
Definition TIMESTAMP : string := "TIMESTAMP".
Definition TIMESTAMP_WITH_TIME_ZONE : string := "TIMESTAMP WITH TIME ZONE".

End TemporalType.

(** ** Python values, exceptions and the imported collaborators *)

(** The values that occur in the parameter dictionaries: what
    [json.loads] produces, and opaque objects such as an authentication
    strategy. A [float] is kept as its [repr]. *)
Inductive value :=
| VNone
| VBool (b : bool)
| VInt (z : Z)
| VFloat (repr : string)
| VStr (s : string)
| VList (l : list value)
| VDict (d : gmap string value)
| VObj (cls : string) (attrs : gmap string value).

Inductive exn :=
| JSONDecodeError (msg : string)
| ValueError (msg : string)
| TypeError (msg : string)
| AttributeError (msg : string)
| ArgumentError (msg : string)
| CertificateException (msg : string)
| OtherError (cls msg : string).

(** The outcome of a call: a returned value or a raised exception. *)
Inductive result (A : Type) :=
| Ok (a : A)
| Raise (e : exn).
Arguments Ok {A} a.
Arguments Raise {A} e.

#[global] Instance result_ret : MRet result := fun A a => Ok a.
#[global] Instance result_bind : MBind result := fun A B f r =>
  match r with
  | Ok a => f a
  | Raise e => Raise e
  end.

(** [bool(v)] *)
Definition truthy (v : value) : bool :=
  match v with
  | VNone => false
  | VBool b => b
  | VInt z => negb (z =? 0)%Z
  | VFloat r => negb (String.eqb r "0.0" || String.eqb r "-0.0")
  | VStr s => Py.str_truthy s
  | VList l => match l with [] => false | _ :: _ => true end
  | VDict d => negb (bool_decide (d = ∅))
  | VObj _ _ => true
  end.

(** [v == s] for a [str] literal [s]. *)
Definition eq_str (v : value) (s : string) : bool :=
  match v with
  | VStr t => String.eqb t s
  | _ => false
  end.

(** [hash(v)] raises [TypeError] for a list or a dict; for the other
    values this returns [str(v)], which is what an f-string shows (the
    address in the default text of an object is left out). *)
Definition hashable_str (v : value) : result string :=
  match v with
  | VNone => Ok "None"
  | VBool b => Ok (if b then "True" else "False")
  | VInt z => Ok (Py.str_of_int z)
  | VFloat r => Ok r
  | VStr s => Ok s
  | VList _ => Raise (TypeError "unhashable type: 'list'")
  | VDict _ => Raise (TypeError "unhashable type: 'dict'")
  | VObj cls _ => Ok ("<" ++ cls ++ " object>")
  end.

(** [d.pop(key, default)]: the value and what is left of [d]. *)
Definition pop (d : value) (key : string) (dflt : value) : result (value * value) :=
  match d with
  | VDict m =>
      match m !! key with
      | Some v => Ok (v, VDict (delete key m))
      | None => Ok (dflt, d)
      end
  | VList _ => Raise (TypeError "pop expected at most 1 argument, got 2")
  | _ => Raise (AttributeError "object has no attribute 'pop'")
  end.

(** [target[key] = v] for a [str] key: the new value of [target]. *)
Definition setitem (target : value) (key : string) (v : value) : result value :=
  match target with
  | VDict m => Ok (VDict (<[key := v]> m))
  | VList _ => Raise (TypeError "list indices must be integers or slices, not str")
  | _ => Raise (TypeError "object does not support item assignment")
  end.

(** A callable that builds an authentication strategy from keyword
    arguments. *)
Definition auth_factory : Type := gmap string value -> result value.

(** The call of [f] with the entries of [kwargs] as keyword arguments. *)
Definition call_kwargs (f : auth_factory) (kwargs : value) : result value :=
  match kwargs with
  | VDict kw => f kw
  | _ => Raise (TypeError "argument after ** must be a mapping")
  end.

(** [sqlalchemy.engine.url.URL] *)
Record URL := mk_URL {
  drivername : string;
  username : option string;
  password : option string;
  host : option string;
  port : option Z;
  database : option string;
  query : list (string * string)
}.

(** [URL.get_backend_name]: the driver name up to its first [+]. *)
Definition get_backend_name (url : URL) : string :=
  Py.split_head "+" (drivername url).

(** The attributes of [superset.models.core.Database] read here. *)
Record Database := mk_Database {
  server_cert : option string;
  encrypted_extra : option string
}.

(** [bool(s)] for an optional [str]. *)
Definition opt_truthy (s : option string) : bool :=
  match s with
  | Some t => Py.str_truthy t
  | None => false
  end.

(** What the module imports from outside this file: the JSON decoder,
    SQLAlchemy's URL parser, the certificate writer of [superset.utils],
    the base class's [get_extra_params], the three strategies of
    [trino.auth], and the [ALLOWED_EXTRA_AUTHENTICATIONS] entry of the
    application's configuration (engine name, then method name). *)
Class Imports := {
  json_loads : string -> result value;
  make_url : string -> result URL;
  create_ssl_cert_file : string -> result string;
  BaseEngineSpec_get_extra_params : Database -> result value;
  BasicAuthentication : auth_factory;
  KerberosAuthentication : auth_factory;
  JWTAuthentication : auth_factory;
  ALLOWED_EXTRA_AUTHENTICATIONS : gmap string (gmap string auth_factory)
}.

(** ** Calls that mutate [params] and write to the log *)

(** What [update_encrypted_extra_params] can change: the [params]
    dictionary of its caller and the records handed to [logger.error]. *)
Record store := mk_store {
  params : gmap string value;
  log : list exn
}.

Definition M (A : Type) : Type := store -> result A * store.

#[global] Instance M_ret : MRet M := fun A a st => (Ok a, st).
#[global] Instance M_bind : MBind M := fun A B f m st =>
  match m st with
  | (Ok a, st') => f a st'
  | (Raise e, st') => (Raise e, st')
  end.

Definition raise {A : Type} (e : exn) : M A := fun st => (Raise e, st).

Definition lift {A : Type} (r : result A) : M A := fun st => (r, st).

(** [try: body  except json.JSONDecodeError as ex: handler(ex)] *)
Definition try_except_JSONDecodeError {A : Type}
    (body : M A) (handler : exn -> M A) : M A := fun st =>
  match body st with
  | (Raise (JSONDecodeError msg), st') => handler (JSONDecodeError msg) st'
  | other => other
  end.

(** [logger.error(ex, exc_info=True)] *)
Definition logger_error (ex : exn) : M unit := fun st =>
  (Ok tt, mk_store (params st) (log st ++ [ex])).

(** [connect_args = params.setdefault("connect_args", {})]. The name
    [connect_args] then denotes the object stored in [params] under that
    key, so what is assigned through it shows in [params]. *)
Definition connect_args_of (p : gmap string value) : value :=
  default (VDict ∅) (p !! "connect_args").

Definition setdefault_connect_args : M unit := fun st =>
  (Ok tt,
   mk_store (<["connect_args" := connect_args_of (params st)]> (params st)) (log st)).

(** [connect_args[key] = v] *)
Definition connect_args_setitem (key : string) (v : value) : M unit := fun st =>
  match setitem (connect_args_of (params st)) key v with
  | Ok connect_args' =>
      (Ok tt, mk_store (<["connect_args" := connect_args']> (params st)) (log st))
  | Raise e => (Raise e, st)
  end.

(** ** The engine spec *)

Module TrinoEngineSpec.

Definition engine : string := "trino".
Definition engine_name : string := "Trino".

(** The keys are [None] and the ISO 8601 durations. *)
Definition _time_grain_expressions : gmap (option string) string :=
  list_to_map [
    (None, "{col}");
    (Some "PT1S", "date_trunc('second', CAST({col} AS TIMESTAMP))");
    (Some "PT1M", "date_trunc('minute', CAST({col} AS TIMESTAMP))");
    (Some "PT1H", "date_trunc('hour', CAST({col} AS TIMESTAMP))");
    (Some "P1D", "date_trunc('day', CAST({col} AS TIMESTAMP))");
    (Some "P1W", "date_trunc('week', CAST({col} AS TIMESTAMP))");
    (Some "P1M", "date_trunc('month', CAST({col} AS TIMESTAMP))");
    (Some "P3M", "date_trunc('quarter', CAST({col} AS TIMESTAMP))");
    (Some "P1Y", "date_trunc('year', CAST({col} AS TIMESTAMP))")
  ].

Definition convert_dttm (target_type : string) (dttm : Datetime.datetime)
    : option string :=
  let tt := Py.upper target_type in
  if String.eqb tt TemporalType.DATE then
    Some ("DATE '" ++ Datetime.date_isoformat dttm ++ "'")
  else if String.eqb tt TemporalType.TIMESTAMP
          || String.eqb tt TemporalType.TIMESTAMP_WITH_TIME_ZONE then
    Some ("TIMESTAMP '" ++ Datetime.isoformat " " dttm ++ "'")
  else None.

Definition epoch_to_dttm : string := "from_unixtime({col})".

(** The new value of [uri]. *)
Definition adjust_database_uri (uri : URL) (selected_schema : option string)
    : URL :=
  let database := database uri in
  match selected_schema, database with
  | Some selected_schema, Some database =>
      if Py.str_truthy selected_schema && Py.str_truthy database then
        let selected_schema := Py.quote selected_schema in
        let database := Py.split_head "/" database ++ "/" ++ selected_schema in
        mk_URL (drivername uri) (username uri) (password uri) (host uri)
               (port uri) (Some database) (query uri)
      else uri
  | _, _ => uri
  end.

(** The body is a docstring only: [url] is left as it is, whatever the
    flag and the user name. *)
Definition modify_url_for_impersonation (url : URL) (impersonate_user : bool)
    (username : option string) : URL := url.

Section WithImports.
Context `{Imports}.

(** The outcome and the new value of [connect_args]. *)
Definition update_impersonation_config (connect_args : gmap string value)
    (uri : string) (username : option string)
    : result unit * gmap string value :=
  match make_url uri with
  | Raise e => (Raise e, connect_args)
  | Ok url =>
      let backend_name := get_backend_name url in
      match username with
      | Some username =>
          if String.eqb backend_name "trino"
          then (Ok tt, <["user" := VStr username]> connect_args)
          else (Ok tt, connect_args)
      | None => (Ok tt, connect_args)
      end
  end.

Definition get_allow_cost_estimate (extra : gmap string value) : bool := true.

(** [extra], [engine_params] and [connect_args] are nested in one
    another, so the assignments to [connect_args] show in the [extra]
    that is returned. *)
Definition get_extra_params (database : Database) : result value :=
  extra ← BaseEngineSpec_get_extra_params database;
  match extra with
  | VDict extra_d =>
      let engine_params := default (VDict ∅) (extra_d !! "engine_params") in
      match engine_params with
      | VDict engine_params_d =>
          let connect_args :=
            default (VDict ∅) (engine_params_d !! "connect_args") in
          connect_args ←
            match server_cert database with
            | Some cert =>
                if Py.str_truthy cert then
                  connect_args ← setitem connect_args "http_scheme" (VStr "https");
                  path ← create_ssl_cert_file cert;
                  setitem connect_args "verify" (VStr path)
                else Ok connect_args
            | None => Ok connect_args
            end;
          Ok (VDict (<["engine_params" :=
                        VDict (<["connect_args" := connect_args]> engine_params_d)]>
                     extra_d))
      | _ => Raise (AttributeError "object has no attribute 'setdefault'")
      end
  | _ => Raise (AttributeError "object has no attribute 'setdefault'")
  end.

Definition not_allowed_message (auth_method : string) : string :=
  "For security reason, custom authentication '" ++ auth_method
  ++ "' must be listed in 'ALLOWED_EXTRA_AUTHENTICATIONS' config".

(** The strategy class selected by [auth_method]. *)
Definition resolve_trino_auth (auth_method : value) : result auth_factory :=
  if eq_str auth_method "basic" then Ok BasicAuthentication
  else if eq_str auth_method "kerberos" then Ok KerberosAuthentication
  else if eq_str auth_method "jwt" then Ok JWTAuthentication
  else
    let allowed_extra_auths :=
      default ∅ (ALLOWED_EXTRA_AUTHENTICATIONS !! "trino") in
    (* the membership test hashes [auth_method] *)
    shown ← hashable_str auth_method;
    match auth_method with
    | VStr name =>
        match allowed_extra_auths !! name with
        | Some trino_auth => Ok trino_auth
        | None => Raise (ValueError (not_allowed_message shown))
        end
    | _ => Raise (ValueError (not_allowed_message shown))
    end.

Definition update_encrypted_extra_params (database : Database) : M unit :=
  match encrypted_extra database with
  | None => mret tt
  | Some blob =>
      if negb (Py.str_truthy blob) then mret tt
      else
        try_except_JSONDecodeError
          (encrypted_extra ← lift (json_loads blob);
           '(auth_method, encrypted_extra) ←
              lift (pop encrypted_extra "auth_method" VNone);
           '(auth_params, encrypted_extra) ←
              lift (pop encrypted_extra "auth_params" (VDict ∅));
           if negb (truthy auth_method) then mret tt
           else
             setdefault_connect_args;;
             connect_args_setitem "http_scheme" (VStr "https");;
             trino_auth ← lift (resolve_trino_auth auth_method);
             auth ← lift (call_kwargs trino_auth auth_params);
             connect_args_setitem "auth" auth)
          (fun ex => logger_error ex;; raise ex)
  end.

End WithImports.

End TrinoEngineSpec.

(** ** A concrete set of collaborators

    Used to run the engine spec on examples: a decoder for the JSON texts
    without fractions, exponents and [\u] escapes, a parser for URLs of
    the form [driver://host/database], strategies that record their
    keyword arguments, and an empty allow-list. *)

Module Sample.

(** The double quote character. *)
Definition dq : ascii := "034"%char.
Definition backslash : ascii := "092"%char.

(** [s] between double quotes. *)
Definition quoted (s : string) : string :=
  String dq s ++ String dq EmptyString.

Definition is_ws (c : ascii) : bool :=
  Ascii.eqb c " " || Ascii.eqb c "009" || Ascii.eqb c "010" || Ascii.eqb c "013".

Fixpoint skip_ws (s : string) : string :=
  match s with
  | EmptyString => EmptyString
  | String c r => if is_ws c then skip_ws r else s
  end.

Definition unescape (c : ascii) : option ascii :=
  if Ascii.eqb c dq then Some dq
  else if Ascii.eqb c backslash then Some backslash
  else if Ascii.eqb c "/" then Some "/"%char
  else if Ascii.eqb c "b" then Some "008"%char
  else if Ascii.eqb c "f" then Some "012"%char
  else if Ascii.eqb c "n" then Some "010"%char
  else if Ascii.eqb c "r" then Some "013"%char
  else if Ascii.eqb c "t" then Some "009"%char
  else None.

(** The characters of a string literal after its opening quote, and the
    text after its closing quote. *)
Fixpoint string_body (s acc : string) : option (string * string) :=
  match s with
  | EmptyString => None
  | String c r =>
      if Ascii.eqb c dq then Some (acc, r)
      else if Ascii.eqb c backslash then
        match r with
        | EmptyString => None
        | String e r' =>
            match unescape e with
            | Some x => string_body r' (acc ++ String x EmptyString)
            | None => None
            end
        end
      else if (nat_of_ascii c <? 32)%nat then None
      else string_body r (acc ++ String c EmptyString)
  end.

Fixpoint digits (s : string) (acc : Z) : Z * string :=
  match s with
  | EmptyString => (acc, s)
  | String c r =>
      if Py.is_digit (nat_of_ascii c)
      then digits r (10 * acc + Z.of_nat (nat_of_ascii c - 48))%Z
      else (acc, s)
  end.

Definition starts_number_tail (s : string) : bool :=
  match s with
  | EmptyString => false
  | String c _ => Ascii.eqb c "." || Ascii.eqb c "e" || Ascii.eqb c "E"
  end.

(** An integer without a leading zero. *)
Definition natural (s : string) : option (Z * string) :=
  match s with
  | EmptyString => None
  | String c r =>
      if Ascii.eqb c "0" then
        if starts_number_tail r then None else Some (0%Z, r)
      else if Py.is_digit (nat_of_ascii c) then
        let '(n, rest) := digits s 0%Z in
        if starts_number_tail rest then None else Some (n, rest)
      else None
  end.

Definition after_prefix (p s : string) : option string :=
  if String.prefix p s
  then Some (String.substring (String.length p) (String.length s - String.length p) s)
  else None.

Fixpoint parse_value (fuel : nat) (s : string) : option (value * string) :=
  match fuel with
  | O => None
  | S f =>
      match skip_ws s with
      | EmptyString => None
      | String c r =>
          if Ascii.eqb c "{" then
            match skip_ws r with
            | String c' r' => if Ascii.eqb c' "}" then Some (VDict ∅, r')
                              else parse_members f r ∅
            | EmptyString => None
            end
          else if Ascii.eqb c "[" then
            match skip_ws r with
            | String c' r' => if Ascii.eqb c' "]" then Some (VList [], r')
                              else parse_elements f r []
            | EmptyString => None
            end
          else if Ascii.eqb c dq then
            '(str, rest) ← string_body r EmptyString; Some (VStr str, rest)
          else if Ascii.eqb c "-" then
            '(n, rest) ← natural r; Some (VInt (- n), rest)
          else if Py.is_digit (nat_of_ascii c) then
            '(n, rest) ← natural (String c r); Some (VInt n, rest)
          else
            match after_prefix "true" (String c r),
                  after_prefix "false" (String c r),
                  after_prefix "null" (String c r) with
            | Some rest, _, _ => Some (VBool true, rest)
            | _, Some rest, _ => Some (VBool false, rest)
            | _, _, Some rest => Some (VNone, rest)
            | _, _, _ => None
            end
      end
  end
with parse_members (fuel : nat) (s : string) (acc : gmap string value)
    : option (value * string) :=
  match fuel with
  | O => None
  | S f =>
      match skip_ws s with
      | EmptyString => None
      | String c r =>
          if Ascii.eqb c dq then
            '(key, r1) ← string_body r EmptyString;
            match skip_ws r1 with
            | EmptyString => None
            | String c2 r2 =>
                if Ascii.eqb c2 ":" then
                  '(v, r3) ← parse_value f r2;
                  match skip_ws r3 with
                  | EmptyString => None
                  | String c4 r4 =>
                      if Ascii.eqb c4 "," then parse_members f r4 (<[key := v]> acc)
                      else if Ascii.eqb c4 "}" then Some (VDict (<[key := v]> acc), r4)
                      else None
                  end
                else None
            end
          else None
      end
  end
with parse_elements (fuel : nat) (s : string) (acc : list value)
    : option (value * string) :=
  match fuel with
  | O => None
  | S f =>
      '(v, r1) ← parse_value f s;
      match skip_ws r1 with
      | EmptyString => None
      | String c r2 =>
          if Ascii.eqb c "," then parse_elements f r2 (acc ++ [v])
          else if Ascii.eqb c "]" then Some (VList (acc ++ [v]), r2)
          else None
      end
  end.

Definition loads (s : string) : result value :=
  match parse_value (S (String.length s)) s with
  | Some (v, rest) =>
      match skip_ws rest with
      | EmptyString => Ok v
      | String _ _ => Raise (JSONDecodeError "Extra data")
      end
  | None => Raise (JSONDecodeError "Expecting value")
  end.

(** [driver://host/database] *)
Definition parse_url (s : string) : result URL :=
  let name := Py.split_head ":" s in
  match after_prefix (name ++ "://") s with
  | Some rest =>
      if Py.str_truthy name then
        let h := Py.split_head "/" rest in
        Ok (mk_URL name None None
              (if Py.str_truthy h then Some h else None) None
              (after_prefix (h ++ "/") rest) [])
      else Raise (ArgumentError "Could not parse rfc1738 URL from string")
  | None => Raise (ArgumentError "Could not parse rfc1738 URL from string")
  end.

Definition strategy (cls : string) : auth_factory :=
  fun kwargs => Ok (VObj cls kwargs).

#[export] Instance imports : Imports := {
  json_loads := loads;
  make_url := parse_url;
  create_ssl_cert_file := fun _ => Ok "/tmp/server_cert.crt";
  BaseEngineSpec_get_extra_params := fun _ => Ok (VDict ∅);
  BasicAuthentication := strategy "trino.auth.BasicAuthentication";
  KerberosAuthentication := strategy "trino.auth.KerberosAuthentication";
  JWTAuthentication := strategy "trino.auth.JWTAuthentication";
  ALLOWED_EXTRA_AUTHENTICATIONS := ∅
}.

(** The same collaborators, with one custom method registered for the
    engine [trino]. *)
Definition imports_allowing (name cls : string) : Imports := {|
  json_loads := loads;
  make_url := parse_url;
  create_ssl_cert_file := fun _ => Ok "/tmp/server_cert.crt";
  BaseEngineSpec_get_extra_params := fun _ => Ok (VDict ∅);
  BasicAuthentication := strategy "trino.auth.BasicAuthentication";
  KerberosAuthentication := strategy "trino.auth.KerberosAuthentication";
  JWTAuthentication := strategy "trino.auth.JWTAuthentication";
  ALLOWED_EXTRA_AUTHENTICATIONS := {[ "trino" := {[ name := strategy cls ]} ]}
|}.

End Sample.

(** ** Reading back what the formatters write

    The value of a run of decimal digits and of a hexadecimal digit, and
    the relations between the store before and after a call that the
    properties below are stated with. *)

Module Reading.

Definition digit_value (c : ascii) : Z := Z.of_nat (nat_of_ascii c) - 48.

Fixpoint digits_value_from (acc : Z) (s : string) : Z :=
  match s with
  | EmptyString => acc
  | String c r => digits_value_from (10 * acc + digit_value c) r
  end.

Definition digits_value (s : string) : Z := digits_value_from 0 s.

Definition hex_value (c : ascii) : nat :=
  let n := nat_of_ascii c in
  if Py.is_digit n then n - 48 else n - 55.

End Reading.

(** Every entry of [params] other than [connect_args] is the same in the
    two stores. *)
Definition same_outside_connect_args (st st' : store) : Prop :=
  forall key, key <> "connect_args" -> params st' !! key = params st !! key.

(** [after] is [before], or both are dictionaries that agree on every key
    other than [http_scheme] and [auth]. *)
Definition same_outside_scheme_and_auth (before after : value) : Prop :=
  after = before
  \/ exists ca ca', before = VDict ca /\ after = VDict ca'
       /\ forall key, key <> "http_scheme" -> key <> "auth" ->
                      ca' !! key = ca !! key.

(** What the log may have gained when the call ended with [outcome]: the
    decoder's error if that is what was raised, nothing otherwise. *)
Definition logged (outcome : result unit) : list exn :=
  match outcome with
  | Raise (JSONDecodeError msg) => [JSONDecodeError msg]
  | _ => []
  end.

(** * Properties *)

(** ** Strings *)



#[local] Arguments String.append : simpl nomatch.

Section StringFacts.

Lemma length_app (a b : string) :
  String.length (a ++ b) = String.length a + String.length b.
Proof. induction a as [|c a IH]; simpl; [reflexivity | now rewrite IH]. Qed.

Lemma app_assoc_s (a b c : string) : (a ++ b) ++ c = a ++ b ++ c.
Proof. induction a as [|x a IH]; simpl; [reflexivity | now rewrite IH]. Qed.

Lemma has_char_app (c : ascii) (a b : string) :
  Py.has_char c (a ++ b) = Py.has_char c a || Py.has_char c b.
Proof.
  induction a as [|x a IH]; simpl; [reflexivity|].
  rewrite IH. now rewrite orb_assoc.
Qed.

Lemma count_char_app (c : ascii) (a b : string) :
  Py.count_char c (a ++ b) = Py.count_char c a + Py.count_char c b.
Proof. induction a as [|x a IH]; simpl; [reflexivity | rewrite IH; lia]. Qed.

Lemma count_char_absent (c : ascii) (s : string) :
  Py.has_char c s = false -> Py.count_char c s = 0.
Proof.
  induction s as [|x s IH]; simpl; [reflexivity|].
  intros [Hx Hs]%orb_false_iff. rewrite Hx, (IH Hs). reflexivity.
Qed.

Lemma upper_char_idempotent (c : ascii) :
  Py.upper_char (Py.upper_char c) = Py.upper_char c.
Proof. destruct c as [[] [] [] [] [] [] [] []]; reflexivity. Qed.

(** An ASCII byte stays one, and a byte that starts a longer character
    is left alone. *)
Lemma upper_char_len (b : ascii) :
  Unicode.char_len (Py.upper_char b) = Unicode.char_len b
  /\ (Unicode.char_len b <> 1 -> Py.upper_char b = b).
Proof. destruct b as [[] [] [] [] [] [] [] []]; split; (reflexivity || now intros []). Qed.

Lemma char_len_pos (b : ascii) : 1 <= Unicode.char_len b.
Proof.
  unfold Unicode.char_len.
  repeat match goal with |- context [if ?c then _ else _] => destruct c end; lia.
Qed.

Lemma substring_all (s : string) (n : nat) :
  String.length s <= n -> String.substring 0 n s = s.
Proof.
  revert n. induction s as [|c s IH]; intros [|n] Hlen; simpl in *;
    try reflexivity; try lia.
  now rewrite IH by lia.
Qed.

Lemma substring_app (s x : string) (n : nat) :
  n <= String.length s ->
  String.substring 0 n (s ++ x) = String.substring 0 n s.
Proof.
  revert n. induction s as [|c s IH]; intros [|n] Hlen; simpl in *;
    try reflexivity; try lia.
  - now destruct x.
  - now rewrite IH by lia.
Qed.

Lemma substring_length (s : string) (n : nat) :
  String.length (String.substring 0 n s) = Nat.min n (String.length s).
Proof.
  revert n. induction s as [|c s IH]; intros [|n]; simpl; try reflexivity.
  now rewrite IH.
Qed.

(** Skipping as many bytes as there are, or more, leaves nothing. *)
Lemma upper_from_short (s : string) : forall k,
  String.length s <= k -> Py.upper_from k s = EmptyString.
Proof.
  induction s as [|c s IH]; intros [|k] Hlen; simpl in *;
    try reflexivity; try lia.
  apply IH. lia.
Qed.

Lemma whole_chars_from_length (s : string) : forall k,
  Py.whole_chars_from k s = true -> k <= String.length s.
Proof.
  induction s as [|c s IH]; intros [|k] Hw; simpl in *;
    try discriminate Hw; try lia.
  apply IH in Hw. lia.
Qed.

Lemma whole_chars_from_exact (s : string) : forall k,
  String.length s = k -> Py.whole_chars_from k s = true.
Proof.
  induction s as [|c s IH]; intros [|k] Hlen; simpl in *;
    try reflexivity; try discriminate Hlen.
  apply IH. lia.
Qed.

(** In front of any text, a text made of whole characters is upper-cased
    on its own. *)
Lemma upper_from_app (a : string) : forall (k : nat) (x : string),
  Py.whole_chars_from k a = true ->
  Py.upper_from k (a ++ x) = Py.upper_from k a ++ Py.upper_from 0 x.
Proof.
  induction a as [|b a IH]; intros k x Hw.
  - destruct k; [reflexivity | discriminate Hw].
  - destruct k as [|k]; cbn [Py.upper_from Py.whole_chars_from String.append] in *.
    + rewrite (IH _ x Hw).
      change (String b (a ++ x)) with (String b a ++ x).
      rewrite substring_app.
      * now rewrite app_assoc_s.
      * apply whole_chars_from_length in Hw. simpl.
        pose proof (char_len_pos b). lia.
    + apply IH. exact Hw.
Qed.

Lemma app_nil_r_s (s : string) : s ++ EmptyString = s.
Proof. induction s as [|c s IH]; simpl; [reflexivity | now rewrite IH]. Qed.

Lemma upper_from_start (b : ascii) (r : string) :
  Py.upper_from 0 (String b r)
  = Py.upper_chunk (String.substring 0 (Unicode.char_len b) (String b r))
    ++ Py.upper_from (Unicode.char_len b - 1) r.
Proof. reflexivity. Qed.

Lemma whole_chars_from_start (b : ascii) (r : string) :
  Py.whole_chars_from 0 (String b r)
  = Py.whole_chars_from (Unicode.char_len b - 1) r.
Proof. reflexivity. Qed.

Lemma upper_chunk_long (b c : ascii) (r : string) :
  Py.upper_chunk (String b (String c r))
  = default (String b (String c r))
            (Py.assoc (String b (String c r)) Unicode.to_upper_utf8).
Proof. reflexivity. Qed.

Lemma to_upper_utf8_ok : forallb Py.entry_ok Unicode.to_upper_utf8 = true.
Proof. vm_compute. reflexivity. Qed.

Lemma assoc_In (key v : string) (table : list (string * string)) :
  Py.assoc key table = Some v -> In (key, v) table.
Proof.
  induction table as [|[k w] table IH]; simpl; [discriminate|].
  destruct (String.eqb_spec k key) as [->|_].
  - intros [= ->]. now left.
  - intros Hin. right. now apply IH.
Qed.

Lemma assoc_entry_ok (key v : string) :
  Py.assoc key Unicode.to_upper_utf8 = Some v -> Py.entry_ok (key, v) = true.
Proof.
  intros Hin%assoc_In.
  exact (proj1 (forallb_forall _ _) to_upper_utf8_ok _ Hin).
Qed.

(** The upper case of one whole character is made of whole characters
    and is its own upper case. *)
Lemma upper_chunk_whole (b : ascii) (r : string) :
  String.length r = Unicode.char_len b - 1 ->
  Py.whole_chars_from 0 (Py.upper_chunk (String b r)) = true
  /\ Py.upper_from 0 (Py.upper_chunk (String b r)) = Py.upper_chunk (String b r).
Proof.
  intros Hlen. destruct r as [|c r].
  - cbn [Py.upper_chunk]. simpl in Hlen.
    destruct (upper_char_len b) as [Hsame _].
    rewrite whole_chars_from_start, upper_from_start, Hsame, <- Hlen.
    split; [reflexivity|].
    rewrite substring_all by (pose proof (char_len_pos b); simpl; lia).
    cbn [Py.upper_chunk Py.upper_from].
    rewrite upper_char_idempotent. apply app_nil_r_s.
  - rewrite upper_chunk_long.
    destruct (Py.assoc (String b (String c r)) Unicode.to_upper_utf8) as [v|] eqn:Hv;
      cbn [default from_option id].
    + apply assoc_entry_ok in Hv. unfold Py.entry_ok in Hv.
      apply andb_true_iff in Hv as [[_ Hwhole]%andb_true_iff Hfixed].
      split; [exact Hwhole | now apply String.eqb_eq in Hfixed].
    + rewrite whole_chars_from_start, upper_from_start. split.
      * now apply whole_chars_from_exact.
      * rewrite substring_all by (cbn [String.length] in *; lia).
        rewrite upper_from_short by lia.
        rewrite upper_chunk_long, Hv. apply app_nil_r_s.
Qed.

(** A character cut short by the end of the text is left as it is. *)
Lemma upper_chunk_cut (b : ascii) (r : string) :
  String.length r < Unicode.char_len b - 1 ->
  Py.upper_chunk (String b r) = String b r.
Proof.
  intros Hlen. destruct r as [|c r].
  - cbn [Py.upper_chunk]. f_equal. apply upper_char_len. simpl in Hlen. lia.
  - rewrite upper_chunk_long.
    destruct (Py.assoc (String b (String c r)) Unicode.to_upper_utf8) as [v|] eqn:Hv;
      [|reflexivity].
    apply assoc_entry_ok in Hv. unfold Py.entry_ok in Hv.
    apply andb_true_iff in Hv as [[Hkey _]%andb_true_iff _].
    apply andb_true_iff in Hkey as [Hkey%Nat.eqb_eq _]. lia.
Qed.

Lemma substring_start (b : ascii) (r : string) (m : nat) :
  String.substring 0 (S m) (String b r) = String b (String.substring 0 m r).
Proof. reflexivity. Qed.

Lemma upper_from_fixed (s : string) : forall k,
  Py.upper_from 0 (Py.upper_from k s) = Py.upper_from k s.
Proof.
  induction s as [|b r IH]; intros [|k]; try reflexivity; [|apply IH].
  rewrite upper_from_start.
  pose proof (char_len_pos b) as Hpos.
  destruct (Unicode.char_len b) as [|m] eqn:Hn; [lia|].
  rewrite substring_start, Nat.sub_succ, Nat.sub_0_r.
  destruct (Nat.le_gt_cases m (String.length r)) as [Hfull|Hcut].
  - destruct (upper_chunk_whole b (String.substring 0 m r)) as [Hwhole Hfixed].
    { rewrite substring_length, Hn. lia. }
    rewrite (upper_from_app _ 0 _ Hwhole), Hfixed. now rewrite IH.
  - rewrite substring_all by lia.
    rewrite (upper_from_short r m) by lia.
    rewrite upper_chunk_cut by (rewrite Hn; lia).
    rewrite app_nil_r_s, upper_from_start, Hn.
    rewrite substring_start, Nat.sub_succ, Nat.sub_0_r.
    rewrite substring_all by lia.
    rewrite (upper_from_short r m) by lia.
    rewrite upper_chunk_cut by (rewrite Hn; lia).
    apply app_nil_r_s.
Qed.

Lemma upper_idempotent (s : string) : Py.upper (Py.upper s) = Py.upper s.
Proof. apply upper_from_fixed. Qed.


(** The head of a split holds no separator and is a prefix of the
    string, followed by nothing or by a separator. *)
Lemma split_head_no_sep (sep : ascii) (s : string) :
  Py.has_char sep (Py.split_head sep s) = false.
Proof.
  induction s as [|c s IH]; simpl; [reflexivity|].
  destruct (Ascii.eqb c sep) eqn:E; simpl; [reflexivity|].
  now rewrite E, IH.
Qed.

Lemma split_head_prefix (sep : ascii) (s : string) :
  exists rest, s = Py.split_head sep s ++ rest
               /\ (rest = EmptyString \/ exists r, rest = String sep r).
Proof.
  induction s as [|c s [rest [Hs Hrest]]]; simpl.
  - exists EmptyString. split; [reflexivity | now left].
  - destruct (Ascii.eqb_spec c sep) as [->|Hne].
    + exists (String sep s). split; [reflexivity | right; now exists s].
    + exists rest. split; [simpl; now rewrite <- Hs | exact Hrest].
Qed.

Lemma split_head_app (sep : ascii) (a b : string) :
  Py.has_char sep a = false ->
  Py.split_head sep (a ++ String sep b) = a.
Proof.
  induction a as [|c a IH]; simpl.
  - intros _. now rewrite Ascii.eqb_refl.
  - intros [Hc Ha]%orb_false_iff. rewrite Hc. now rewrite (IH Ha).
Qed.

(** [quote] leaves a safe byte alone and writes any other as [%] and
    two hexadecimal digits, which are safe characters themselves. *)
Lemma quote_byte_cases (c : ascii) :
  (Py.always_safe c = true /\ Py.quote_byte c = String c EmptyString)
  \/ (Py.always_safe c = false /\
      exists h1 h2, Py.quote_byte c = String "%" (String h1 (String h2 EmptyString))
                    /\ Py.always_safe h1 = true /\ Py.always_safe h2 = true).
Proof.
  destruct c as [[] [] [] [] [] [] [] []];
    first [ left; split; reflexivity
          | right; split; [reflexivity | do 2 eexists; repeat split; reflexivity] ].
Qed.

Lemma quote_alphabet (c : ascii) (s : string) :
  Py.has_char c (Py.quote s) = true -> Py.always_safe c = true \/ c = "%"%char.
Proof.
  induction s as [|a s IH]; simpl; [discriminate|].
  rewrite has_char_app. intros [Hin|Hin]%orb_true_iff; [|now apply IH].
  destruct (quote_byte_cases a) as [[Hsafe Hq]|[_ (h1 & h2 & Hq & H1 & H2)]];
    rewrite Hq in Hin; cbn [Py.has_char] in Hin; rewrite ?orb_false_r in Hin.
  - apply Ascii.eqb_eq in Hin. subst c. now left.
  - apply orb_true_iff in Hin as [Hin|Hin];
      [apply Ascii.eqb_eq in Hin; subst c; now right|].
    apply orb_true_iff in Hin as [Hin|Hin];
      apply Ascii.eqb_eq in Hin; subst c; now left.
Qed.

Lemma quote_no_slash (s : string) : Py.has_char "/" (Py.quote s) = false.
Proof.
  destruct (Py.has_char "/" (Py.quote s)) eqn:E; [|reflexivity].
  apply quote_alphabet in E as [E|E]; discriminate E.
Qed.

(** A non-negative integer below [10^k] has at most [k] digits. *)
Lemma decimal_go_length (fuel : nat) : forall (k : nat) (n : Z) (acc : string),
  (1 <= k)%nat -> (0 <= n < 10 ^ Z.of_nat k)%Z ->
  (String.length (Py.decimal_go fuel n acc) <= k + String.length acc)%nat.
Proof.
  induction fuel as [|fuel IH]; intros k n acc Hk Hn; simpl; [lia|].
  destruct (Z.ltb_spec n 10) as [Hlt|Hge]; simpl; [lia|].
  destruct k as [|[|k]]; [lia | simpl in Hn; lia |].
  assert (0 <= n / 10 < 10 ^ Z.of_nat (S k))%Z as Hdiv.
  { split; [apply Z.div_pos; lia|].
    apply Z.div_lt_upper_bound; [lia|].
    rewrite <- Z.pow_succ_r, <- Nat2Z.inj_succ by lia. apply Hn. }
  pose proof (IH (S k) (n / 10)%Z (String (Py.digit_char (n mod 10)) acc)
                ltac:(lia) Hdiv) as Hlen.
  simpl String.length in Hlen. lia.
Qed.

Lemma length_zeros (k : nat) : String.length (Py.zeros k) = k.
Proof. induction k as [|k IH]; simpl; [reflexivity | now rewrite IH]. Qed.

(** Padding to [w] gives exactly [w] characters when the number fits. *)
Lemma format_d_length (w : nat) (n : Z) :
  (1 <= w)%nat -> (0 <= n < 10 ^ Z.of_nat w)%Z ->
  String.length (Py.format_d w n) = w.
Proof.
  intros Hw Hn.
  pose proof (decimal_go_length (S (Z.to_nat (Z.log2 n))) w n EmptyString Hw Hn) as Hlen.
  fold (Py.decimal n) in Hlen.
  unfold Py.format_d.
  destruct (Z.ltb_spec n 0) as [Hneg|_]; [lia|].
  rewrite Z.abs_eq by lia.
  remember (Py.decimal n) as body eqn:Hbody.
  simpl in *. rewrite length_app, length_zeros. lia.
Qed.

End StringFacts.

(** ** The time-grain table *)

(** C7. Each of the eight time grains [PT1S], [PT1M], [PT1H], [P1D],
    [P1W], [P1M], [P3M] and [P1Y] is mapped to a template in which
    [{col}] occurs exactly once, and the key [None] is mapped to the
    template [{col}] itself. *)
Theorem time_grain_expressions_one_placeholder :
  Forall (fun grain =>
            exists template,
              TrinoEngineSpec._time_grain_expressions !! Some grain = Some template
              /\ Py.count "{col}" template = 1)
         ["PT1S"; "PT1M"; "PT1H"; "P1D"; "P1W"; "P1M"; "P3M"; "P1Y"]
  /\ TrinoEngineSpec._time_grain_expressions !! None = Some "{col}".
Proof.
  split; [|vm_compute; reflexivity].
  repeat (constructor; [eexists; split; vm_compute; reflexivity|]).
  constructor.
Qed.

(** Every template of the table, whatever its key, has one placeholder. *)
Lemma time_grain_expressions_all_templates :
  map_Forall (fun _ template => Py.count "{col}" template = 1)
             TrinoEngineSpec._time_grain_expressions.
Proof.
  apply map_Forall_to_list. unfold TrinoEngineSpec._time_grain_expressions.
  vm_compute map_to_list.
  repeat (constructor; [vm_compute; reflexivity|]). constructor.
Qed.

(** ** Datetime literals *)

Section ConvertDttm.

Import Datetime.

Lemma date_isoformat_length (d : datetime) :
  well_formed d -> String.length (date_isoformat d) = 10.
Proof.
  intros (Hy & Hm & Hd & _). unfold date_isoformat.
  rewrite !length_app, !format_d_length by (simpl; lia). reflexivity.
Qed.


Lemma convert_dttm_timestamp_eq (target_type : string) (d : datetime) :
  Py.upper target_type = TemporalType.TIMESTAMP
  \/ Py.upper target_type = TemporalType.TIMESTAMP_WITH_TIME_ZONE ->
  TrinoEngineSpec.convert_dttm target_type d
  = Some ("TIMESTAMP '" ++ isoformat " " d ++ "'").
Proof.
  unfold TrinoEngineSpec.convert_dttm. intros [-> | ->]; reflexivity.
Qed.

End ConvertDttm.

(** C10. The target type is compared after [upper()]: a target type and
    its upper-case spelling give the same result for every datetime, so
    every spelling whose upper case is [DATE] gives the date literal and
    every spelling whose upper case is [TIMESTAMP] or [TIMESTAMP WITH
    TIME ZONE] gives the timestamp literal; [date], [timestamp] and
    [Timestamp With Time Zone] are such spellings. *)
Theorem convert_dttm_case_insensitive (s : string) (dttm : Datetime.datetime) :
  TrinoEngineSpec.convert_dttm s dttm
  = TrinoEngineSpec.convert_dttm (Py.upper s) dttm
  /\ (Py.upper s = "DATE" ->
      TrinoEngineSpec.convert_dttm s dttm
      = Some ("DATE '" ++ Datetime.date_isoformat dttm ++ "'"))
  /\ (Py.upper s = "TIMESTAMP" \/ Py.upper s = "TIMESTAMP WITH TIME ZONE" ->
      TrinoEngineSpec.convert_dttm s dttm
      = Some ("TIMESTAMP '" ++ Datetime.isoformat " " dttm ++ "'"))
  /\ TrinoEngineSpec.convert_dttm "date" dttm
     = Some ("DATE '" ++ Datetime.date_isoformat dttm ++ "'")
  /\ TrinoEngineSpec.convert_dttm "timestamp" dttm
     = Some ("TIMESTAMP '" ++ Datetime.isoformat " " dttm ++ "'")
  /\ TrinoEngineSpec.convert_dttm "Timestamp With Time Zone" dttm
     = Some ("TIMESTAMP '" ++ Datetime.isoformat " " dttm ++ "'").
Proof.
  split; [|split; [|split; [|split; [|split]]]].
  - unfold TrinoEngineSpec.convert_dttm. now rewrite upper_idempotent.
  - intros Hdate. unfold TrinoEngineSpec.convert_dttm. now rewrite Hdate.
  - apply convert_dttm_timestamp_eq.
  - reflexivity.
  - reflexivity.
  - reflexivity.
Qed.

(** A spelling with a letter outside ASCII: the upper case of the
    dotless [i] of U+0131 is [I]. *)
Lemma convert_dttm_dotless_i (dttm : Datetime.datetime) :
  Py.upper "tımestamp" = "TIMESTAMP"
  /\ TrinoEngineSpec.convert_dttm "tımestamp" dttm
     = TrinoEngineSpec.convert_dttm "TIMESTAMP" dttm.
Proof.
  assert (Py.upper "tımestamp" = "TIMESTAMP") as Hupper
    by (vm_compute; reflexivity).
  split; [exact Hupper|].
  unfold TrinoEngineSpec.convert_dttm. now rewrite Hupper.
Qed.

(** The lower-case spellings are accepted. *)
Lemma convert_dttm_lower_case_spellings (dttm : Datetime.datetime) :
  TrinoEngineSpec.convert_dttm "date" dttm
  = Some ("DATE '" ++ Datetime.date_isoformat dttm ++ "'")
  /\ TrinoEngineSpec.convert_dttm "timestamp" dttm
     = Some ("TIMESTAMP '" ++ Datetime.isoformat " " dttm ++ "'").
Proof. split; reflexivity. Qed.




(** ** The database of a URI *)

Section AdjustDatabaseUri.

Lemma str_truthy_true (s : string) : s <> EmptyString -> Py.str_truthy s = true.
Proof. destruct s; [congruence | reflexivity]. Qed.

(** What the adjustment does when both the schema and the database are
    non-empty. *)
Lemma adjust_database_uri_eq (uri : URL) (db selected_schema : string) :
  database uri = Some db -> db <> EmptyString -> selected_schema <> EmptyString ->
  TrinoEngineSpec.adjust_database_uri uri (Some selected_schema)
  = mk_URL (drivername uri) (username uri) (password uri) (host uri) (port uri)
           (Some (Py.split_head "/" db ++ "/" ++ Py.quote selected_schema))
           (query uri).
Proof.
  intros Hdb Hne Hs. unfold TrinoEngineSpec.adjust_database_uri.
  rewrite Hdb, (str_truthy_true _ Hne), (str_truthy_true _ Hs). reflexivity.
Qed.

(** Without a schema or without a database the URI is left as it is. *)
Lemma adjust_database_uri_noop (uri : URL) (selected_schema : option string) :
  opt_truthy selected_schema && opt_truthy (database uri) = false ->
  TrinoEngineSpec.adjust_database_uri uri selected_schema = uri.
Proof.
  unfold TrinoEngineSpec.adjust_database_uri, opt_truthy.
  destruct selected_schema as [sch|], (database uri) as [db|];
    try reflexivity.
  now intros ->.
Qed.

Lemma one_slash (catalog encoded : string) :
  Py.has_char "/" catalog = false -> Py.has_char "/" encoded = false ->
  Py.count_char "/" (catalog ++ "/" ++ encoded) = 1.
Proof.
  intros Hc He. rewrite !count_char_app.
  rewrite (count_char_absent _ _ Hc), (count_char_absent _ _ He). reflexivity.
Qed.

End AdjustDatabaseUri.

(** C5. With a non-empty database and a non-empty schema, the database
    becomes [<catalog>/<encoded schema>]: the catalog is the text of the
    old database before its first [/] (what follows it is dropped), the
    schema is percent-encoded so that only letters, digits, [_.-~] and
    the [%] of an escape remain, and the result holds a single [/]. The
    other components of the URI are kept. The schema [a/b] is written
    [a%2Fb]. *)
Theorem adjust_database_uri_catalog_and_schema
    (uri : URL) (db selected_schema : string) :
  database uri = Some db -> db <> EmptyString -> selected_schema <> EmptyString ->
  let catalog := Py.split_head "/" db in
  let uri' := TrinoEngineSpec.adjust_database_uri uri (Some selected_schema) in
  database uri' = Some (catalog ++ "/" ++ Py.quote selected_schema)
  /\ (exists rest, db = catalog ++ rest
                   /\ (rest = EmptyString \/ exists r, rest = String "/" r))
  /\ Py.has_char "/" catalog = false
  /\ (forall c, Py.has_char c (Py.quote selected_schema) = true ->
                Py.always_safe c = true \/ c = "%"%char)
  /\ Py.has_char "/" (Py.quote selected_schema) = false
  /\ Py.count_char "/" (catalog ++ "/" ++ Py.quote selected_schema) = 1
  /\ (selected_schema = "a/b" -> database uri' = Some (catalog ++ "/a%2Fb"))
  /\ (drivername uri', username uri', password uri', host uri', port uri', query uri')
     = (drivername uri, username uri, password uri, host uri, port uri, query uri).
Proof.
  intros Hdb Hne Hs catalog uri'. subst uri'.
  rewrite (adjust_database_uri_eq uri db selected_schema Hdb Hne Hs). simpl.
  repeat split.
  - apply split_head_prefix.
  - apply split_head_no_sep.
  - intros c. apply quote_alphabet.
  - apply quote_no_slash.
  - apply one_slash; [apply split_head_no_sep | apply quote_no_slash].
  - now intros ->.
Qed.

Lemma adjust_database_uri_catalog_and_schema_witness :
  let uri := mk_URL "trino" None None (Some "host") (Some 8080%Z)
                    (Some "hive/default") [] in
  (database uri = Some "hive/default" /\ "hive/default" <> EmptyString
   /\ "a/b" <> EmptyString)
  /\ database (TrinoEngineSpec.adjust_database_uri uri (Some "a/b"))
     = Some "hive/a%2Fb".
Proof.
  intros uri. split; [repeat split; discriminate|].
  exact (proj1 (adjust_database_uri_catalog_and_schema uri "hive/default" "a/b"
                  eq_refl ltac:(discriminate) ltac:(discriminate))).
Defined.

(** C6. Adjusting a URI a second time with the same schema changes
    nothing more: the database, and the whole URI, are as after the first
    adjustment. This holds for every URI and every schema, so also when
    the database and the schema are non-empty. *)
Theorem adjust_database_uri_idempotent (uri : URL) (selected_schema : option string) :
  TrinoEngineSpec.adjust_database_uri
    (TrinoEngineSpec.adjust_database_uri uri selected_schema) selected_schema
  = TrinoEngineSpec.adjust_database_uri uri selected_schema.
Proof.
  destruct (opt_truthy selected_schema && opt_truthy (database uri)) eqn:Hboth.
  - apply andb_true_iff in Hboth as [Hs Hd].
    destruct selected_schema as [[|c sch]|]; try discriminate Hs.
    destruct (database uri) as [[|x db]|] eqn:Hdb; try discriminate Hd.
    rewrite (adjust_database_uri_eq uri (String x db) (String c sch) Hdb)
      by discriminate.
    set (catalog := Py.split_head "/" (String x db)).
    set (encoded := Py.quote (String c sch)).
    assert (catalog ++ "/" ++ encoded <> EmptyString) as Hne
      by (destruct catalog; discriminate).
    match goal with
    | |- TrinoEngineSpec.adjust_database_uri ?once _ = _ =>
        rewrite (adjust_database_uri_eq once (catalog ++ "/" ++ encoded)
                   (String c sch) eq_refl Hne) by discriminate
    end.
    simpl. fold encoded.
    change (catalog ++ "/" ++ encoded) with (catalog ++ String "/" encoded).
    rewrite (split_head_app "/" catalog encoded) by apply split_head_no_sep.
    reflexivity.
  - now rewrite !(adjust_database_uri_noop uri selected_schema Hboth).
Qed.

(** ** Impersonation *)

(** C3, as stated, fails: with a Trino URI and the empty string as user
    name, [user] is written all the same, and [connect_args] changes. *)
Lemma update_impersonation_config_empty_username :
  TrinoEngineSpec.update_impersonation_config (H := Sample.imports)
    ∅ "trino://host/hive" (Some EmptyString)
  = (Ok tt, <["user" := VStr EmptyString]> ∅)
  /\ snd (TrinoEngineSpec.update_impersonation_config (H := Sample.imports)
            ∅ "trino://host/hive" (Some EmptyString)) <> ∅.
Proof.
  split; [reflexivity|].
  intros Heq. apply (f_equal (fun m : gmap string value => m !! "user")) in Heq.
  vm_compute in Heq. discriminate Heq.
Qed.

(** C3, amended. When the URI parses, [connect_args["user"]] is set to
    the user name exactly when the backend name of the URI is [trino] and
    the user name is not [None] (the empty string included); in the other
    cases [connect_args] is left as it is. *)
Theorem update_impersonation_config_sets_user `{Imports}
    (connect_args : gmap string value) (uri : string)
    (user : option string) (url : URL) :
  make_url uri = Ok url ->
  (forall name, get_backend_name url = "trino" -> user = Some name ->
     TrinoEngineSpec.update_impersonation_config connect_args uri user
     = (Ok tt, <["user" := VStr name]> connect_args))
  /\ (get_backend_name url <> "trino" \/ user = None ->
      TrinoEngineSpec.update_impersonation_config connect_args uri user
      = (Ok tt, connect_args)).
Proof.
  intros Hurl. unfold TrinoEngineSpec.update_impersonation_config.
  rewrite Hurl. split.
  - intros name -> ->. reflexivity.
  - intros [Hbackend | ->]; [|reflexivity].
    destruct user as [name|]; [|reflexivity].
    now apply String.eqb_neq in Hbackend as ->.
Qed.

Lemma update_impersonation_config_sets_user_witness :
  make_url (Imports := Sample.imports) "trino://host/hive"
  = Ok (mk_URL "trino" None None (Some "host") None (Some "hive") [])
  /\ TrinoEngineSpec.update_impersonation_config (H := Sample.imports)
       ∅ "trino://host/hive" (Some "alice")
     = (Ok tt, <["user" := VStr "alice"]> ∅).
Proof.
  split; [reflexivity|].
  exact (proj1 (update_impersonation_config_sets_user (H := Sample.imports)
                  ∅ "trino://host/hive" (Some "alice") _ eq_refl)
           "alice" eq_refl eq_refl).
Defined.

(** A URI that does not parse: the error is passed on. *)
Lemma update_impersonation_config_bad_uri `{Imports}
    (connect_args : gmap string value) (uri : string)
    (user : option string) (e : exn) :
  make_url uri = Raise e ->
  TrinoEngineSpec.update_impersonation_config connect_args uri user
  = (Raise e, connect_args).
Proof.
  intros Hurl. unfold TrinoEngineSpec.update_impersonation_config.
  now rewrite Hurl.
Qed.

(** ** TLS and authentication parameters *)

Section Builder.

Context `{Imports}.

Lemma connect_args_of_insert (p : gmap string value) (v : value) :
  connect_args_of (<["connect_args" := v]> p) = v.
Proof. unfold connect_args_of. now rewrite lookup_insert_eq. Qed.

(** Without an encrypted extra nothing happens. *)
Lemma update_encrypted_extra_params_absent (db : Database) (st : store) :
  opt_truthy (encrypted_extra db) = false ->
  TrinoEngineSpec.update_encrypted_extra_params db st = (Ok tt, st).
Proof.
  unfold TrinoEngineSpec.update_encrypted_extra_params, opt_truthy.
  destruct (encrypted_extra db) as [blob|]; [|reflexivity].
  now intros ->.
Qed.

(** The run of the builder once the extra has parsed to an object with a
    truthy [auth_method], on [params] whose [connect_args] is missing or
    is a dictionary [ca]: [http_scheme] is written first, and what
    follows depends on the resolution and construction of the strategy. *)
Lemma update_encrypted_extra_params_run (db : Database) (blob : string)
    (extra ca : gmap string value) (m : value) (st : store) :
  encrypted_extra db = Some blob -> blob <> EmptyString ->
  json_loads blob = Ok (VDict extra) ->
  extra !! "auth_method" = Some m -> truthy m = true ->
  connect_args_of (params st) = VDict ca ->
  let auth_params :=
    default (VDict ∅) (delete "auth_method" extra !! "auth_params") in
  let ca1 := <["http_scheme" := VStr "https"]> ca in
  let st1 := mk_store (<["connect_args" := VDict ca1]> (params st)) (log st) in
  TrinoEngineSpec.update_encrypted_extra_params db st =
    match TrinoEngineSpec.resolve_trino_auth m
          ≫= (fun trino_auth => call_kwargs trino_auth auth_params) with
    | Ok auth =>
        (Ok tt,
         mk_store (<["connect_args" := VDict (<["auth" := auth]> ca1)]> (params st))
                  (log st))
    | Raise (JSONDecodeError msg) =>
        (Raise (JSONDecodeError msg),
         mk_store (params st1) (log st ++ [JSONDecodeError msg]))
    | Raise e => (Raise e, st1)
    end.
Proof.
  intros Henc Hne Hloads Hm Htruthy Hca auth_params ca1 st1.
  unfold TrinoEngineSpec.update_encrypted_extra_params. rewrite Henc.
  rewrite (str_truthy_true _ Hne). cbn [negb].
  unfold try_except_JSONDecodeError, mbind, M_bind, lift. rewrite Hloads.
  cbn [pop]. rewrite Hm.
  assert (exists rest,
            pop (VDict (delete "auth_method" extra)) "auth_params" (VDict ∅)
            = Ok (auth_params, rest)) as [rest ->].
  { subst auth_params. cbn [pop].
    destruct (delete "auth_method" extra !! "auth_params"); eauto. }
  rewrite Htruthy. cbn [negb].
  unfold setdefault_connect_args, connect_args_setitem.
  cbn [params log]. rewrite Hca, connect_args_of_insert. cbn [setitem].
  rewrite insert_insert_eq. fold ca1.
  unfold result_bind.
  destruct (TrinoEngineSpec.resolve_trino_auth m) as [trino_auth|e];
    [destruct (call_kwargs trino_auth auth_params) as [auth|e]|].
  - cbn [params log]. rewrite connect_args_of_insert. cbn [setitem].
    now rewrite insert_insert_eq.
  - destruct e; reflexivity.
  - destruct e; reflexivity.
Qed.

(** Resolving a method that is neither built in nor allow-listed. *)
Lemma resolve_trino_auth_not_allowed (m : value) (shown : string) :
  hashable_str m = Ok shown ->
  eq_str m "basic" = false -> eq_str m "kerberos" = false ->
  eq_str m "jwt" = false ->
  (forall name, m = VStr name ->
     default ∅ (ALLOWED_EXTRA_AUTHENTICATIONS !! "trino") !! name = None) ->
  TrinoEngineSpec.resolve_trino_auth m
  = Raise (ValueError (TrinoEngineSpec.not_allowed_message shown)).
Proof.
  intros Hshown Hb Hk Hj Hallowed. unfold TrinoEngineSpec.resolve_trino_auth.
  rewrite Hb, Hk, Hj, Hshown. unfold mbind, result_bind.
  destruct m; try reflexivity. now rewrite (Hallowed s eq_refl).
Qed.

(** Resolution raises no [JSONDecodeError]. *)
Lemma resolve_trino_auth_no_decode_error (m : value) (msg : string) :
  TrinoEngineSpec.resolve_trino_auth m <> Raise (JSONDecodeError msg).
Proof.
  unfold TrinoEngineSpec.resolve_trino_auth, mbind, result_bind.
  repeat match goal with
         | |- context [if ?b then _ else _] => destruct b; [discriminate|]
         end.
  destruct m; simpl; try discriminate.
  destruct (default ∅ (ALLOWED_EXTRA_AUTHENTICATIONS !! "trino") !! s);
    discriminate.
Qed.

End Builder.

(** C2, as stated, fails: an encrypted extra that is the empty string is
    there and is not valid JSON (the decoder rejects it), yet the call
    returns without raising and without logging. *)
Lemma empty_encrypted_extra_raises_nothing :
  let db := mk_Database None (Some EmptyString) in
  let st := mk_store (<["connect_args" := VDict (<["user" := VStr "alice"]> ∅)]> ∅) [] in
  encrypted_extra db = Some EmptyString
  /\ json_loads (Imports := Sample.imports) EmptyString
     = Raise (JSONDecodeError "Expecting value")
  /\ TrinoEngineSpec.update_encrypted_extra_params (H := Sample.imports) db st
     = (Ok tt, st).
Proof. repeat split. Qed.

(** C2, amended. When the encrypted extra is a non-empty string that the
    decoder rejects, the decoder's error is handed to the logger and
    raised again, and [params] is what it was. When it is the empty
    string the decoder is not asked: the call returns, and neither
    [params] nor the log changes. *)
Theorem malformed_encrypted_extra_is_logged_and_raised `{Imports}
    (db : Database) (blob msg : string) (st : store) :
  encrypted_extra db = Some blob ->
  json_loads blob = Raise (JSONDecodeError msg) ->
  (blob <> EmptyString ->
   TrinoEngineSpec.update_encrypted_extra_params db st
   = (Raise (JSONDecodeError msg),
      mk_store (params st) (log st ++ [JSONDecodeError msg])))
  /\ (blob = EmptyString ->
      TrinoEngineSpec.update_encrypted_extra_params db st = (Ok tt, st)).
Proof.
  intros Henc Hloads.
  unfold TrinoEngineSpec.update_encrypted_extra_params. rewrite Henc. split.
  - intros Hne. rewrite (str_truthy_true _ Hne). cbn [negb].
    unfold try_except_JSONDecodeError, mbind, M_bind, lift. rewrite Hloads.
    reflexivity.
  - now intros ->.
Qed.

Lemma malformed_encrypted_extra_is_logged_and_raised_witness :
  let db := mk_Database None (Some "{not json") in
  let st := mk_store (<["connect_args" := VDict (<["user" := VStr "alice"]> ∅)]> ∅) [] in
  json_loads (Imports := Sample.imports) "{not json"
  = Raise (JSONDecodeError "Expecting value")
  /\ TrinoEngineSpec.update_encrypted_extra_params (H := Sample.imports) db st
     = (Raise (JSONDecodeError "Expecting value"),
        mk_store (params st) [JSONDecodeError "Expecting value"]).
Proof.
  intros db st. split; [reflexivity|].
  exact (proj1 (malformed_encrypted_extra_is_logged_and_raised (H := Sample.imports)
                  db "{not json" "Expecting value" st eq_refl eq_refl)
           ltac:(discriminate)).
Defined.

(** C1, as stated, fails: an [auth_method] that is the empty string is
    none of the built-in names and is not allow-listed, yet the call
    returns without an error (and without configuring anything). *)
Lemma empty_auth_method_raises_nothing :
  let blob := "{" ++ Sample.quoted "auth_method" ++ ": " ++ Sample.quoted ""
              ++ ", " ++ Sample.quoted "auth_params" ++ ": {}}" in
  let db := mk_Database None (Some blob) in
  json_loads (Imports := Sample.imports) blob
  = Ok (VDict (<["auth_method" := VStr ""]> (<["auth_params" := VDict ∅]> ∅)))
  /\ (eq_str (VStr "") "basic" || eq_str (VStr "") "kerberos"
      || eq_str (VStr "") "jwt") = false
  /\ default ∅ (ALLOWED_EXTRA_AUTHENTICATIONS (Imports := Sample.imports) !! "trino")
       !! "" = None
  /\ TrinoEngineSpec.update_encrypted_extra_params (H := Sample.imports) db
       (mk_store ∅ [])
     = (Ok tt, mk_store ∅ []).
Proof. repeat split; vm_compute; reflexivity. Qed.

(** C1, amended. When the encrypted extra parses to an object whose
    [auth_method] is truthy and hashable (a non-empty string, for one),
    is none of [basic], [kerberos], [jwt] and is not in the allow-list of
    the engine [trino], and [connect_args] in [params] is missing or a
    dictionary, the call raises a [ValueError] saying that this custom
    authentication must be listed in [ALLOWED_EXTRA_AUTHENTICATIONS]. The
    entry [auth] of [connect_args] is what it was before the call, and
    nothing is logged. *)
Theorem custom_auth_method_must_be_allow_listed `{Imports}
    (db : Database) (blob shown : string)
    (extra ca : gmap string value) (m : value) (st : store) :
  encrypted_extra db = Some blob -> blob <> EmptyString ->
  json_loads blob = Ok (VDict extra) ->
  extra !! "auth_method" = Some m ->
  truthy m = true -> hashable_str m = Ok shown ->
  eq_str m "basic" = false -> eq_str m "kerberos" = false ->
  eq_str m "jwt" = false ->
  (forall name, m = VStr name ->
     default ∅ (ALLOWED_EXTRA_AUTHENTICATIONS !! "trino") !! name = None) ->
  connect_args_of (params st) = VDict ca ->
  exists st',
    TrinoEngineSpec.update_encrypted_extra_params db st
    = (Raise (ValueError
                ("For security reason, custom authentication '" ++ shown
                 ++ "' must be listed in 'ALLOWED_EXTRA_AUTHENTICATIONS' config")),
       st')
    /\ (exists ca', connect_args_of (params st') = VDict ca'
                    /\ ca' !! "auth" = ca !! "auth")
    /\ log st' = log st.
Proof.
  intros Henc Hne Hloads Hm Htruthy Hshown Hb Hk Hj Hallowed Hca.
  rewrite (update_encrypted_extra_params_run db blob extra ca m st
             Henc Hne Hloads Hm Htruthy Hca).
  rewrite (resolve_trino_auth_not_allowed m shown Hshown Hb Hk Hj Hallowed).
  cbn [mbind result_bind]. eexists. split; [reflexivity|]. split; [|reflexivity].
  cbn [params]. rewrite connect_args_of_insert. eexists. split; [reflexivity|].
  now rewrite lookup_insert_ne.
Qed.

Lemma custom_auth_method_must_be_allow_listed_witness :
  let blob := "{" ++ Sample.quoted "auth_method" ++ ": " ++ Sample.quoted "evil"
              ++ ", " ++ Sample.quoted "auth_params" ++ ": {}}" in
  let db := mk_Database None (Some blob) in
  json_loads (Imports := Sample.imports) blob
  = Ok (VDict (<["auth_method" := VStr "evil"]> (<["auth_params" := VDict ∅]> ∅)))
  /\ exists st',
       TrinoEngineSpec.update_encrypted_extra_params (H := Sample.imports) db
         (mk_store ∅ [])
       = (Raise (ValueError
                   ("For security reason, custom authentication '" ++ "evil"
                    ++ "' must be listed in 'ALLOWED_EXTRA_AUTHENTICATIONS' config")),
          st')
       /\ (exists ca', connect_args_of (params st') = VDict ca'
                       /\ ca' !! "auth" = (∅ : gmap string value) !! "auth")
       /\ log st' = [].
Proof.
  intros blob db. split; [vm_compute; reflexivity|].
  refine (custom_auth_method_must_be_allow_listed (H := Sample.imports)
            db blob "evil"
            (<["auth_method" := VStr "evil"]> (<["auth_params" := VDict ∅]> ∅))
            ∅ (VStr "evil") (mk_store ∅ [])
            eq_refl _ _ _ eq_refl eq_refl eq_refl eq_refl eq_refl _ eq_refl).
  - discriminate.
  - vm_compute; reflexivity.
  - vm_compute; reflexivity.
  - intros name _. apply lookup_empty.
Defined.

(** C9, as stated, fails: with the empty string as [auth_method] the
    call returns before [http_scheme] is touched, so [connect_args] keeps
    the scheme it had. *)
Lemma empty_auth_method_keeps_http_scheme :
  let blob := "{" ++ Sample.quoted "auth_method" ++ ": " ++ Sample.quoted "" ++ "}" in
  let db := mk_Database None (Some blob) in
  let st := mk_store (<["connect_args" := VDict (<["http_scheme" := VStr "http"]> ∅)]> ∅) [] in
  json_loads (Imports := Sample.imports) blob
  = Ok (VDict (<["auth_method" := VStr ""]> ∅))
  /\ TrinoEngineSpec.update_encrypted_extra_params (H := Sample.imports) db st
     = (Ok tt, st)
  /\ connect_args_of (params st) = VDict (<["http_scheme" := VStr "http"]> ∅).
Proof. repeat split; vm_compute; reflexivity. Qed.

(** C9, amended. When the encrypted extra parses to an object whose
    [auth_method] is truthy, and [connect_args] in [params] is missing or
    a dictionary, then after the call, however it ends, [connect_args]
    holds [http_scheme = "https"]. When the call raises, [params] is the
    old [params] with that one entry written, so it differs from the old
    one unless the entry was there already; and the error of a method
    that is not allowed is raised in this state. *)
Theorem https_is_forced_before_the_strategy_is_resolved `{Imports}
    (db : Database) (blob : string)
    (extra ca : gmap string value) (m : value) (st : store) :
  encrypted_extra db = Some blob -> blob <> EmptyString ->
  json_loads blob = Ok (VDict extra) ->
  extra !! "auth_method" = Some m -> truthy m = true ->
  connect_args_of (params st) = VDict ca ->
  let run := TrinoEngineSpec.update_encrypted_extra_params db st in
  let forced :=
    <["connect_args" := VDict (<["http_scheme" := VStr "https"]> ca)]> (params st) in
  (exists ca', connect_args_of (params (snd run)) = VDict ca'
               /\ ca' !! "http_scheme" = Some (VStr "https"))
  /\ (forall e, fst run = Raise e ->
        params (snd run) = forced
        /\ (ca !! "http_scheme" <> Some (VStr "https") ->
            params (snd run) <> params st))
  /\ (forall msg, TrinoEngineSpec.resolve_trino_auth m = Raise (ValueError msg) ->
        fst run = Raise (ValueError msg) /\ params (snd run) = forced).
Proof.
  intros Henc Hne Hloads Hm Htruthy Hca run forced. subst run.
  rewrite (update_encrypted_extra_params_run db blob extra ca m st
             Henc Hne Hloads Hm Htruthy Hca).
  assert (ca !! "http_scheme" <> Some (VStr "https") -> forced <> params st)
    as Hdiff.
  { intros Hold Heq.
    apply (f_equal connect_args_of) in Heq. subst forced.
    rewrite connect_args_of_insert, Hca in Heq. injection Heq as Heq.
    apply Hold. rewrite <- Heq. apply lookup_insert_eq. }
  split; [|split].
  - destruct (TrinoEngineSpec.resolve_trino_auth m ≫= _) as [auth|e];
      [|destruct e]; cbn [snd params]; rewrite connect_args_of_insert;
      eexists; (split; [reflexivity|]);
      rewrite ?lookup_insert_ne by discriminate; apply lookup_insert_eq.
  - intros e.
    destruct (TrinoEngineSpec.resolve_trino_auth m ≫= _) as [auth|e'];
      [discriminate|].
    intros _. destruct e'; cbn [snd params]; (split; [reflexivity|]);
      exact Hdiff.
  - intros msg ->. cbn [mbind result_bind]. split; reflexivity.
Qed.

Lemma https_is_forced_before_the_strategy_is_resolved_witness :
  let blob := "{" ++ Sample.quoted "auth_method" ++ ": " ++ Sample.quoted "evil" ++ "}" in
  let db := mk_Database None (Some blob) in
  let run := TrinoEngineSpec.update_encrypted_extra_params (H := Sample.imports) db
               (mk_store ∅ []) in
  json_loads (Imports := Sample.imports) blob
  = Ok (VDict (<["auth_method" := VStr "evil"]> ∅))
  /\ (forall e, fst run = Raise e ->
        params (snd run)
        = <["connect_args" := VDict (<["http_scheme" := VStr "https"]> ∅)]> ∅
        /\ ((∅ : gmap string value) !! "http_scheme" <> Some (VStr "https") ->
            params (snd run) <> ∅)).
Proof.
  intros blob db run. split; [vm_compute; reflexivity|].
  refine (proj1 (proj2 (https_is_forced_before_the_strategy_is_resolved
                          (H := Sample.imports) db blob
                          (<["auth_method" := VStr "evil"]> ∅) ∅ (VStr "evil")
                          (mk_store ∅ []) eq_refl _ _ _ eq_refl eq_refl))).
  - discriminate.
  - vm_compute; reflexivity.
  - vm_compute; reflexivity.
Defined.

(** C8. For a database without a server certificate and without an
    encrypted extra, whose base parameters are a dictionary in which
    [engine_params], if present, is a dictionary: [get_extra_params]
    returns the base parameters with [engine_params] and [connect_args]
    filled in as empty dictionaries where they were missing, [connect_args]
    itself being what it was (so without [http_scheme], [verify] or [auth]
    unless the base had them); if both were present the base parameters
    are returned as they are. [update_encrypted_extra_params] then
    returns and leaves any [params] and the log as they are. *)
Theorem no_cert_and_no_encrypted_extra_add_nothing `{Imports}
    (db : Database) (extra : gmap string value) (st : store) :
  opt_truthy (server_cert db) = false ->
  opt_truthy (encrypted_extra db) = false ->
  BaseEngineSpec_get_extra_params db = Ok (VDict extra) ->
  (forall v, extra !! "engine_params" = Some v -> exists d, v = VDict d) ->
  let engine_params :=
    match extra !! "engine_params" with Some (VDict d) => d | _ => ∅ end in
  let connect_args := default (VDict ∅) (engine_params !! "connect_args") in
  TrinoEngineSpec.get_extra_params db
  = Ok (VDict (<["engine_params" :=
                   VDict (<["connect_args" := connect_args]> engine_params)]> extra))
  /\ (is_Some (extra !! "engine_params") ->
      is_Some (engine_params !! "connect_args") ->
      TrinoEngineSpec.get_extra_params db = Ok (VDict extra))
  /\ (engine_params !! "connect_args" = None -> connect_args = VDict ∅)
  /\ TrinoEngineSpec.update_encrypted_extra_params db st = (Ok tt, st).
Proof.
  intros Hcert Henc Hbase Hshape engine_params connect_args.
  assert (TrinoEngineSpec.get_extra_params db
          = Ok (VDict (<["engine_params" :=
                   VDict (<["connect_args" := connect_args]> engine_params)]> extra)))
    as Hget.
  { unfold TrinoEngineSpec.get_extra_params. rewrite Hbase.
    cbn [mbind result_bind]. subst connect_args engine_params.
    unfold opt_truthy in Hcert.
    destruct (extra !! "engine_params") as [v|] eqn:Hep;
      [destruct (Hshape v eq_refl) as [d ->]|]; cbn [default];
      destruct (server_cert db) as [cert|]; rewrite ?Hcert; reflexivity. }
  split; [exact Hget|]. split; [|split].
  - intros [v Hv] [c Hc]. rewrite Hget. do 2 f_equal.
    subst connect_args. rewrite Hc. cbn [default].
    rewrite (insert_id engine_params _ _ Hc).
    apply insert_id. subst engine_params. rewrite Hv.
    now destruct (Hshape v Hv) as [d ->].
  - subst connect_args. now intros ->.
  - now apply update_encrypted_extra_params_absent.
Qed.

Lemma no_cert_and_no_encrypted_extra_add_nothing_witness :
  let db := mk_Database None None in
  let st := mk_store (<["connect_args" := VDict ∅]> ∅) [] in
  BaseEngineSpec_get_extra_params (Imports := Sample.imports) db = Ok (VDict ∅)
  /\ TrinoEngineSpec.get_extra_params (H := Sample.imports) db
     = Ok (VDict (<["engine_params" := VDict (<["connect_args" := VDict ∅]> ∅)]> ∅))
  /\ TrinoEngineSpec.update_encrypted_extra_params (H := Sample.imports) db st
     = (Ok tt, st).
Proof.
  intros db st. split; [reflexivity|].
  destruct (no_cert_and_no_encrypted_extra_add_nothing (H := Sample.imports)
              db ∅ st eq_refl eq_refl eq_refl) as (Hget & _ & _ & Hupd).
  - intros v Hv. rewrite lookup_empty in Hv. discriminate Hv.
  - split; [exact Hget | exact Hupd].
Defined.

(** ** What the literals keep of a datetime *)

Section ReadingBack.

Lemma digit_value_digit_char (d : Z) :
  (0 <= d < 10)%Z -> Reading.digit_value (Py.digit_char d) = d.
Proof.
  intros Hd. unfold Reading.digit_value, Py.digit_char.
  rewrite nat_ascii_embedding by lia. lia.
Qed.

Lemma digits_value_from_app (a : Z) (s1 s2 : string) :
  Reading.digits_value_from a (s1 ++ s2)
  = Reading.digits_value_from (Reading.digits_value_from a s1) s2.
Proof.
  revert a. induction s1 as [|c s1 IH]; intros a; simpl; [reflexivity|].
  apply IH.
Qed.

Lemma decimal_go_step (fuel : nat) (n : Z) (acc : string) :
  Py.decimal_go (S fuel) n acc
  = if (n <? 10)%Z then String (Py.digit_char (n mod 10)) acc
    else Py.decimal_go fuel (n / 10) (String (Py.digit_char (n mod 10)) acc).
Proof. reflexivity. Qed.

(** The digits written by [decimal_go] in front of [acc] are those of
    [n]. *)
Lemma decimal_go_value (fuel : nat) : forall (n a : Z) (acc : string),
  (0 <= n < 10 ^ Z.of_nat (S fuel))%Z ->
  exists k : Z,
    (0 <= k)%Z
    /\ Reading.digits_value_from a (Py.decimal_go (S fuel) n acc)
       = Reading.digits_value_from (a * 10 ^ k + n) acc.
Proof.
  induction fuel as [|fuel IH]; intros n a acc Hn; rewrite decimal_go_step;
    destruct (Z.ltb_spec n 10) as [Hlt|Hge].
  - exists 1%Z. split; [lia|]. cbn [Reading.digits_value_from].
    rewrite Z.mod_small, digit_value_digit_char by lia. f_equal. lia.
  - change (10 ^ Z.of_nat 1)%Z with 10%Z in Hn. lia.
  - exists 1%Z. split; [lia|]. cbn [Reading.digits_value_from].
    rewrite Z.mod_small, digit_value_digit_char by lia. f_equal. lia.
  - assert (0 <= n / 10 < 10 ^ Z.of_nat (S fuel))%Z as Hdiv.
    { split; [apply Z.div_pos; lia|].
      apply Z.div_lt_upper_bound; [lia|].
      rewrite <- Z.pow_succ_r, <- Nat2Z.inj_succ by lia. apply Hn. }
    destruct (IH (n / 10)%Z a (String (Py.digit_char (n mod 10)) acc) Hdiv)
      as (k & Hk & Hval).
    exists (k + 1)%Z. split; [lia|].
    rewrite Hval. cbn [Reading.digits_value_from].
    rewrite digit_value_digit_char by (apply Z.mod_pos_bound; lia).
    f_equal. rewrite Z.pow_add_r by lia.
    pose proof (Z.div_mod n 10 ltac:(lia)). nia.
Qed.

Lemma decimal_value (n : Z) :
  (0 <= n)%Z -> Reading.digits_value (Py.decimal n) = n.
Proof.
  intros Hn. unfold Reading.digits_value, Py.decimal.
  destruct (decimal_go_value (Z.to_nat (Z.log2 n)) n 0%Z EmptyString) as (k & _ & Hval).
  - split; [exact Hn|].
    rewrite Nat2Z.inj_succ, Z2Nat.id by apply Z.log2_nonneg.
    destruct (Z.eq_dec n 0%Z) as [->|Hpos]; [reflexivity|].
    apply Z.lt_le_trans with (2 ^ Z.succ (Z.log2 n))%Z;
      [apply Z.log2_spec; lia|].
    apply Z.pow_le_mono_l. pose proof (Z.log2_nonneg n). lia.
  - rewrite Hval. cbn [Reading.digits_value_from]. lia.
Qed.

Lemma zeros_value (k : nat) (s : string) :
  Reading.digits_value (Py.zeros k ++ s) = Reading.digits_value s.
Proof.
  unfold Reading.digits_value. induction k as [|k IH]; simpl; [reflexivity|].
  exact IH.
Qed.

(** A padded non-negative number reads back as itself. *)
Lemma format_d_value (w : nat) (n : Z) :
  (0 <= n)%Z -> Reading.digits_value (Py.format_d w n) = n.
Proof.
  intros Hn. unfold Py.format_d.
  destruct (Z.ltb_spec n 0) as [Hneg|_]; [lia|].
  rewrite Z.abs_eq by lia. cbn [String.append].
  rewrite zeros_value. now apply decimal_value.
Qed.

Lemma format_d_inj (w : nat) (n1 n2 : Z) :
  (0 <= n1)%Z -> (0 <= n2)%Z ->
  Py.format_d w n1 = Py.format_d w n2 -> n1 = n2.
Proof.
  intros H1 H2 Heq. apply (f_equal Reading.digits_value) in Heq.
  now rewrite !format_d_value in Heq.
Qed.

(** Two concatenations that agree and start with parts of one length
    agree part by part. *)
Lemma app_inj_length (a1 a2 r1 r2 : string) :
  String.length a1 = String.length a2 ->
  a1 ++ r1 = a2 ++ r2 -> a1 = a2 /\ r1 = r2.
Proof.
  revert a2. induction a1 as [|c a1 IH]; intros [|c2 a2] Hlen Heq;
    try discriminate Hlen.
  - now split.
  - simpl in Heq. injection Heq as -> Heq. injection Hlen as Hlen.
    destruct (IH a2 Hlen Heq) as [-> ->]. now split.
Qed.

Lemma app_inv_tail_s (a b c : string) : a ++ c = b ++ c -> a = b.
Proof.
  intros Heq. apply (app_inj_length a b c c); [|exact Heq].
  apply (f_equal String.length) in Heq. rewrite !length_app in Heq. lia.
Qed.

End ReadingBack.

Section DatetimeFields.

Import Datetime.

(** The date and time of day written for two well-formed datetimes agree
    only if the datetimes agree field by field. *)
Lemma isoformat_local_inj (sep : string) (d1 d2 : datetime) (r1 r2 : string) :
  well_formed d1 -> well_formed d2 ->
  isoformat_local sep d1 ++ r1 = isoformat_local sep d2 ++ r2 ->
  (year d1, month d1, day d1) = (year d2, month d2, day d2)
  /\ (hour d1, minute d1, second d1, microsecond d1)
     = (hour d2, minute d2, second d2, microsecond d2)
  /\ r1 = r2.
Proof.
  intros (Hy1 & Hm1 & Hd1 & Hh1 & Hmi1 & Hs1 & Hu1)
         (Hy2 & Hm2 & Hd2 & Hh2 & Hmi2 & Hs2 & Hu2) Heq.
  unfold isoformat_local, date_isoformat, format_time in Heq.
  rewrite !app_assoc_s in Heq.
  repeat match type of Heq with
         | Py.format_d _ _ ++ _ = Py.format_d _ _ ++ _ =>
             let Hf := fresh "Hfield" in
             apply app_inj_length in Heq as [Hf Heq];
             [apply format_d_inj in Hf; [|lia|lia]
             |rewrite !format_d_length by (simpl; lia); reflexivity]
         | ?s ++ _ = ?s ++ _ =>
             apply app_inj_length in Heq as [_ Heq]; [|reflexivity]
         end.
  repeat split; congruence.
Qed.

End DatetimeFields.

(** X1. For the target type [DATE], in any letter case, the result is
    [DATE '<year>-<month>-<day>'] with a date of 10 characters; for
    well-formed datetimes two results agree exactly when year, month and
    day agree, whatever the time of day and the time zone. *)
Theorem convert_dttm_date_keeps_the_date_only
    (target_type : string) (d1 d2 : Datetime.datetime) :
  Py.upper target_type = "DATE" ->
  Datetime.well_formed d1 -> Datetime.well_formed d2 ->
  TrinoEngineSpec.convert_dttm target_type d1
  = Some ("DATE '" ++ Py.format_d 4 (Datetime.year d1) ++ "-"
          ++ Py.format_d 2 (Datetime.month d1) ++ "-"
          ++ Py.format_d 2 (Datetime.day d1) ++ "'")
  /\ String.length (Datetime.date_isoformat d1) = 10
  /\ (TrinoEngineSpec.convert_dttm target_type d1
      = TrinoEngineSpec.convert_dttm target_type d2
      <-> (Datetime.year d1, Datetime.month d1, Datetime.day d1)
          = (Datetime.year d2, Datetime.month d2, Datetime.day d2)).
Proof.
  intros Htt Hwf1 Hwf2. unfold TrinoEngineSpec.convert_dttm. rewrite Htt.
  cbn [String.eqb Ascii.eqb Bool.eqb TemporalType.DATE].
  split; [|split].
  - unfold Datetime.date_isoformat. now rewrite !app_assoc_s.
  - now apply date_isoformat_length.
  - split.
    + intros Heq. injection Heq as Heq. unfold Datetime.date_isoformat in Heq.
      rewrite !app_assoc_s in Heq.
      destruct Hwf1 as (Hy1 & Hm1 & Hd1 & _), Hwf2 as (Hy2 & Hm2 & Hd2 & _).
      repeat match type of Heq with
             | Py.format_d _ _ ++ _ = Py.format_d _ _ ++ _ =>
                 let Hf := fresh "Hfield" in
                 apply app_inj_length in Heq as [Hf Heq];
                 [apply format_d_inj in Hf; [|lia|lia]
                 |rewrite !format_d_length by (simpl; lia); reflexivity]
             | ?s ++ _ = ?s ++ _ =>
                 apply app_inj_length in Heq as [_ Heq]; [|reflexivity]
             end.
      congruence.
    + intros Heq. injection Heq as Hy Hm Hd.
      unfold Datetime.date_isoformat. now rewrite Hy, Hm, Hd.
Qed.

Lemma convert_dttm_date_keeps_the_date_only_witness :
  let d1 := Datetime.mk_datetime 2020 1 2 3 4 5 6 None in
  let d2 := Datetime.mk_datetime 2020 1 2 23 59 59 999999 (Some (Some 0%Z)) in
  TrinoEngineSpec.convert_dttm "Date" d1 = Some "DATE '2020-01-02'"
  /\ TrinoEngineSpec.convert_dttm "Date" d1 = TrinoEngineSpec.convert_dttm "Date" d2.
Proof.
  intros d1 d2.
  destruct (convert_dttm_date_keeps_the_date_only "Date" d1 d2 eq_refl)
    as (Hlit & _ & Hsame).
  - unfold Datetime.well_formed; simpl; lia.
  - unfold Datetime.well_formed; simpl; lia.
  - split; [exact Hlit | apply Hsame; reflexivity].
Defined.

(** X2. There is a result exactly when the upper-cased target type is
    [DATE], [TIMESTAMP] or [TIMESTAMP WITH TIME ZONE]; for any other
    target type the result is [None], for every datetime. *)
Theorem convert_dttm_none_for_other_types
    (target_type : string) (dttm : Datetime.datetime) :
  TrinoEngineSpec.convert_dttm target_type dttm = None
  <-> (Py.upper target_type <> "DATE"
       /\ Py.upper target_type <> "TIMESTAMP"
       /\ Py.upper target_type <> "TIMESTAMP WITH TIME ZONE").
Proof.
  unfold TrinoEngineSpec.convert_dttm, TemporalType.DATE, TemporalType.TIMESTAMP,
    TemporalType.TIMESTAMP_WITH_TIME_ZONE.
  destruct (String.eqb_spec (Py.upper target_type) "DATE") as [->|Hd].
  - split; [discriminate | now intros [Hne _]].
  - destruct (String.eqb_spec (Py.upper target_type) "TIMESTAMP") as [->|Ht].
    + split; [discriminate | now intros (_ & Hne & _)].
    + destruct (String.eqb_spec (Py.upper target_type) "TIMESTAMP WITH TIME ZONE")
        as [->|Hz].
      * split; [discriminate | now intros (_ & _ & Hne)].
      * now split.
Qed.

(** X3. For a timestamp target type the literal keeps every field of a
    well-formed datetime: two literals agree only if year, month, day,
    hour, minute, second and microsecond agree, and the offset suffixes
    too. *)
Theorem convert_dttm_timestamp_keeps_every_field
    (target_type : string) (d1 d2 : Datetime.datetime) :
  Py.upper target_type = "TIMESTAMP"
  \/ Py.upper target_type = "TIMESTAMP WITH TIME ZONE" ->
  Datetime.well_formed d1 -> Datetime.well_formed d2 ->
  TrinoEngineSpec.convert_dttm target_type d1
  = TrinoEngineSpec.convert_dttm target_type d2 ->
  (Datetime.year d1, Datetime.month d1, Datetime.day d1)
  = (Datetime.year d2, Datetime.month d2, Datetime.day d2)
  /\ (Datetime.hour d1, Datetime.minute d1, Datetime.second d1,
      Datetime.microsecond d1)
     = (Datetime.hour d2, Datetime.minute d2, Datetime.second d2,
        Datetime.microsecond d2)
  /\ Datetime.format_offset (Datetime.utcoffset d1)
     = Datetime.format_offset (Datetime.utcoffset d2).
Proof.
  intros Htt Hwf1 Hwf2 Heq.
  rewrite !(convert_dttm_timestamp_eq target_type) in Heq by exact Htt.
  injection Heq as Heq. unfold Datetime.isoformat in Heq.
  rewrite !app_assoc_s in Heq.
  destruct (isoformat_local_inj " " d1 d2 _ _ Hwf1 Hwf2 Heq) as (Hdate & Htime & Hrest).
  split; [exact Hdate|]. split; [exact Htime|].
  now apply app_inv_tail_s in Hrest.
Qed.

Lemma convert_dttm_timestamp_keeps_every_field_witness :
  let d1 := Datetime.mk_datetime 2020 1 2 3 4 5 6 None in
  let d2 := Datetime.mk_datetime 2020 1 2 3 4 5 6 (Some None) in
  TrinoEngineSpec.convert_dttm "timestamp" d1
  = TrinoEngineSpec.convert_dttm "timestamp" d2
  /\ Datetime.microsecond d1 = Datetime.microsecond d2.
Proof.
  intros d1 d2. split; [reflexivity|].
  destruct (convert_dttm_timestamp_keeps_every_field "timestamp" d1 d2
              (or_introl eq_refl)) as (_ & Htime & _).
  - unfold Datetime.well_formed; simpl; lia.
  - unfold Datetime.well_formed; simpl; lia.
  - reflexivity.
  - exact (f_equal snd Htime).
Defined.

(** ** More on the time-grain table *)

(** X4. The table has an entry for [None] and the eight durations and for
    no other key, and no two keys share a template. *)
Theorem time_grain_expressions_keys_and_templates :
  (forall grain : option string,
     is_Some (TrinoEngineSpec._time_grain_expressions !! grain)
     <-> grain ∈ [None; Some "PT1S"; Some "PT1M"; Some "PT1H"; Some "P1D";
                  Some "P1W"; Some "P1M"; Some "P3M"; Some "P1Y"])
  /\ (forall (g1 g2 : option string) (template : string),
        TrinoEngineSpec._time_grain_expressions !! g1 = Some template ->
        TrinoEngineSpec._time_grain_expressions !! g2 = Some template ->
        g1 = g2).
Proof.
  unfold TrinoEngineSpec._time_grain_expressions. split.
  - intros grain. split.
    + intros [template Hin%elem_of_list_to_map_2].
      repeat (apply elem_of_cons in Hin as [Hin|Hin];
              [injection Hin as -> _; set_solver|]).
      now apply elem_of_nil in Hin.
    + intros Hin.
      repeat (apply elem_of_cons in Hin as [->|Hin];
              [vm_compute; eauto|]).
      now apply elem_of_nil in Hin.
  - intros g1 g2 template H1%elem_of_list_to_map_2 H2%elem_of_list_to_map_2.
    repeat (apply elem_of_cons in H1 as [H1|H1];
            [injection H1 as -> ->;
             repeat (apply elem_of_cons in H2 as [H2|H2]; [by simplify_eq|]);
             now apply elem_of_nil in H2|]).
    now apply elem_of_nil in H1.
Qed.

(** ** More on the database of a URI *)

Section QuoteFacts.

Lemma hex_value_hex_char (k : nat) :
  k < 16 -> Reading.hex_value (Py.hex_char k) = k.
Proof.
  intros Hk. do 16 (destruct k as [|k]; [reflexivity|]). lia.
Qed.

Lemma quote_byte_unsafe (c : ascii) :
  Py.always_safe c = false ->
  Py.quote_byte c
  = String "%" (String (Py.hex_char (nat_of_ascii c / 16))
                  (String (Py.hex_char (nat_of_ascii c mod 16)) EmptyString)).
Proof. intros Hc. unfold Py.quote_byte. now rewrite Hc. Qed.

Lemma quote_byte_safe (c : ascii) :
  Py.always_safe c = true -> Py.quote_byte c = String c EmptyString.
Proof. intros Hc. unfold Py.quote_byte. now rewrite Hc. Qed.

(** The two hexadecimal digits of an escape determine the byte. *)
Lemma hex_digits_inj (c1 c2 : ascii) :
  Py.hex_char (nat_of_ascii c1 / 16) = Py.hex_char (nat_of_ascii c2 / 16) ->
  Py.hex_char (nat_of_ascii c1 mod 16) = Py.hex_char (nat_of_ascii c2 mod 16) ->
  c1 = c2.
Proof.
  intros Hhi Hlo.
  pose proof (nat_ascii_bounded c1) as Hb1. pose proof (nat_ascii_bounded c2) as Hb2.
  apply (f_equal Reading.hex_value) in Hhi, Hlo.
  rewrite !hex_value_hex_char in Hhi
    by (apply Nat.Div0.div_lt_upper_bound; lia).
  rewrite !hex_value_hex_char in Hlo by (apply Nat.mod_upper_bound; lia).
  rewrite <- (ascii_nat_embedding c1), <- (ascii_nat_embedding c2). f_equal.
  rewrite (Nat.div_mod_eq (nat_of_ascii c1) 16), (Nat.div_mod_eq (nat_of_ascii c2) 16).
  now rewrite Hhi, Hlo.
Qed.

(** Different texts have different encodings. *)
Lemma quote_inj (s1 : string) : forall s2 : string,
  Py.quote s1 = Py.quote s2 -> s1 = s2.
Proof.
  induction s1 as [|c1 s1 IH]; intros [|c2 s2] Heq; cbn [Py.quote] in Heq.
  - reflexivity.
  - destruct (Py.always_safe c2) eqn:H2;
      [rewrite (quote_byte_safe c2 H2) in Heq
      |rewrite (quote_byte_unsafe c2 H2) in Heq]; discriminate Heq.
  - destruct (Py.always_safe c1) eqn:H1;
      [rewrite (quote_byte_safe c1 H1) in Heq
      |rewrite (quote_byte_unsafe c1 H1) in Heq]; discriminate Heq.
  - destruct (Py.always_safe c1) eqn:H1, (Py.always_safe c2) eqn:H2;
      rewrite ?(quote_byte_safe c1 H1), ?(quote_byte_unsafe c1 H1),
              ?(quote_byte_safe c2 H2), ?(quote_byte_unsafe c2 H2) in Heq;
      simpl in Heq.
    + injection Heq as -> Heq. now rewrite (IH s2 Heq).
    + injection Heq as -> _. discriminate H1.
    + injection Heq as <- _. discriminate H2.
    + injection Heq as Hhi Hlo Heq.
      rewrite (hex_digits_inj c1 c2 Hhi Hlo). now rewrite (IH s2 Heq).
Qed.

Lemma quote_length (s : string) :
  String.length s <= String.length (Py.quote s).
Proof.
  induction s as [|c s IH]; cbn [Py.quote]; [reflexivity|].
  rewrite length_app. simpl String.length.
  destruct (quote_byte_cases c) as [[_ ->]|[_ (h1 & h2 & -> & _)]];
    simpl String.length; lia.
Qed.

(** The encoding is the text itself exactly when every character of the
    text is a letter, a digit or one of [_.-~]. *)
Lemma quote_fixed_iff (s : string) :
  Py.quote s = s
  <-> (forall c, Py.has_char c s = true -> Py.always_safe c = true).
Proof.
  induction s as [|a s IH]; cbn [Py.quote Py.has_char].
  - split; [discriminate | reflexivity].
  - destruct (Py.always_safe a) eqn:Ha.
    + rewrite (quote_byte_safe a Ha). simpl. split.
      * intros Heq c Hc. injection Heq as Heq.
        apply orb_true_iff in Hc as [->%Ascii.eqb_eq | Hc]; [exact Ha|].
        now apply IH.
      * intros Hall. f_equal. apply IH. intros c Hc. apply Hall.
        rewrite Hc. apply orb_true_r.
    + rewrite (quote_byte_unsafe a Ha). simpl. split.
      * intros Heq. injection Heq as _ Heq. exfalso.
        apply (f_equal String.length) in Heq. simpl in Heq.
        pose proof (quote_length s). lia.
      * intros Hall. specialize (Hall a). rewrite Ascii.eqb_refl in Hall.
        specialize (Hall eq_refl). congruence.
Qed.

End QuoteFacts.

(** X5. Without a schema, with an empty schema, without a database or
    with an empty database the URI is left as it is. *)
Theorem adjust_database_uri_without_schema_or_database
    (uri : URL) (selected_schema : option string) :
  selected_schema = None \/ selected_schema = Some EmptyString
  \/ database uri = None \/ database uri = Some EmptyString ->
  TrinoEngineSpec.adjust_database_uri uri selected_schema = uri.
Proof.
  intros Hcase. apply adjust_database_uri_noop.
  destruct Hcase as [-> | [-> | [-> | ->]]]; simpl;
    rewrite ?andb_false_r; reflexivity.
Qed.

Lemma adjust_database_uri_without_schema_or_database_witness :
  let uri := mk_URL "trino" None None (Some "host") None (Some "hive/default") [] in
  TrinoEngineSpec.adjust_database_uri uri (Some EmptyString) = uri.
Proof.
  intros uri.
  exact (adjust_database_uri_without_schema_or_database uri (Some EmptyString)
           (or_intror (or_introl eq_refl))).
Defined.

(** X6. Of two adjustments the second decides: adjusting with any schema
    and then with a non-empty schema gives what adjusting with the
    second alone gives; the catalog survives the first adjustment. *)
Theorem adjust_database_uri_last_schema_wins
    (uri : URL) (first : option string) (second : string) :
  second <> EmptyString ->
  TrinoEngineSpec.adjust_database_uri
    (TrinoEngineSpec.adjust_database_uri uri first) (Some second)
  = TrinoEngineSpec.adjust_database_uri uri (Some second).
Proof.
  intros Hsecond.
  destruct (opt_truthy first && opt_truthy (database uri)) eqn:Hboth;
    [|now rewrite (adjust_database_uri_noop uri first Hboth)].
  apply andb_true_iff in Hboth as [Hs Hd].
  destruct first as [[|c sch]|]; try discriminate Hs.
  destruct (database uri) as [[|x db]|] eqn:Hdb; try discriminate Hd.
  rewrite (adjust_database_uri_eq uri (String x db) (String c sch) Hdb)
    by discriminate.
  rewrite (adjust_database_uri_eq uri (String x db) second Hdb)
    by (discriminate || exact Hsecond).
  set (catalog := Py.split_head "/" (String x db)).
  set (encoded := Py.quote (String c sch)).
  assert (catalog ++ "/" ++ encoded <> EmptyString) as Hne
    by (destruct catalog; discriminate).
  match goal with
  | |- TrinoEngineSpec.adjust_database_uri ?once _ = _ =>
      rewrite (adjust_database_uri_eq once (catalog ++ "/" ++ encoded)
                 second eq_refl Hne Hsecond)
  end.
  simpl.
  change (catalog ++ "/" ++ encoded) with (catalog ++ String "/" encoded).
  rewrite (split_head_app "/" catalog encoded) by apply split_head_no_sep.
  reflexivity.
Qed.

Lemma adjust_database_uri_last_schema_wins_witness :
  let uri := mk_URL "trino" None None (Some "host") None (Some "hive/default") [] in
  database (TrinoEngineSpec.adjust_database_uri
              (TrinoEngineSpec.adjust_database_uri uri (Some "a/b")) (Some "sales"))
  = Some "hive/sales".
Proof.
  intros uri.
  rewrite (adjust_database_uri_last_schema_wins uri (Some "a/b") "sales")
    by discriminate.
  reflexivity.
Defined.

(** X7. With a non-empty database, different non-empty schemas give
    different databases: no schema is taken for another one, not even a
    schema that already looks like an encoding. *)
Theorem adjust_database_uri_schemas_do_not_collide
    (uri : URL) (db schema1 schema2 : string) :
  database uri = Some db -> db <> EmptyString ->
  schema1 <> EmptyString -> schema2 <> EmptyString ->
  schema1 <> schema2 ->
  database (TrinoEngineSpec.adjust_database_uri uri (Some schema1))
  <> database (TrinoEngineSpec.adjust_database_uri uri (Some schema2)).
Proof.
  intros Hdb Hne H1 H2 Hdiff.
  rewrite (adjust_database_uri_eq uri db schema1 Hdb Hne H1).
  rewrite (adjust_database_uri_eq uri db schema2 Hdb Hne H2).
  cbn [database]. intros Heq. injection Heq as Heq.
  apply app_inj_length in Heq as [_ Heq]; [|reflexivity].
  injection Heq as Heq. apply Hdiff. now apply quote_inj.
Qed.

Lemma adjust_database_uri_schemas_do_not_collide_witness :
  let uri := mk_URL "trino" None None (Some "host") None (Some "hive/default") [] in
  database (TrinoEngineSpec.adjust_database_uri uri (Some "a/b")) = Some "hive/a%2Fb"
  /\ database (TrinoEngineSpec.adjust_database_uri uri (Some "a%2Fb"))
     = Some "hive/a%252Fb"
  /\ database (TrinoEngineSpec.adjust_database_uri uri (Some "a/b"))
     <> database (TrinoEngineSpec.adjust_database_uri uri (Some "a%2Fb")).
Proof.
  intros uri. split; [reflexivity|]. split; [reflexivity|].
  exact (adjust_database_uri_schemas_do_not_collide uri "hive/default" "a/b" "a%2Fb"
           eq_refl ltac:(discriminate) ltac:(discriminate) ltac:(discriminate)
           ltac:(discriminate)).
Defined.

(** X8. With a non-empty database, the non-empty schema is appended to
    the catalog as it is exactly when each of its characters is a
    letter, a digit or one of [_.-~]; any other character is escaped. *)
Theorem adjust_database_uri_plain_schema_verbatim
    (uri : URL) (db selected_schema : string) :
  database uri = Some db -> db <> EmptyString -> selected_schema <> EmptyString ->
  database (TrinoEngineSpec.adjust_database_uri uri (Some selected_schema))
  = Some (Py.split_head "/" db ++ "/" ++ selected_schema)
  <-> (forall c, Py.has_char c selected_schema = true -> Py.always_safe c = true).
Proof.
  intros Hdb Hne Hs.
  rewrite (adjust_database_uri_eq uri db selected_schema Hdb Hne Hs).
  cbn [database]. rewrite <- quote_fixed_iff. split.
  - intros Heq. injection Heq as Heq.
    apply app_inj_length in Heq as [_ Heq]; [|reflexivity].
    now injection Heq as Heq.
  - now intros ->.
Qed.

Lemma adjust_database_uri_plain_schema_verbatim_witness :
  let uri := mk_URL "trino" None None (Some "host") None (Some "hive/default") [] in
  database (TrinoEngineSpec.adjust_database_uri uri (Some "sales_2020"))
  = Some "hive/sales_2020".
Proof.
  intros uri.
  apply (adjust_database_uri_plain_schema_verbatim uri "hive/default" "sales_2020"
           eq_refl ltac:(discriminate) ltac:(discriminate)).
  intros c Hc. cbn [Py.has_char] in Hc.
  repeat (apply orb_true_iff in Hc as [<-%Ascii.eqb_eq | Hc]; [reflexivity|]).
  discriminate Hc.
Defined.

(** ** More on impersonation *)

(** The backend name is [trino] for the driver [trino] and for the
    drivers [trino+<name>], and for no other. *)
Lemma get_backend_name_trino (url : URL) :
  get_backend_name url = "trino"
  <-> (drivername url = "trino" \/ exists d, drivername url = "trino+" ++ d).
Proof.
  unfold get_backend_name. split.
  - intros Hhead.
    destruct (split_head_prefix "+" (drivername url)) as (rest & Heq & Hrest).
    rewrite Hhead in Heq. destruct Hrest as [-> | [r ->]].
    + left. exact Heq.
    + right. exists r. exact Heq.
  - intros [-> | [d ->]]; [reflexivity|].
    apply (split_head_app "+" "trino" d). reflexivity.
Qed.

(** X9. Whatever the arguments, only the entry [user] of [connect_args]
    can change; the call raises exactly when the URI does not parse, with
    the parser's error, and then changes nothing. *)
Theorem update_impersonation_config_touches_user_only `{Imports}
    (connect_args : gmap string value) (uri : string) (user : option string) :
  let run := TrinoEngineSpec.update_impersonation_config connect_args uri user in
  (forall key, key <> "user" -> snd run !! key = connect_args !! key)
  /\ (forall e, fst run = Raise e <-> make_url uri = Raise e)
  /\ (forall e, fst run = Raise e -> snd run = connect_args).
Proof.
  unfold TrinoEngineSpec.update_impersonation_config.
  destruct (make_url uri) as [url|e0]; cbn [fst snd].
  - destruct user as [name|];
      [destruct (String.eqb (get_backend_name url) "trino")|]; cbn [fst snd];
      (split; [|split]); try discriminate;
      try (intros e; split; discriminate);
      intros key Hkey; try reflexivity.
    now rewrite lookup_insert_ne.
  - split; [reflexivity|]. split; [|reflexivity].
    intros e. split; intros Heq; injection Heq as ->; reflexivity.
Qed.

(** X10. Of two calls for the same URI the second decides when it comes
    with a user name: the result is that of the second call alone. *)
Theorem update_impersonation_config_last_user_wins `{Imports}
    (connect_args : gmap string value) (uri : string)
    (first : option string) (second : string) :
  TrinoEngineSpec.update_impersonation_config
    (snd (TrinoEngineSpec.update_impersonation_config connect_args uri first))
    uri (Some second)
  = TrinoEngineSpec.update_impersonation_config connect_args uri (Some second).
Proof.
  unfold TrinoEngineSpec.update_impersonation_config.
  destruct (make_url uri) as [url|e]; [|reflexivity].
  destruct first as [name|]; [|reflexivity].
  destruct (String.eqb (get_backend_name url) "trino"); [|reflexivity].
  cbn [snd]. now rewrite insert_insert_eq.
Qed.

(** X11. With a user name and a URI that parses, [user] is written
    exactly for the driver [trino] and the drivers [trino+<name>]; for
    any other driver, [trinonative] among them, nothing is written. *)
Theorem update_impersonation_config_by_driver `{Imports}
    (connect_args : gmap string value) (uri name : string) (url : URL) :
  make_url uri = Ok url ->
  ((drivername url = "trino" \/ exists d, drivername url = "trino+" ++ d) ->
   TrinoEngineSpec.update_impersonation_config connect_args uri (Some name)
   = (Ok tt, <["user" := VStr name]> connect_args))
  /\ (~ (drivername url = "trino" \/ exists d, drivername url = "trino+" ++ d) ->
      TrinoEngineSpec.update_impersonation_config connect_args uri (Some name)
      = (Ok tt, connect_args)).
Proof.
  intros Hurl. unfold TrinoEngineSpec.update_impersonation_config. rewrite Hurl.
  rewrite <- get_backend_name_trino.
  destruct (String.eqb_spec (get_backend_name url) "trino") as [Heq|Hne];
    split; intros Hcase; congruence.
Qed.

Lemma update_impersonation_config_by_driver_witness :
  make_url (Imports := Sample.imports) "trino+rest://host/hive"
  = Ok (mk_URL "trino+rest" None None (Some "host") None (Some "hive") [])
  /\ TrinoEngineSpec.update_impersonation_config (H := Sample.imports)
       ∅ "trino+rest://host/hive" (Some "alice")
     = (Ok tt, <["user" := VStr "alice"]> ∅)
  /\ TrinoEngineSpec.update_impersonation_config (H := Sample.imports)
       ∅ "trinonative://host/hive" (Some "alice")
     = (Ok tt, ∅).
Proof.
  split; [reflexivity|]. split.
  - apply (update_impersonation_config_by_driver (H := Sample.imports)
             ∅ "trino+rest://host/hive" "alice" _ eq_refl).
    right. now exists "rest".
  - apply (update_impersonation_config_by_driver (H := Sample.imports)
             ∅ "trinonative://host/hive" "alice" _ eq_refl).
    intros [Heq | [d Heq]]; discriminate Heq.
Defined.

(** ** More on the TLS parameters *)

(** X12. With a server certificate that the certificate writer accepts,
    on base parameters that are a dictionary whose [engine_params] and
    [connect_args] are missing or dictionaries, the result is the base
    parameters with, in [connect_args], [http_scheme] set to [https]
    (whatever it was) and [verify] set to the path of the written
    certificate; every other entry of [connect_args], of [engine_params]
    and of the base parameters is kept. *)
Theorem get_extra_params_with_server_cert `{Imports}
    (db : Database) (cert path : string) (extra ep ca : gmap string value) :
  server_cert db = Some cert -> cert <> EmptyString ->
  BaseEngineSpec_get_extra_params db = Ok (VDict extra) ->
  default (VDict ∅) (extra !! "engine_params") = VDict ep ->
  default (VDict ∅) (ep !! "connect_args") = VDict ca ->
  create_ssl_cert_file cert = Ok path ->
  exists extra' ep' ca' : gmap string value,
    TrinoEngineSpec.get_extra_params db = Ok (VDict extra')
    /\ extra' !! "engine_params" = Some (VDict ep')
    /\ ep' !! "connect_args" = Some (VDict ca')
    /\ ca' !! "http_scheme" = Some (VStr "https")
    /\ ca' !! "verify" = Some (VStr path)
    /\ (forall key, key <> "http_scheme" -> key <> "verify" ->
                    ca' !! key = ca !! key)
    /\ (forall key, key <> "connect_args" -> ep' !! key = ep !! key)
    /\ (forall key, key <> "engine_params" -> extra' !! key = extra !! key).
Proof.
  intros Hcert Hne Hbase Hep Hca Hpath.
  exists (<["engine_params" :=
             VDict (<["connect_args" :=
                        VDict (<["verify" := VStr path]>
                                 (<["http_scheme" := VStr "https"]> ca))]> ep)]> extra),
         (<["connect_args" :=
              VDict (<["verify" := VStr path]>
                       (<["http_scheme" := VStr "https"]> ca))]> ep),
         (<["verify" := VStr path]> (<["http_scheme" := VStr "https"]> ca)).
  split.
  - unfold TrinoEngineSpec.get_extra_params. rewrite Hbase.
    cbn [mbind result_bind]. rewrite Hep, Hca, Hcert.
    rewrite (str_truthy_true _ Hne). cbn [setitem mbind result_bind].
    rewrite Hpath. reflexivity.
  - repeat split.
    + apply lookup_insert_eq.
    + apply lookup_insert_eq.
    + rewrite lookup_insert_ne by discriminate. apply lookup_insert_eq.
    + apply lookup_insert_eq.
    + intros key H1 H2. now rewrite !lookup_insert_ne.
    + intros key Hkey. now rewrite lookup_insert_ne.
    + intros key Hkey. now rewrite lookup_insert_ne.
Qed.

Lemma get_extra_params_with_server_cert_witness :
  exists extra' ep' ca' : gmap string value,
    TrinoEngineSpec.get_extra_params (H := Sample.imports)
      (mk_Database (Some "-----BEGIN CERTIFICATE-----") None)
    = Ok (VDict extra')
    /\ extra' !! "engine_params" = Some (VDict ep')
    /\ ep' !! "connect_args" = Some (VDict ca')
    /\ ca' !! "http_scheme" = Some (VStr "https")
    /\ ca' !! "verify" = Some (VStr "/tmp/server_cert.crt").
Proof.
  destruct (get_extra_params_with_server_cert (H := Sample.imports)
              (mk_Database (Some "-----BEGIN CERTIFICATE-----") None)
              "-----BEGIN CERTIFICATE-----" "/tmp/server_cert.crt" ∅ ∅ ∅
              eq_refl ltac:(discriminate) eq_refl eq_refl eq_refl eq_refl)
    as (extra' & ep' & ca' & Hget & Hep & Hca & Hscheme & Hverify & _).
  exists extra', ep', ca'. repeat split; assumption.
Defined.

(** X13. An error of the base class's [get_extra_params] is passed on,
    and so is an error of the certificate writer when there is a server
    certificate: no parameters are returned then. *)
Theorem get_extra_params_passes_errors_on `{Imports}
    (db : Database) (e : exn) :
  BaseEngineSpec_get_extra_params db = Raise e
  \/ (exists (cert : string) (extra ep ca : gmap string value),
        server_cert db = Some cert /\ cert <> EmptyString
        /\ BaseEngineSpec_get_extra_params db = Ok (VDict extra)
        /\ default (VDict ∅) (extra !! "engine_params") = VDict ep
        /\ default (VDict ∅) (ep !! "connect_args") = VDict ca
        /\ create_ssl_cert_file cert = Raise e) ->
  TrinoEngineSpec.get_extra_params db = Raise e.
Proof.
  unfold TrinoEngineSpec.get_extra_params.
  intros [Hbase | (cert & extra & ep & ca & Hcert & Hne & Hbase & Hep & Hca & Hfile)];
    rewrite Hbase; cbn [mbind result_bind]; [reflexivity|].
  rewrite Hep, Hca, Hcert, (str_truthy_true _ Hne).
  cbn [setitem mbind result_bind]. now rewrite Hfile.
Qed.

Lemma get_extra_params_passes_errors_on_witness :
  let failing : Imports := {|
    json_loads := Sample.loads;
    make_url := Sample.parse_url;
    create_ssl_cert_file := fun _ => Raise (CertificateException "Invalid certificate");
    BaseEngineSpec_get_extra_params := fun _ => Ok (VDict ∅);
    BasicAuthentication := Sample.strategy "trino.auth.BasicAuthentication";
    KerberosAuthentication := Sample.strategy "trino.auth.KerberosAuthentication";
    JWTAuthentication := Sample.strategy "trino.auth.JWTAuthentication";
    ALLOWED_EXTRA_AUTHENTICATIONS := ∅
  |} in
  TrinoEngineSpec.get_extra_params (H := failing) (mk_Database (Some "garbage") None)
  = Raise (CertificateException "Invalid certificate").
Proof.
  intros failing.
  apply (get_extra_params_passes_errors_on (H := failing)). right.
  exists "garbage", ∅, ∅, ∅. repeat split. discriminate.
Defined.

(** ** More on the authentication parameters *)

Section BuilderShape.

Context `{Imports}.

(** The stores the builder can end in: the log has gained what [logged]
    says, and [params] is unchanged, or has its [connect_args] filled in,
    or has [http_scheme] written to the dictionary [connect_args], or
    [http_scheme] and [auth]. *)
Lemma update_encrypted_extra_params_shape (db : Database) (st : store) :
  let run := TrinoEngineSpec.update_encrypted_extra_params db st in
  exists p' : gmap string value,
    snd run = mk_store p' (log st ++ logged (fst run))
    /\ (p' = params st
        \/ p' = <["connect_args" := connect_args_of (params st)]> (params st)
        \/ exists ca : gmap string value,
             connect_args_of (params st) = VDict ca
             /\ (p' = <["connect_args" :=
                          VDict (<["http_scheme" := VStr "https"]> ca)]> (params st)
                 \/ exists auth,
                      p' = <["connect_args" :=
                               VDict (<["auth" := auth]>
                                        (<["http_scheme" := VStr "https"]> ca))]>
                             (params st))).
Proof.
  assert (forall p : gmap string value, mk_store p (log st ++ [])
                                       = mk_store p (log st)) as Hnil
    by (intros p; now rewrite app_nil_r).
  destruct st as [p l]. cbn [params log] in *.
  unfold TrinoEngineSpec.update_encrypted_extra_params.
  destruct (encrypted_extra db) as [blob|];
    [|cbn; exists p; rewrite app_nil_r; split; [reflexivity | now left]].
  destruct (Py.str_truthy blob);
    [|cbn; exists p; rewrite app_nil_r; split; [reflexivity | now left]].
  cbn [negb].
  unfold try_except_JSONDecodeError, mbind, M_bind, lift, logger_error, raise.
  destruct (json_loads blob) as [v|e];
    [|destruct e; cbn; exists p; rewrite ?app_nil_r;
      (split; [reflexivity | now left])].
  destruct (pop v "auth_method" VNone) as [[m rest]|e];
    [|destruct e; cbn; exists p; rewrite ?app_nil_r;
      (split; [reflexivity | now left])].
  destruct (pop rest "auth_params" (VDict ∅)) as [[auth_params rest']|e];
    [|destruct e; cbn; exists p; rewrite ?app_nil_r;
      (split; [reflexivity | now left])].
  destruct (truthy m);
    [|cbn; exists p; rewrite app_nil_r; split; [reflexivity | now left]].
  cbn [negb]. unfold setdefault_connect_args, connect_args_setitem.
  cbn [params log]. rewrite connect_args_of_insert.
  destruct (connect_args_of p) as [| | | | | |ca|] eqn:Hca; cbn [setitem];
    try (cbn; eexists; rewrite app_nil_r;
         (split; [reflexivity | right; left; reflexivity])).
  rewrite insert_insert_eq.
  destruct (TrinoEngineSpec.resolve_trino_auth m) as [trino_auth|e];
    [|destruct e; cbn; eexists; rewrite ?app_nil_r; (split; [reflexivity|]);
      right; right; exists ca; (split; [reflexivity|]); left; reflexivity].
  destruct (call_kwargs trino_auth auth_params) as [auth|e];
    [|destruct e; cbn; eexists; rewrite ?app_nil_r; (split; [reflexivity|]);
      right; right; exists ca; (split; [reflexivity|]); left; reflexivity].
  cbn [params log]. rewrite connect_args_of_insert. cbn [setitem].
  rewrite insert_insert_eq. cbn. eexists. rewrite app_nil_r.
  split; [reflexivity|]. right; right. exists ca. split; [reflexivity|].
  right. now exists auth.
Qed.

End BuilderShape.

(** X17. Whatever the database and [params], and however the call ends,
    only the entry [connect_args] of [params] can have changed, and the
    log has gained exactly the decoder's error if that is what was raised
    and nothing otherwise. *)
Theorem update_encrypted_extra_params_touches_connect_args_only `{Imports}
    (db : Database) (st : store) :
  let run := TrinoEngineSpec.update_encrypted_extra_params db st in
  same_outside_connect_args st (snd run)
  /\ log (snd run) = (log st ++ logged (fst run))%list.
Proof.
  intros run.
  destruct (update_encrypted_extra_params_shape db st) as (p' & Hrun & Hcases).
  fold run in Hrun. rewrite Hrun. split; [|reflexivity].
  intros key Hkey. cbn [params].
  destruct Hcases as [-> | [-> | (ca & _ & [-> | [auth ->]])]];
    rewrite ?lookup_insert_ne by congruence; reflexivity.
Qed.

(** X18. Whatever the database and [params], and however the call ends,
    [connect_args] is what it was (an empty dictionary if it was
    missing), or it was a dictionary and is one still, with the same
    entries except [http_scheme] and [auth]. *)
Theorem update_encrypted_extra_params_keeps_other_connect_args `{Imports}
    (db : Database) (st : store) :
  same_outside_scheme_and_auth
    (connect_args_of (params st))
    (connect_args_of
       (params (snd (TrinoEngineSpec.update_encrypted_extra_params db st)))).
Proof.
  destruct (update_encrypted_extra_params_shape db st) as (p' & Hrun & Hcases).
  cbv zeta in Hrun. rewrite Hrun. cbn [params].
  destruct Hcases as [-> | [-> | (ca & Hca & [-> | [auth ->]])]];
    rewrite ?connect_args_of_insert.
  - now left.
  - now left.
  - right. exists ca, (<["http_scheme" := VStr "https"]> ca).
    split; [exact Hca|]. split; [reflexivity|].
    intros key Hs _. now rewrite lookup_insert_ne.
  - right. exists ca, (<["auth" := auth]> (<["http_scheme" := VStr "https"]> ca)).
    split; [exact Hca|]. split; [reflexivity|].
    intros key Hs Ha. now rewrite !lookup_insert_ne.
Qed.

(** X16. When the encrypted extra parses to an object without
    [auth_method], or with a falsy one, the call returns and neither
    [params] nor the log changes. *)
Theorem update_encrypted_extra_params_without_auth_method `{Imports}
    (db : Database) (blob : string) (extra : gmap string value) (st : store) :
  encrypted_extra db = Some blob ->
  json_loads blob = Ok (VDict extra) ->
  (forall m, extra !! "auth_method" = Some m -> truthy m = false) ->
  TrinoEngineSpec.update_encrypted_extra_params db st = (Ok tt, st).
Proof.
  intros Henc Hloads Hfalsy.
  unfold TrinoEngineSpec.update_encrypted_extra_params. rewrite Henc.
  destruct (Py.str_truthy blob); [|reflexivity]. cbn [negb].
  unfold try_except_JSONDecodeError, mbind, M_bind, lift. rewrite Hloads.
  cbn [pop].
  destruct (extra !! "auth_method") as [m|] eqn:Hm.
  - rewrite (Hfalsy m eq_refl). cbn [pop].
    destruct (delete "auth_method" extra !! "auth_params"); reflexivity.
  - cbn [pop]. destruct (extra !! "auth_params"); reflexivity.
Qed.

Lemma update_encrypted_extra_params_without_auth_method_witness :
  let blob := "{" ++ Sample.quoted "auth_params" ++ ": {"
              ++ Sample.quoted "x" ++ ": 1}}" in
  let st := mk_store (<["connect_args" := VDict (<["user" := VStr "alice"]> ∅)]> ∅) [] in
  json_loads (Imports := Sample.imports) blob
  = Ok (VDict (<["auth_params" := VDict (<["x" := VInt 1]> ∅)]> ∅))
  /\ TrinoEngineSpec.update_encrypted_extra_params (H := Sample.imports)
       (mk_Database None (Some blob)) st
     = (Ok tt, st).
Proof.
  intros blob st. split; [vm_compute; reflexivity|].
  refine (update_encrypted_extra_params_without_auth_method (H := Sample.imports)
            (mk_Database None (Some blob)) blob
            (<["auth_params" := VDict (<["x" := VInt 1]> ∅)]> ∅) st eq_refl _ _).
  - vm_compute; reflexivity.
  - intros m Hm. vm_compute in Hm. discriminate Hm.
Defined.

Section Strategies.

Context `{Imports}.

(** The run of the builder once the strategy class is known. *)
Lemma update_encrypted_extra_params_resolved (db : Database) (blob : string)
    (extra ca : gmap string value) (m : value) (factory : auth_factory)
    (st : store) :
  encrypted_extra db = Some blob -> blob <> EmptyString ->
  json_loads blob = Ok (VDict extra) ->
  extra !! "auth_method" = Some m -> truthy m = true ->
  connect_args_of (params st) = VDict ca ->
  TrinoEngineSpec.resolve_trino_auth m = Ok factory ->
  let forced := <["http_scheme" := VStr "https"]> ca in
  TrinoEngineSpec.update_encrypted_extra_params db st =
    match call_kwargs factory (default (VDict ∅) (extra !! "auth_params")) with
    | Ok auth =>
        (Ok tt,
         mk_store (<["connect_args" := VDict (<["auth" := auth]> forced)]> (params st))
                  (log st))
    | Raise e =>
        (Raise e,
         mk_store (<["connect_args" := VDict forced]> (params st))
                  (log st ++ logged (Raise e)))
    end.
Proof.
  intros Henc Hne Hloads Hm Htruthy Hca Hresolve forced.
  rewrite (update_encrypted_extra_params_run db blob extra ca m st
             Henc Hne Hloads Hm Htruthy Hca).
  rewrite Hresolve. cbn [mbind result_bind].
  rewrite lookup_delete_ne by discriminate.
  destruct (call_kwargs factory (default (VDict ∅) (extra !! "auth_params")))
    as [auth|e]; [reflexivity|].
  destruct e; cbn [logged params]; rewrite ?app_nil_r; reflexivity.
Qed.

Lemma resolve_trino_auth_allow_listed (name : string)
    (table : gmap string auth_factory) (factory : auth_factory) :
  name <> "basic" -> name <> "kerberos" -> name <> "jwt" ->
  ALLOWED_EXTRA_AUTHENTICATIONS !! "trino" = Some table ->
  table !! name = Some factory ->
  TrinoEngineSpec.resolve_trino_auth (VStr name) = Ok factory.
Proof.
  intros Hb Hk Hj Htable Hname. unfold TrinoEngineSpec.resolve_trino_auth.
  cbn [eq_str]. apply String.eqb_neq in Hb, Hk, Hj. rewrite Hb, Hk, Hj.
  cbn [hashable_str mbind result_bind]. rewrite Htable. cbn [from_option id].
  now rewrite Hname.
Qed.

End Strategies.

(** X14. For the method [basic], [kerberos] or [jwt] the strategy of
    [trino.auth] of that name is built from [auth_params] (no arguments
    when [auth_params] is missing), whatever the allow-list holds; when
    that succeeds, [connect_args] gains [http_scheme = "https"] and the
    strategy under [auth], and nothing else changes. *)
Theorem builtin_auth_method_configures_auth `{Imports}
    (db : Database) (blob name : string) (extra ca : gmap string value)
    (factory : auth_factory) (auth : value) (st : store) :
  encrypted_extra db = Some blob -> blob <> EmptyString ->
  json_loads blob = Ok (VDict extra) ->
  extra !! "auth_method" = Some (VStr name) ->
  (name, factory) ∈ [("basic", BasicAuthentication);
                     ("kerberos", KerberosAuthentication);
                     ("jwt", JWTAuthentication)] ->
  connect_args_of (params st) = VDict ca ->
  call_kwargs factory (default (VDict ∅) (extra !! "auth_params")) = Ok auth ->
  TrinoEngineSpec.update_encrypted_extra_params db st
  = (Ok tt,
     mk_store (<["connect_args" :=
                   VDict (<["auth" := auth]> (<["http_scheme" := VStr "https"]> ca))]>
                 (params st))
              (log st)).
Proof.
  intros Henc Hne Hloads Hm Hbuiltin Hca Hcall.
  assert (truthy (VStr name) = true
          /\ TrinoEngineSpec.resolve_trino_auth (VStr name) = Ok factory)
    as [Htruthy Hresolve].
  { repeat (apply elem_of_cons in Hbuiltin as [Hbuiltin|Hbuiltin];
            [injection Hbuiltin as -> ->; split; reflexivity|]).
    now apply elem_of_nil in Hbuiltin. }
  rewrite (update_encrypted_extra_params_resolved db blob extra ca (VStr name)
             factory st Henc Hne Hloads Hm Htruthy Hca Hresolve).
  now rewrite Hcall.
Qed.

Lemma builtin_auth_method_configures_auth_witness :
  let blob := "{" ++ Sample.quoted "auth_method" ++ ": " ++ Sample.quoted "basic"
              ++ ", " ++ Sample.quoted "auth_params" ++ ": {"
              ++ Sample.quoted "x" ++ ": 1}}" in
  json_loads (Imports := Sample.imports) blob
  = Ok (VDict (<["auth_method" := VStr "basic"]>
                 (<["auth_params" := VDict (<["x" := VInt 1]> ∅)]> ∅)))
  /\ TrinoEngineSpec.update_encrypted_extra_params (H := Sample.imports)
       (mk_Database None (Some blob)) (mk_store ∅ [])
     = (Ok tt,
        mk_store (<["connect_args" :=
                      VDict (<["auth" := VObj "trino.auth.BasicAuthentication"
                                              (<["x" := VInt 1]> ∅)]>
                               (<["http_scheme" := VStr "https"]> ∅))]> ∅) []).
Proof.
  intros blob. split; [vm_compute; reflexivity|].
  refine (builtin_auth_method_configures_auth (H := Sample.imports)
            (mk_Database None (Some blob)) blob "basic"
            (<["auth_method" := VStr "basic"]>
               (<["auth_params" := VDict (<["x" := VInt 1]> ∅)]> ∅))
            ∅ BasicAuthentication _ (mk_store ∅ [])
            eq_refl _ _ _ _ eq_refl _).
  - discriminate.
  - vm_compute; reflexivity.
  - vm_compute; reflexivity.
  - apply elem_of_cons. now left.
  - vm_compute; reflexivity.
Defined.

(** X15. For a method other than the three built-in ones that the
    allow-list of the engine [trino] registers, the registered factory is
    called with [auth_params]; when that succeeds, [connect_args] gains
    [http_scheme = "https"] and the result under [auth], and nothing else
    changes. *)
Theorem allow_listed_auth_method_configures_auth `{Imports}
    (db : Database) (blob name : string) (extra ca : gmap string value)
    (table : gmap string auth_factory) (factory : auth_factory)
    (auth : value) (st : store) :
  encrypted_extra db = Some blob -> blob <> EmptyString ->
  json_loads blob = Ok (VDict extra) ->
  extra !! "auth_method" = Some (VStr name) ->
  name <> EmptyString ->
  name <> "basic" -> name <> "kerberos" -> name <> "jwt" ->
  ALLOWED_EXTRA_AUTHENTICATIONS !! "trino" = Some table ->
  table !! name = Some factory ->
  connect_args_of (params st) = VDict ca ->
  call_kwargs factory (default (VDict ∅) (extra !! "auth_params")) = Ok auth ->
  TrinoEngineSpec.update_encrypted_extra_params db st
  = (Ok tt,
     mk_store (<["connect_args" :=
                   VDict (<["auth" := auth]> (<["http_scheme" := VStr "https"]> ca))]>
                 (params st))
              (log st)).
Proof.
  intros Henc Hne Hloads Hm Hname Hb Hk Hj Htable Hfactory Hca Hcall.
  rewrite (update_encrypted_extra_params_resolved db blob extra ca (VStr name)
             factory st Henc Hne Hloads Hm (str_truthy_true _ Hname) Hca
             (resolve_trino_auth_allow_listed name table factory
                Hb Hk Hj Htable Hfactory)).
  now rewrite Hcall.
Qed.

Lemma allow_listed_auth_method_configures_auth_witness :
  let blob := "{" ++ Sample.quoted "auth_method" ++ ": " ++ Sample.quoted "ldap" ++ "}" in
  let allowing := Sample.imports_allowing "ldap" "custom.LDAPAuthentication" in
  TrinoEngineSpec.update_encrypted_extra_params (H := allowing)
    (mk_Database None (Some blob)) (mk_store ∅ [])
  = (Ok tt,
     mk_store (<["connect_args" :=
                   VDict (<["auth" := VObj "custom.LDAPAuthentication" ∅]>
                            (<["http_scheme" := VStr "https"]> ∅))]> ∅) []).
Proof.
  intros blob allowing.
  refine (allow_listed_auth_method_configures_auth (H := allowing)
            (mk_Database None (Some blob)) blob "ldap"
            (<["auth_method" := VStr "ldap"]> ∅) ∅
            {[ "ldap" := Sample.strategy "custom.LDAPAuthentication" ]}
            (Sample.strategy "custom.LDAPAuthentication") _ (mk_store ∅ [])
            eq_refl _ _ _ _ _ _ _ _ _ eq_refl _);
    try discriminate; vm_compute; reflexivity.
Defined.

(** X19. When [auth_params] is present but is not an object ([null]
    included: the empty default is for a missing key only), the call of
    the strategy raises a [TypeError]; [http_scheme] has been forced by
    then, [auth] is not written and nothing is logged. *)
Theorem auth_params_must_be_a_mapping `{Imports}
    (db : Database) (blob : string) (extra ca : gmap string value)
    (m v : value) (factory : auth_factory) (st : store) :
  encrypted_extra db = Some blob -> blob <> EmptyString ->
  json_loads blob = Ok (VDict extra) ->
  extra !! "auth_method" = Some m -> truthy m = true ->
  TrinoEngineSpec.resolve_trino_auth m = Ok factory ->
  extra !! "auth_params" = Some v -> (forall kw, v <> VDict kw) ->
  connect_args_of (params st) = VDict ca ->
  exists msg,
    TrinoEngineSpec.update_encrypted_extra_params db st
    = (Raise (TypeError msg),
       mk_store (<["connect_args" := VDict (<["http_scheme" := VStr "https"]> ca)]>
                   (params st))
                (log st)).
Proof.
  intros Henc Hne Hloads Hm Htruthy Hresolve Hparams Hnot Hca.
  rewrite (update_encrypted_extra_params_resolved db blob extra ca m factory st
             Henc Hne Hloads Hm Htruthy Hca Hresolve).
  rewrite Hparams. cbn [from_option id].
  destruct v; try (cbn; rewrite app_nil_r; eexists; reflexivity).
  now destruct (Hnot d).
Qed.

Lemma auth_params_must_be_a_mapping_witness :
  let blob := "{" ++ Sample.quoted "auth_method" ++ ": " ++ Sample.quoted "basic"
              ++ ", " ++ Sample.quoted "auth_params" ++ ": null}" in
  json_loads (Imports := Sample.imports) blob
  = Ok (VDict (<["auth_method" := VStr "basic"]> (<["auth_params" := VNone]> ∅)))
  /\ exists msg,
       TrinoEngineSpec.update_encrypted_extra_params (H := Sample.imports)
         (mk_Database None (Some blob)) (mk_store ∅ [])
       = (Raise (TypeError msg),
          mk_store (<["connect_args" := VDict (<["http_scheme" := VStr "https"]> ∅)]> ∅) []).
Proof.
  intros blob. split; [vm_compute; reflexivity|].
  refine (auth_params_must_be_a_mapping (H := Sample.imports)
            (mk_Database None (Some blob)) blob
            (<["auth_method" := VStr "basic"]> (<["auth_params" := VNone]> ∅))
            ∅ (VStr "basic") VNone BasicAuthentication (mk_store ∅ [])
            eq_refl _ _ _ eq_refl eq_refl _ _ eq_refl).
  - discriminate.
  - vm_compute; reflexivity.
  - vm_compute; reflexivity.
  - vm_compute; reflexivity.
  - discriminate.
Defined.

(** X20. When the encrypted extra is valid JSON but not an object (a
    list, a string, a number, [true], [false] or [null]), the call
    raises a [TypeError] or an [AttributeError]; [params] is unchanged
    and nothing is logged. *)
Theorem encrypted_extra_must_be_an_object `{Imports}
    (db : Database) (blob : string) (v : value) (st : store) :
  encrypted_extra db = Some blob -> blob <> EmptyString ->
  json_loads blob = Ok v ->
  match v with VDict _ | VObj _ _ => False | _ => True end ->
  exists msg,
    (TrinoEngineSpec.update_encrypted_extra_params db st
     = (Raise (TypeError msg), st)
     /\ exists l, v = VList l)
    \/ (TrinoEngineSpec.update_encrypted_extra_params db st
        = (Raise (AttributeError msg), st)
        /\ forall l, v <> VList l).
Proof.
  intros Henc Hne Hloads Hshape.
  unfold TrinoEngineSpec.update_encrypted_extra_params. rewrite Henc.
  rewrite (str_truthy_true _ Hne). cbn [negb].
  unfold try_except_JSONDecodeError, mbind, M_bind, lift. rewrite Hloads.
  destruct v; try contradiction; cbn [pop]; eexists;
    first [ left; split; [reflexivity | eauto]
          | right; split; [reflexivity | discriminate] ].
Qed.

Lemma encrypted_extra_must_be_an_object_witness :
  let st := mk_store (<["connect_args" := VDict ∅]> ∅) [] in
  json_loads (Imports := Sample.imports) "[1, 2]" = Ok (VList [VInt 1; VInt 2])
  /\ exists msg,
       TrinoEngineSpec.update_encrypted_extra_params (H := Sample.imports)
         (mk_Database None (Some "[1, 2]")) st
       = (Raise (TypeError msg), st).
Proof.
  intros st. split; [vm_compute; reflexivity|].
  destruct (encrypted_extra_must_be_an_object (H := Sample.imports)
              (mk_Database None (Some "[1, 2]")) "[1, 2]"
              (VList [VInt 1; VInt 2]) st eq_refl ltac:(discriminate)
              ltac:(vm_compute; reflexivity) I)
    as [msg [[Hrun _] | [_ Hnot]]].
  - now exists msg.
  - now destruct (Hnot [VInt 1; VInt 2]).
Defined.

(** X21. When [auth_method] is a non-empty JSON array or object, the
    membership test on the allow-list raises a [TypeError] (the value
    cannot be hashed) in place of the allow-list error; [http_scheme]
    has been forced by then and [auth] is not written. *)
Theorem unhashable_auth_method_raises_type_error `{Imports}
    (db : Database) (blob : string) (extra ca : gmap string value)
    (m : value) (st : store) :
  encrypted_extra db = Some blob -> blob <> EmptyString ->
  json_loads blob = Ok (VDict extra) ->
  extra !! "auth_method" = Some m -> truthy m = true ->
  (exists l, m = VList l) \/ (exists d, m = VDict d) ->
  connect_args_of (params st) = VDict ca ->
  exists msg,
    TrinoEngineSpec.update_encrypted_extra_params db st
    = (Raise (TypeError msg),
       mk_store (<["connect_args" := VDict (<["http_scheme" := VStr "https"]> ca)]>
                   (params st))
                (log st)).
Proof.
  intros Henc Hne Hloads Hm Htruthy Hshape Hca.
  rewrite (update_encrypted_extra_params_run db blob extra ca m st
             Henc Hne Hloads Hm Htruthy Hca).
  destruct Hshape as [[l ->] | [d ->]]; eexists; reflexivity.
Qed.

Lemma unhashable_auth_method_raises_type_error_witness :
  let blob := "{" ++ Sample.quoted "auth_method" ++ ": ["
              ++ Sample.quoted "basic" ++ "]}" in
  json_loads (Imports := Sample.imports) blob
  = Ok (VDict (<["auth_method" := VList [VStr "basic"]]> ∅))
  /\ exists msg,
       TrinoEngineSpec.update_encrypted_extra_params (H := Sample.imports)
         (mk_Database None (Some blob)) (mk_store ∅ [])
       = (Raise (TypeError msg),
          mk_store (<["connect_args" := VDict (<["http_scheme" := VStr "https"]> ∅)]> ∅) []).
Proof.
  intros blob. split; [vm_compute; reflexivity|].
  refine (unhashable_auth_method_raises_type_error (H := Sample.imports)
            (mk_Database None (Some blob)) blob
            (<["auth_method" := VList [VStr "basic"]]> ∅) ∅
            (VList [VStr "basic"]) (mk_store ∅ [])
            eq_refl _ _ _ eq_refl _ eq_refl).
  - discriminate.
  - vm_compute; reflexivity.
  - vm_compute; reflexivity.
  - left. now eexists.
Defined.

(** X22. Calling the builder again on the [params] it left gives the
    same outcome and leaves [params] as they are: a second call adds
    nothing to the first. *)
Theorem update_encrypted_extra_params_again `{Imports}
    (db : Database) (st : store) :
  let once := TrinoEngineSpec.update_encrypted_extra_params db st in
  let twice := TrinoEngineSpec.update_encrypted_extra_params db (snd once) in
  fst twice = fst once /\ params (snd twice) = params (snd once).
Proof.
  destruct st as [p l]. cbv zeta.
  unfold TrinoEngineSpec.update_encrypted_extra_params.
  destruct (encrypted_extra db) as [blob|]; [|now split].
  destruct (Py.str_truthy blob); [|now split].
  cbn [negb].
  unfold try_except_JSONDecodeError, mbind, M_bind, lift, logger_error, raise.
  destruct (json_loads blob) as [v|e]; [|destruct e; now split].
  destruct (pop v "auth_method" VNone) as [[m rest]|e]; [|destruct e; now split].
  destruct (pop rest "auth_params" (VDict ∅)) as [[auth_params rest']|e];
    [|destruct e; now split].
  destruct (truthy m); [|now split].
  cbn [negb]. unfold setdefault_connect_args, connect_args_setitem.
  cbn [params log]. rewrite !connect_args_of_insert.
  destruct (connect_args_of p) as [| | | | | |ca|] eqn:Hca; cbn [setitem];
    try (cbn [fst snd params log]; rewrite !connect_args_of_insert;
         cbn [setitem fst snd params log]; rewrite ?insert_insert_eq; now split).
  rewrite !insert_insert_eq.
  destruct (TrinoEngineSpec.resolve_trino_auth m) as [trino_auth|e].
  - destruct (call_kwargs trino_auth auth_params) as [auth|e].
    + cbn [fst snd params log]. rewrite !connect_args_of_insert. cbn [setitem].
      rewrite !insert_insert_eq. cbn [fst snd params log].
      rewrite !connect_args_of_insert. cbn [setitem].
      rewrite !insert_insert_eq. cbn [fst snd params log].
      rewrite !connect_args_of_insert. cbn [setitem].
      rewrite !insert_insert_eq. cbn [fst snd params].
      split; [reflexivity|]. do 2 f_equal.
      rewrite (insert_insert_ne _ "http_scheme" "auth") by discriminate.
      now rewrite !insert_insert_eq.
    + destruct e; cbn [fst snd params log]; rewrite !connect_args_of_insert;
        cbn [setitem fst snd params log]; rewrite !insert_insert_eq;
        now split.
  - destruct e; cbn [fst snd params log]; rewrite !connect_args_of_insert;
      cbn [setitem fst snd params log]; rewrite !insert_insert_eq;
      now split.
Qed.
